(* ===== verification/_CoqProject ===== *)
-Q . S2P
Prelude.v
Temporal.v
PyValue.v
Request.v
Email.v
Store.v
Schema.v
World.v
Sha256.v
Samples.v
Auth.v
Log.v
Accounts.v
Appointments.v
Dashboard.v
Invariants.v
Privacy.v
Router.v
Banner.v
System.v
Liveness.v
Concurrency.v
