(* ===== verification/Prelude.v ===== *)
(** * Hospital management API: a verification development of src/server.py

    ** The program

    src/server.py is a Flask application over a MySQL database with four
    tables ([admins], [doctors], [patients], [appointments]).  Each route
    is one view function: it reads the JSON body ([request.get_json()]),
    checks it with early [return jsonify(...), code]s, runs one or a few
    SQL statements through a cursor, commits, appends a line to the log
    with [log_operation], and answers [jsonify(...)].  Every body sits in
    [try: ... except Exception: app.logger.error(...); return 500].
    Values read back are passed through [serialize_data], which turns
    dates, times and durations into strings.  Flask dispatches a request
    to a route by path and method, or answers 404 or 405.

    ** The files

    - Prelude.v (this file): the handler monad [M S R E A] (state passing
      with an early-return outcome [Early] and a Python-exception outcome
      [Fault]), its laws, [guard], the notation [x <- m ;; k] in
      [hosp_scope], the hint databases [hosp] and [hosp_rw], and list
      lemmas the components share.
    - Temporal.v: [datetime], [date], [time], [timedelta] and the string
      forms of [serialize_data] (lines 57-76) and
      [CustomJSONEncoder.default] (lines 36-51): [isoformat()],
      [strftime] and the [02d] format of a timedelta with Python's floor
      division; MySQL's readers of DATE and TIME strings (from the spec).
    - PyValue.v: the Python values a handler builds, [serialize_data],
      [custom_default].
    - Request.v: the JSON body, the response, the exceptions, and the
      Python operations on the body ([in], [data[k]], [.get], [.lower()])
      with the exception each raises; the required-field and
      allowed-field loops.
    - Email.v: [re.match(r'[^@]+@[^@]+\.[^@]+', email)] (line 112).
    - Store.v: one table as its rows and AUTO_INCREMENT counter, and the
      SQL statements by id ([SELECT], [INSERT] with [lastrowid],
      [UPDATE], [DELETE], [COUNT( * )]), with their action on the finite
      map from ids to rows.  The engine is modelled from the spec.
    - Schema.v: the four row types in the column order of the source's
      INSERTs, the [Account] typeclass the three account tables share
      (name, username, password hash), the SELECT projections and the
      appointment join of the source, and the column conversions and
      [ORDER BY] of MySQL (from the spec): a text column stores [str] of
      an int and ["1"]/["0"] for a boolean ([mysql_text]), a DATETIME
      column rounds the microseconds to the second ([mysql_datetime]),
      and a username comparison compares the stored text with the
      converted parameter ([username_eq]).
    - World.v: the state a request sees ([world]: database, session
      cookie, log), [handler] (the [try/except]: a [Fault] discards the
      body's writes and logs the error), [log_operation], the abstract
      [PasswordHasher] class for [hash_password], and the tactics that
      run a handler symbolically ([hm_simpl], [hm_run], [hm_exec]).
    - Sha256.v: the [PasswordHasher] of the code, [hash_password] (lines
      78-79): [str.encode()], SHA-256 on 32-bit words with explicit
      wrap-around ([add32], [rotr]) and [hexdigest()].
    - Samples.v: a small concrete database and request bodies on which
      the theorems are instantiated (their witnesses).
    - Auth.v: [api_register], [api_login], [api_logout] (lines 89-204);
      [api_register] is its validation [register_validate], the read of
      the database its SELECTs see, and the rest [register_commit].
    - Log.v: the message [log_operation] records (lines 81-84), with
      Python's [str] and [repr] of the logged values; the line the
      logging handlers write for it in the [basicConfig] format (lines
      18-25, [asctime] with milliseconds) and the line [print] writes
      to standard output (line 85).
    - Accounts.v: the admin, doctor and patient routes (lines 206-575).
    - Appointments.v: the appointment routes (lines 578-711).
    - Dashboard.v: [get_dashboard_stats] (lines 715-749).
    - Invariants.v: the database invariant [db_inv] and one lemma per
      database write (insert, update, delete of each table) that it is
      preserved under the conditions the handlers check first.
    - Privacy.v: [no_key], the absence of a dict key anywhere in a
      Python value, and its lemmas on the bodies the handlers build.
    - Router.v: the route table, Werkzeug's [<int:...>] converter, the
      404 and 405 handlers, and [serve]: one request against a state;
      one symbolic run of every route ([route_paths]) shows that on each
      path an error answer keeps the database, the body has no
      [password] key, and [db_inv] is kept.
    - System.v: the server serving one request at a time ([step],
      [reachable]): the sequential reading of the spec, which the
      threaded server of Concurrency.v contains.
    - Liveness.v: [drain_doctor], a client that deletes a doctor's
      appointments and then the doctor, over the server of System.v.
    - Concurrency.v: the threaded server ([cstep]): any request may be
      served atomically, and a registration may run its SELECTs and its
      INSERT, a doctor deletion its SELECT and COUNT and its DELETE, as
      two steps with other requests between them (spec section 5); the
      states it reaches are [creachable].
    - Banner.v: the startup banner of the [__main__] block (lines
      767-800) as the text its [print] calls write, and the endpoints
      it announces read back from that text and compared with the route
      table of Router.v.

    Every handler is one Definition with the source's name ([api_...]),
    statement by statement: [guard] for [if ...: return ...], [early]
    for a [return] inside a branch, [raise] for the exception a Python
    operation raises, [write_db] for [cursor.execute(...)] followed by
    [commit()].  Handlers are executable: the witnesses run them on the
    sample data with [vm_compute] or [reflexivity].

    ** The theorems

    - Invariants (Concurrency.v, Router.v, Invariants.v): [store_inv] is
      the part of the invariant that survives threads: well-formed
      tables, no appointment whose patient or doctor is missing, only
      hashes in the password columns.  Every state of the threaded
      server satisfies it ([reachable_invariants], by induction on
      [rtc cstep]); every state of the one-request-at-a-time server also
      has distinct usernames within each account table ([db_inv]).  The
      induction steps are [route_paths] of Router.v, one symbolic run of
      every route whose leaves close with the write lemmas of
      Invariants.v.  With the SHA-256 hasher every stored password is 64
      lower-case hex digits (System.v, Sha256.v).
    - Concurrency (Concurrency.v): the insert half of a registration
      checks only the rows its SELECTs saw, and two concurrent
      registrations of one username both succeed, breaking [db_inv];
      a doctor booked between the COUNT and the DELETE of its deletion
      is kept by the foreign key and the request answers 500.
    - Progress (Liveness.v): from any state satisfying [db_inv] every
      doctor is deleted by some sequence of requests.
    - Safety of errors and privacy (Router.v): an answer with status
      400 or more leaves the database as it was, and no answer holds a
      [password] field.
    - Functional behaviour of the handlers, each branch: registration
      then login, the session a login stores and the session logout
      clears, 409 on a taken username, 401 on unknown credentials or a
      wrong password, 404 on an unknown id (through the router), the
      delete guards, the two outcomes of an update, create-then-get
      round trips for patients and appointments (through the column
      conversions: an int stored in a text column is read back as its
      digits, a [created_at] rounded to the second).
    - Operation log (Log.v): the line written to the log file and to
      standard output stays one line whatever strings the client put in
      the logged data.
    - Serialisation (PyValue.v, Temporal.v): [serialize_data] agrees with
      the encoder hook on every value; a non-negative duration
      round-trips through MySQL's TIME reader.
    - E-mail (Email.v): the executable check is equivalent to the
      pattern's language.
    - Divergences the modelling found, each proved: usernames shared
      between the doctor and patient tables (System.v), the admin and
      doctor lists serialise a tuple and leave datetimes unconverted, a
      negative duration prints with the hours of Python's floor division
      (["-1:59:59"] for minus one second), logout without a session logs
      the role [None] rather than ['UNKNOWN'], a [null] user type is a
      500, the e-mail pattern accepts any trailing text, and the startup
      banner omits [GET /api/appointments/<id>], an endpoint the router
      serves (Banner.v).

    ** Bounds and fuel

    Every recursion of the model of the server is structural (on
    strings, lists, the Python value tree and SHA-256's blocks).  The one fuel is that of
    [drain_doctor] (Liveness.v), the number of appointment deletions the
    client may issue: the doctor's appointment count is enough, since
    each deletion lowers it by one.  Integers are [Z]: Python ints are
    unbounded, and MySQL's INT and TIME ranges appear only in the column
    conversions (a TIME beyond +-838:59:59 is refused).  SHA-256's words
    are [Z] kept below [2^32] by [wrap] after every addition; its length
    field is the bit length modulo [2^64].

    ** Not modelled

    The handler theorems hold for any hash function; SHA-256 is
    instantiated only where a theorem is about the digest.  Not modelled:
    code points above 255 in strings (a character is one byte), the
    signing of the session cookie, CORS headers ([CORS(app)], line 15:
    headers are not part of a response here), the handlers' files and
    streams and the MySQL connection settings (lines 18-33: which
    files receive a log line, and which server holds the tables, are
    I/O), [app.run] (line 802, starting Werkzeug), the [500] error
    handler (lines 761-763: every view catches its own exceptions, so
    it is reached only by a failure outside the views), the text of a
    caught exception in the error log lines, Flask's
    automatic HEAD and OPTIONS and trailing-slash redirects, MySQL
    collations (ORDER BY and the username comparisons compare character
    codes, where MySQL's default collation ignores case and trailing
    spaces), the comparison of a text column with an int parameter
    (MySQL compares them as numbers; here the int is converted to text),
    the length limits of VARCHAR columns, the 32-bit range of
    INT ids (AUTO_INCREMENT is unbounded here), float, array and object
    values inside a request body (a body field is [null], a boolean, an
    integer or a string), and concurrency beyond registration and
    doctor deletion: every other handler, the patient deletion
    included, is served atomically.  The schema is not in the
    repository: its foreign keys are taken from the spec, refusing an
    [INSERT] of an appointment with a dangling id and, as MySQL does by
    default, a [DELETE] of a referenced doctor or patient
    ([delete_restrict], World.v). *)

From Stdlib Require Import ZArith Lia.
From Stdlib Require String.
From stdpp Require Import base list option.

Declare Scope hosp_scope.
Delimit Scope hosp_scope with hosp.

Create HintDb hosp discriminated.
Hint Constants Transparent : hosp.
Create Rewrite HintDb hosp_rw.

(** ** The handler monad

    A Flask handler of the source runs a straight-line body that can
    - fall through to the next statement ([Next]),
    - leave early with [return jsonify(...), code] ([Early]),
    - raise a Python exception that the handler's [except Exception]
      clause turns into an HTTP 500 ([Fault]).
    The state [S] is threaded explicitly.  [run] is the [try/except]
    around a handler body. *)

Section Outcome.
Context {S R E : Type}.

Inductive outcome (A : Type) : Type :=
| Next (a : A) (s : S)
| Early (r : R) (s : S)
| Fault (e : E).

Definition M (A : Type) : Type := S -> outcome A.

Definition ret {A} (a : A) : M A := fun s => Next A a s.

Definition bind {A B} (m : M A) (k : A -> M B) : M B :=
  fun s =>
    match m s with
    | Next _ a s' => k a s'
    | Early _ r s' => Early B r s'
    | Fault _ e => Fault B e
    end.

Definition early {A} (r : R) : M A := fun s => Early A r s.
Definition raise {A} (e : E) : M A := fun _ => Fault A e.
Definition get : M S := fun s => Next S s s.
Definition modify (f : S -> S) : M unit := fun s => Next unit tt (f s).

(** [try: body except Exception: handler] where the body produces the
    response.  On a fault the state the body started from is kept. *)
Definition run (m : M R) (on_fault : S -> E -> R * S) (s : S) : R * S :=
  match m s with
  | Next _ r s' => (r, s')
  | Early _ r s' => (r, s')
  | Fault _ e => on_fault s e
  end.

(** The three monad laws. *)
Lemma bind_ret_l {A B} (a : A) (k : A -> M B) s : bind (ret a) k s = k a s.
Proof. reflexivity. Qed.

Lemma bind_ret_r {A} (m : M A) s : bind m ret s = m s.
Proof. unfold bind, ret. by destruct (m s). Qed.

Lemma bind_assoc {A B C} (m : M A) (k : A -> M B) (h : B -> M C) s :
  bind (bind m k) h s = bind m (fun a => bind (k a) h) s.
Proof. unfold bind. by destruct (m s). Qed.

Lemma bind_next {A B} (m : M A) (k : A -> M B) s a s' :
  m s = Next A a s' -> bind m k s = k a s'.
Proof. unfold bind. by intros ->. Qed.

Lemma bind_early_eq {A B} (m : M A) (k : A -> M B) s r s' :
  m s = Early A r s' -> bind m k s = Early B r s'.
Proof. unfold bind. by intros ->. Qed.

Lemma bind_fault_eq {A B} (m : M A) (k : A -> M B) s e :
  m s = Fault A e -> bind m k s = Fault B e.
Proof. unfold bind. by intros ->. Qed.

Lemma bind_early {A B} (r : R) (k : A -> M B) s : bind (early r) k s = Early B r s.
Proof. reflexivity. Qed.

Lemma bind_raise {A B} (e : E) (k : A -> M B) s : bind (raise e) k s = Fault B e.
Proof. reflexivity. Qed.
End Outcome.

Arguments Next {S R E A} a s.
Arguments Early {S R E A} r s.
Arguments Fault {S R E A} e.
Arguments M S R E A : clear implicits.

#[export] Hint Rewrite @bind_ret_l @bind_early @bind_raise : hosp_rw.

Notation "x <- m ;; k" := (bind m (fun x => k))
  (at level 100, m at next level, right associativity) : hosp_scope.
Notation "m ;; k" := (bind m (fun _ => k))
  (at level 100, right associativity) : hosp_scope.

(** [when b (early r)]: the [if cond: return ...] guards of the source. *)
Definition guard {S R E} (b : bool) (r : R) : M S R E unit :=
  if b then early r else ret tt.

(** ** Tactics shared by the components *)

(** Unfold the monad plumbing of a handler applied to a state. *)
Ltac unfold_monad :=
  cbn [bind ret early raise get modify guard run] in *.

(** Case on the first [if] or [match] on a boolean in the goal. *)
Ltac case_if :=
  match goal with
  | |- context [if ?b then _ else _] =>
      let E := fresh "Eif" in destruct b eqn:E
  end.

Ltac case_if_in H :=
  match type of H with
  | context [if ?b then _ else _] =>
      let E := fresh "Eif" in destruct b eqn:E
  end.

(** ** Generic lemmas on lists and options *)

Lemma filter_length_le {A} (p : A -> bool) (l : list A) :
  length (List.filter p l) <= length l.
Proof.
  induction l as [|x l IH]; simpl; [lia|]. destruct (p x); simpl; lia.
Qed.

Lemma existsb_filter_nil {A} (p : A -> bool) (l : list A) :
  existsb p l = false <-> List.filter p l = [].
Proof.
  induction l as [|x l IH]; simpl; [done|].
  destruct (p x); simpl; [split; discriminate|]. exact IH.
Qed.

Lemma length_filter_pos {A} (p : A -> bool) (l : list A) :
  (0 < length (List.filter p l))%nat <-> existsb p l = true.
Proof.
  induction l as [|x l IH]; simpl; [split; [lia|discriminate]|].
  destruct (p x); simpl; [split; [done|lia]|]. exact IH.
Qed.

#[export] Hint Resolve filter_length_le : hosp.

Lemma string_length_app (s1 s2 : String.string) :
  String.length (String.append s1 s2) = (String.length s1 + String.length s2)%nat.
Proof. induction s1; simpl; congruence. Qed.

#[export] Hint Rewrite string_length_app : hosp_rw.

Lemma string_app_assoc (a b c : String.string) :
  String.append (String.append a b) c = String.append a (String.append b c).
Proof. induction a; simpl; congruence. Qed.

Lemma string_app_nil_r (a : String.string) : String.append a String.EmptyString = a.
Proof. induction a; simpl; congruence. Qed.

Lemma NoDup_map_filter {A B} (f : A -> B) (p : A -> bool) (l : list A) :
  NoDup (map f l) -> NoDup (map f (List.filter p l)).
Proof.
  induction l as [|x l IH]; simpl; [done|]. intros [Hx Hl]%list.NoDup_cons.
  destruct (p x); simpl; [|auto]. constructor; [|auto].
  intros Hin. apply Hx. apply list_elem_of_In in Hin. apply list_elem_of_In.
  apply in_map_iff in Hin as (y & <- & Hy). apply filter_In in Hy as [Hy _].
  by apply in_map.
Qed.

Lemma Forall_list_filter {A} (P : A -> Prop) (p : A -> bool) (l : list A) :
  Forall P l -> Forall P (List.filter p l).
Proof. induction 1; simpl; [done|]. destruct (p x); auto. Qed.

#[export] Hint Resolve NoDup_map_filter Forall_list_filter : hosp.
