(* ===== verification/Temporal.v ===== *)
(** * Temporal values and their string forms

    The Python [datetime], [date], [time] and [timedelta] values that
    MySQLdb returns for the DATETIME, DATE and TIME columns, and the
    string forms [serialize_data] (src/server.py lines 57-76) and
    [CustomJSONEncoder.default] (lines 36-51) give them:
    [isoformat()], [strftime('%H:%M:%S')] and the hand-written
    [f"{hours:02d}:{minutes:02d}:{seconds:02d}"] for a [timedelta].
    Python's [format(z, '02d')] is [fmt_d 2 z].  From the spec, as the
    schema is not in the repository: MySQL's readers of DATE and TIME
    strings, and the rounding of a DATETIME column to the second
    ([mysql_datetime], the carry into the next day included). *)

From Stdlib Require Import ZArith NArith Lia String Ascii Decimal DecimalN.
From stdpp Require Import base list option.
From S2P Require Import Prelude.

Local Open Scope string_scope.
Local Open Scope Z_scope.

(** ** Decimal digits *)

Fixpoint uint_to_string (d : uint) : string :=
  match d with
  | Nil => ""
  | D0 d => String "0" (uint_to_string d)
  | D1 d => String "1" (uint_to_string d)
  | D2 d => String "2" (uint_to_string d)
  | D3 d => String "3" (uint_to_string d)
  | D4 d => String "4" (uint_to_string d)
  | D5 d => String "5" (uint_to_string d)
  | D6 d => String "6" (uint_to_string d)
  | D7 d => String "7" (uint_to_string d)
  | D8 d => String "8" (uint_to_string d)
  | D9 d => String "9" (uint_to_string d)
  end.

Definition digit_of (a : ascii) : option (uint -> uint) :=
  if Ascii.eqb a "0" then Some D0 else if Ascii.eqb a "1" then Some D1
  else if Ascii.eqb a "2" then Some D2 else if Ascii.eqb a "3" then Some D3
  else if Ascii.eqb a "4" then Some D4 else if Ascii.eqb a "5" then Some D5
  else if Ascii.eqb a "6" then Some D6 else if Ascii.eqb a "7" then Some D7
  else if Ascii.eqb a "8" then Some D8 else if Ascii.eqb a "9" then Some D9
  else None.

(** Digits only, possibly with leading zeros; [""] reads as [Nil]. *)
Fixpoint string_to_uint (s : string) : option uint :=
  match s with
  | EmptyString => Some Nil
  | String a s' =>
      match digit_of a, string_to_uint s' with
      | Some f, Some d => Some (f d)
      | _, _ => None
      end
  end.

Definition decimal (n : N) : string := uint_to_string (N.to_uint n).

(** [str.zfill]-style left padding with ['0'] up to width [w]. *)
Fixpoint zeros (k : nat) : string :=
  match k with O => "" | S k => String "0" (zeros k) end.

Definition zfill (w : nat) (s : string) : string :=
  String.append (zeros (w - String.length s)) s.

(** Python's [format(z, '0<w>d')]: sign first, then zero padding of the
    magnitude to the remaining width. *)
Definition fmt_d (w : nat) (z : Z) : string :=
  if (z <? 0)%Z then String "-" (zfill (w - 1) (decimal (Z.to_N (- z))))
  else zfill w (decimal (Z.to_N z)).

(** Reading an unsigned decimal of at least one digit. *)
Definition parse_nat (s : string) : option Z :=
  match s with
  | EmptyString => None
  | _ => d ← string_to_uint s; Some (Z.of_N (N.of_uint d))
  end.

(** Reading an optionally signed decimal. *)
Definition parse_int (s : string) : option Z :=
  match s with
  | String "-" s' => z ← parse_nat s'; Some (- z)
  | _ => parse_nat s
  end.

(** Splitting on a separator character ([str.split(c)]). *)
Fixpoint split_on (c : ascii) (s : string) : list string :=
  match s with
  | EmptyString => [EmptyString]
  | String a s' =>
      if Ascii.eqb a c then EmptyString :: split_on c s'
      else match split_on c s' with
           | [] => [String a EmptyString]
           | w :: ws => String a w :: ws
           end
  end.

Fixpoint no_char (c : ascii) (s : string) : bool :=
  match s with
  | EmptyString => true
  | String a s' => negb (Ascii.eqb a c) && no_char c s'
  end.

(** ** Lemmas on digits *)

Lemma string_to_uint_to_string d : string_to_uint (uint_to_string d) = Some d.
Proof. induction d; simpl; try rewrite IHd; reflexivity. Qed.

Lemma zeros_to_uint k s :
  string_to_uint (zeros k ++ s) =
  Nat.iter k D0 <$> string_to_uint s.
Proof.
  induction k as [|k IH]; [simpl; destruct (string_to_uint s); reflexivity|].
  simpl string_to_uint. rewrite IH. destruct (string_to_uint s); reflexivity.
Qed.

Lemma of_uint_D0 d : N.of_uint (D0 d) = N.of_uint d.
Proof.
  rewrite <- (DecimalN.Unsigned.of_uint_norm (D0 d)).
  change (unorm (D0 d)) with (unorm d). apply DecimalN.Unsigned.of_uint_norm.
Qed.

Lemma of_uint_zeros k d : N.of_uint (Nat.iter k D0 d) = N.of_uint d.
Proof.
  induction k as [|k IH]; [reflexivity|].
  change (Nat.iter (S k) D0 d) with (D0 (Nat.iter k D0 d)). by rewrite of_uint_D0.
Qed.

Lemma decimal_nonempty n : decimal n <> "".
Proof.
  unfold decimal. destruct n as [|p]; [discriminate|].
  pose proof (DecimalPos.Unsigned.to_uint_nonnil p) as Hp.
  cbn [N.to_uint]. destruct (Pos.to_uint p); simpl; congruence.
Qed.

Lemma parse_nat_zfill w n : parse_nat (zfill w (decimal n)) = Some (Z.of_N n).
Proof.
  unfold parse_nat, zfill.
  assert (Hd : string_to_uint
                 (zeros (w - String.length (decimal n)) ++ decimal n)
               = Some (Nat.iter (w - String.length (decimal n)) D0 (N.to_uint n))).
  { rewrite zeros_to_uint. unfold decimal. by rewrite string_to_uint_to_string. }
  destruct (zeros _ ++ decimal n) as [|a s] eqn:Hs.
  - apply (f_equal String.length) in Hs. rewrite string_length_app in Hs.
    pose proof (decimal_nonempty n). destruct (decimal n); simpl in *; [done|lia].
  - rewrite Hd. simpl. by rewrite of_uint_zeros, DecimalN.Unsigned.of_to.
Qed.

#[export] Hint Rewrite parse_nat_zfill : hosp_rw.

(** [fmt_d] is read back by [parse_int], for every width and sign. *)
Lemma parse_int_fmt_d w z : parse_int (fmt_d w z) = Some z.
Proof.
  unfold fmt_d. destruct (Z.ltb_spec z 0).
  - cbn [parse_int]. rewrite parse_nat_zfill. simpl. f_equal. lia.
  - destruct (zfill w (decimal (Z.to_N z))) as [|a s] eqn:E.
    + pose proof (parse_nat_zfill w (Z.to_N z)) as H'. rewrite E in H'. discriminate.
    + assert (Ha : parse_nat (String a s) = Some z).
      { rewrite <- E, parse_nat_zfill. f_equal. lia. }
      destruct (Ascii.eqb_spec a "-") as [->|Hne].
      * exfalso. revert Ha. unfold parse_nat. simpl. discriminate.
      * unfold parse_int. destruct a as [[] [] [] [] [] [] [] []]; try exact Ha.
        exfalso; apply Hne; reflexivity.
Qed.

(** ** Splitting *)

Lemma no_char_app c s1 s2 : no_char c (s1 ++ s2) = no_char c s1 && no_char c s2.
Proof. induction s1 as [|a s1 IH]; simpl; [done|]. by rewrite IH, andb_assoc. Qed.

Lemma split_on_no_char c s : no_char c s = true -> split_on c s = [s].
Proof.
  induction s as [|a s IH]; simpl; [done|].
  intros [Ha Hs]%andb_prop. apply negb_true_iff in Ha. by rewrite Ha, IH.
Qed.

Lemma split_on_app c s1 s2 :
  no_char c s1 = true -> split_on c (s1 ++ String c s2) = s1 :: split_on c s2.
Proof.
  induction s1 as [|a s1 IH]; simpl.
  - by rewrite Ascii.eqb_refl.
  - intros [Ha Hs]%andb_prop. apply negb_true_iff in Ha. by rewrite Ha, IH.
Qed.

Lemma no_char_uint c d : digit_of c = None -> no_char c (uint_to_string d) = true.
Proof.
  intros Hc. induction d; cbn [uint_to_string no_char]; [done| ..];
    match goal with |- context [Ascii.eqb ?a c] =>
      destruct (Ascii.eqb_spec a c) as [<-|]; [discriminate Hc|] end; by rewrite IHd.
Qed.

Lemma no_char_zeros c k : digit_of c = None -> no_char c (zeros k) = true.
Proof.
  intros Hc. induction k as [|k IH]; cbn [zeros no_char]; [done|].
  destruct (Ascii.eqb_spec "0" c) as [<-|]; [discriminate Hc|]. by rewrite IH.
Qed.

Lemma no_char_zfill c w n : digit_of c = None -> no_char c (zfill w (decimal n)) = true.
Proof.
  intros Hc. unfold zfill, decimal. rewrite no_char_app, no_char_zeros, no_char_uint; done.
Qed.

(** A formatted number holds no separator other than its sign. *)
Lemma no_char_fmt_d c w z :
  digit_of c = None -> c <> "-"%char -> no_char c (fmt_d w z) = true.
Proof.
  intros Hc Hm. unfold fmt_d. case_if; [|by apply no_char_zfill].
  cbn [no_char]. destruct (Ascii.eqb_spec "-" c) as [<-|]; [done|].
  rewrite no_char_zfill; done.
Qed.

Lemma no_char_fmt_d_nonneg c w z :
  digit_of c = None -> (0 <= z)%Z -> no_char c (fmt_d w z) = true.
Proof.
  intros Hc Hz. unfold fmt_d. destruct (Z.ltb_spec z 0); [lia|]. by apply no_char_zfill.
Qed.

#[export] Hint Resolve no_char_fmt_d no_char_fmt_d_nonneg : hosp.

(** ** Python's temporal values *)

(** [datetime.date]: year, month, day. *)
Record date := mk_date { year : Z; month : Z; day : Z }.

#[export] Instance date_eq_dec : EqDecision date.
Proof. solve_decision. Defined.

(** [datetime.time]: hour, minute, second, microsecond. *)
Record time := mk_time { hour : Z; minute : Z; second : Z; microsecond : Z }.

(** [datetime.datetime], a date with a time of day. *)
Record datetime := mk_datetime { dt_date : date; dt_time : time }.

(** [datetime.timedelta], kept normalised by Python:
    [0 <= seconds < 86400] and [0 <= microseconds < 10^6]. *)
Record timedelta := mk_timedelta { td_days : Z; td_seconds : Z; td_microseconds : Z }.

Definition timedelta_normal (td : timedelta) : Prop :=
  (0 <= td_seconds td < 86400)%Z /\ (0 <= td_microseconds td < 1000000)%Z.

(** [date.isoformat()]: ["%04d-%02d-%02d"]. *)
Definition date_isoformat (d : date) : string :=
  fmt_d 4 (year d) ++ "-" ++ fmt_d 2 (month d) ++ "-" ++ fmt_d 2 (day d).

(** [time.strftime('%H:%M:%S')] (src/server.py lines 43 and 68). *)
Definition time_strftime (t : time) : string :=
  fmt_d 2 (hour t) ++ ":" ++ fmt_d 2 (minute t) ++ ":" ++ fmt_d 2 (second t).

(** [datetime.isoformat()]: date, ['T'], time, and [".%06d"] microseconds
    only when they are not zero. *)
Definition datetime_isoformat (dt : datetime) : string :=
  date_isoformat (dt_date dt) ++ "T" ++ time_strftime (dt_time dt) ++
  (if (microsecond (dt_time dt) =? 0)%Z then ""
   else "." ++ fmt_d 6 (microsecond (dt_time dt))).

(** [int(obj.total_seconds())]: the float quotient truncated toward zero.
    For the durations a MySQL TIME column holds (below 3.1e6 seconds) the
    float is within 2^-22 of the exact quotient, so truncation equals the
    integer quotient [Z.quot]. *)
Definition total_seconds_int (td : timedelta) : Z :=
  Z.quot ((td_days td * 86400 + td_seconds td) * 1000000 + td_microseconds td) 1000000.

(** src/server.py lines 70-74, the timedelta branch of [serialize_data]:
    floor division and modulo. *)
Definition format_timedelta (td : timedelta) : string :=
  let total_seconds := total_seconds_int td in
  let hours := total_seconds / 3600 in
  let minutes := (total_seconds mod 3600) / 60 in
  let seconds := total_seconds mod 60 in
  fmt_d 2 hours ++ ":" ++ fmt_d 2 minutes ++ ":" ++ fmt_d 2 seconds.

(** ** MySQL's reading of DATE and TIME literals (the column types of the
    schema, which is not part of the repository) *)

Definition is_leap (y : Z) : bool :=
  ((y mod 4 =? 0) && negb (y mod 100 =? 0)) || (y mod 400 =? 0).

Definition days_in_month (y m : Z) : Z :=
  if (m =? 2)%Z then (if is_leap y then 29 else 28)
  else if (m =? 4) || (m =? 6) || (m =? 9) || (m =? 11) then 30 else 31.

Definition date_valid (d : date) : bool :=
  (1 <=? year d) && (year d <=? 9999) && (1 <=? month d) && (month d <=? 12) &&
  (1 <=? day d) && (day d <=? days_in_month (year d) (month d)).

(** ['YYYY-MM-DD'] into a DATE. *)
Definition mysql_parse_date (s : string) : option date :=
  match split_on "-" s with
  | [y; m; d] =>
      Y ← parse_nat y; Mo ← parse_nat m; D ← parse_nat d;
      let dt := mk_date Y Mo D in if date_valid dt then Some dt else None
  | _ => None
  end.

(** ['[-]H:MM:SS'] or ['[-]H:MM'] into a TIME, as a signed number of
    seconds: the sign applies to the whole duration. *)
Definition hms_seconds (h m s : string) : option Z :=
  H ← parse_nat h; Mi ← parse_nat m; Se ← parse_nat s;
  if (Mi <? 60) && (Se <? 60) then Some (H * 3600 + Mi * 60 + Se) else None.

Definition split_sign (s : string) : bool * string :=
  match s with
  | String a s' => if Ascii.eqb a "-" then (true, s') else (false, s)
  | EmptyString => (false, s)
  end.

Definition mysql_parse_time (s : string) : option Z :=
  let '(neg, body) := split_sign s in
  v ← match split_on ":" body with
      | [h; m; sec] => hms_seconds h m sec
      | [h; m] => hms_seconds h m "0"
      | _ => None
      end;
  Some (if neg then - v else v).

(** ** MySQL's storing of a [datetime] in a DATETIME column

    [created_at] is declared without fractional seconds (the spec's
    "timestamp"): MySQL rounds the microseconds MySQLdb sends to the
    nearest second, half up, carrying into the minutes, hours and days. *)

Definition next_date (d : date) : date :=
  if day d <? days_in_month (year d) (month d) then mk_date (year d) (month d) (day d + 1)
  else if month d <? 12 then mk_date (year d) (month d + 1) 1
  else mk_date (year d + 1) 1 1.

(** One second later, on a datetime without microseconds. *)
Definition add_second (dt : datetime) : datetime :=
  let '(mk_datetime d (mk_time h mi se _)) := dt in
  if se <? 59 then mk_datetime d (mk_time h mi (se + 1) 0)
  else if mi <? 59 then mk_datetime d (mk_time h (mi + 1) 0 0)
  else if h <? 23 then mk_datetime d (mk_time (h + 1) 0 0 0)
  else mk_datetime (next_date d) (mk_time 0 0 0 0).

Definition mysql_datetime (dt : datetime) : datetime :=
  let '(mk_datetime d (mk_time h mi se us)) := dt in
  let whole := mk_datetime d (mk_time h mi se 0) in
  if us <? 500000 then whole else add_second whole.

(** ** Lemmas on the formats *)

Lemma parse_nat_fmt_d w z : (0 <= z)%Z -> parse_nat (fmt_d w z) = Some z.
Proof.
  intros Hz. unfold fmt_d. destruct (Z.ltb_spec z 0); [lia|].
  rewrite parse_nat_zfill. f_equal. lia.
Qed.

Lemma split_sign_no_minus s : no_char "-" s = true -> split_sign s = (false, s).
Proof.
  destruct s as [|a s]; [done|]. cbn [no_char split_sign].
  by destruct (Ascii.eqb a "-").
Qed.

Lemma split_on_three c a b d :
  no_char c a = true -> no_char c b = true -> no_char c d = true ->
  split_on c (a ++ String c (b ++ String c d)) = [a; b; d].
Proof.
  intros Ha Hb Hd. rewrite split_on_app by done. rewrite split_on_app by done.
  by rewrite split_on_no_char.
Qed.

(** The three fields a timedelta is printed with recompose its seconds,
    and minutes and seconds are in range, for every sign. *)
Lemma hms_decompose (ts : Z) :
  (ts / 3600) * 3600 + ((ts mod 3600) / 60) * 60 + ts mod 60 = ts /\
  0 <= (ts mod 3600) / 60 < 60 /\ 0 <= ts mod 60 < 60.
Proof.
  assert (Hmod : ts mod 60 = (ts mod 3600) mod 60).
  { symmetry. apply Z.mod_mod_divide. exists 60. reflexivity. }
  pose proof (Z.div_mod ts 3600 ltac:(lia)).
  pose proof (Z.mod_pos_bound ts 3600 ltac:(lia)).
  pose proof (Z.div_mod (ts mod 3600) 60 ltac:(lia)).
  pose proof (Z.mod_pos_bound (ts mod 3600) 60 ltac:(lia)).
  pose proof (Z.mod_pos_bound ts 60 ltac:(lia)).
  rewrite Hmod in *. repeat split; try lia.
Qed.

Lemma no_colon_fmt_d w z : no_char ":" (fmt_d w z) = true.
Proof. apply no_char_fmt_d; [reflexivity|discriminate]. Qed.

Lemma no_minus_fmt_d w z : (0 <= z)%Z -> no_char "-" (fmt_d w z) = true.
Proof. intros; apply no_char_fmt_d_nonneg; [reflexivity|done]. Qed.

#[export] Hint Resolve no_colon_fmt_d no_minus_fmt_d : hosp.

(** ** Theorems on the timedelta format *)

Lemma format_timedelta_shape td :
  let ts := total_seconds_int td in
  format_timedelta td =
  fmt_d 2 (ts / 3600) ++ String ":" (fmt_d 2 ((ts mod 3600) / 60) ++ String ":" (fmt_d 2 (ts mod 60))).
Proof. reflexivity. Qed.

Lemma hms_seconds_fmt h m s :
  (0 <= m < 60)%Z -> (0 <= s < 60)%Z -> (0 <= h)%Z ->
  hms_seconds (fmt_d 2 h) (fmt_d 2 m) (fmt_d 2 s) = Some (h * 3600 + m * 60 + s).
Proof.
  intros Hm Hs Hh. unfold hms_seconds. rewrite !parse_nat_fmt_d by lia. simpl.
  destruct (Z.ltb_spec m 60), (Z.ltb_spec s 60); simpl; [done|lia..].
Qed.

(** C26: A timedelta of zero or more seconds is printed as [H:MM:SS] and MySQL's
    TIME reader gives back the same number of seconds. *)
Theorem format_timedelta_roundtrip td :
  (0 <= total_seconds_int td)%Z ->
  mysql_parse_time (format_timedelta td) = Some (total_seconds_int td).
Proof.
  intros Hts. rewrite format_timedelta_shape. unfold mysql_parse_time.
  set (ts := total_seconds_int td) in *.
  destruct (hms_decompose ts) as (Hsum & Hm & Hs).
  assert (Hh : (0 <= ts / 3600)%Z) by (apply Z.div_pos; lia).
  rewrite split_sign_no_minus.
  2: { repeat (rewrite no_char_app || cbn [no_char]).
        rewrite !no_minus_fmt_d by lia. reflexivity. }
  rewrite split_on_three by auto with hosp.
  rewrite hms_seconds_fmt by lia. simpl. by rewrite Hsum.
Qed.

(** C27: A negative timedelta is printed with floor division: the hours carry
    the sign but minutes and seconds count upward from them, so MySQL's
    reader (which negates the whole [H:MM:SS]) gets a value that is off by
    twice the sub-hour remainder. *)
Theorem format_timedelta_negative td :
  (total_seconds_int td < 0)%Z ->
  mysql_parse_time (format_timedelta td) =
  Some (total_seconds_int td - 2 * (total_seconds_int td mod 3600)).
Proof.
  intros Hts. rewrite format_timedelta_shape. unfold mysql_parse_time.
  set (ts := total_seconds_int td) in *.
  destruct (hms_decompose ts) as (Hsum & Hm & Hs).
  pose proof (Z.div_mod ts 3600 ltac:(lia)) as Hdm.
  assert (Hh : (ts / 3600 < 0)%Z) by (apply Z.div_lt_upper_bound; lia).
  unfold fmt_d at 1. destruct (Z.ltb_spec (ts / 3600) 0); [|lia].
  cbn [split_sign String.append Ascii.eqb Bool.eqb andb].
  rewrite split_on_three by (try apply no_char_zfill; auto with hosp).
  unfold hms_seconds. rewrite parse_nat_zfill, !parse_nat_fmt_d by lia. simpl.
  destruct (Z.ltb_spec ((ts mod 3600) / 60) 60), (Z.ltb_spec (ts mod 60) 60); [|lia..].
  simpl. f_equal. lia.
Qed.

(** One second before midnight of the previous day, [timedelta(seconds=-1)],
    is printed as ["-1:59:59"], which reads back as -7199 seconds. *)
Lemma format_timedelta_negative_witness :
  format_timedelta (mk_timedelta (-1) 86399 0) = "-1:59:59"%string /\
  (total_seconds_int (mk_timedelta (-1) 86399 0) < 0)%Z /\
  mysql_parse_time (format_timedelta (mk_timedelta (-1) 86399 0)) = Some (-7199)%Z.
Proof.
  split; [vm_compute; reflexivity|]. split; [vm_compute; reflexivity|].
  rewrite (format_timedelta_negative (mk_timedelta (-1) 86399 0)) by (vm_compute; reflexivity).
  vm_compute. reflexivity.
Defined.

Lemma format_timedelta_roundtrip_witness :
  format_timedelta (mk_timedelta 0 34200 0) = "09:30:00"%string /\
  mysql_parse_time (format_timedelta (mk_timedelta 0 34200 0)) = Some 34200%Z.
Proof.
  split; [vm_compute; reflexivity|].
  rewrite (format_timedelta_roundtrip (mk_timedelta 0 34200 0)) by (vm_compute; discriminate).
  reflexivity.
Defined.
