(* ===== verification/PyValue.v ===== *)
(** * Python values returned by the database and their serialisation

    [pyval] is the tree of Python objects a handler builds from cursor
    results: [None], booleans, ints, strings, the four temporal types,
    lists, tuples ([cursor.fetchall()] returns a tuple) and dicts (a
    [DictCursor] row, kept in column order).  [serialize_data] is
    src/server.py lines 57-76 and [custom_default] is
    [CustomJSONEncoder.default], lines 36-51. *)

From Stdlib Require Import ZArith String.
From stdpp Require Import base list option.
From S2P Require Import Prelude Temporal.

Local Open Scope string_scope.
Local Open Scope Z_scope.

#[local] Set Warnings "-register-all".

Inductive pyval : Type :=
| PyNone
| PyBool (b : bool)
| PyInt (z : Z)
| PyStr (s : string)
| PyDatetime (dt : datetime)
| PyDate (d : date)
| PyTime (t : time)
| PyTimedelta (td : timedelta)
| PyList (l : list pyval)
| PyTuple (l : list pyval)
| PyDict (kv : list (string * pyval)).

(** Induction through the lists of a list, tuple or dict. *)
Section pyval_rect.
Context (P : pyval -> Prop)
  (HNone : P PyNone) (HBool : forall b, P (PyBool b)) (HInt : forall z, P (PyInt z))
  (HStr : forall s, P (PyStr s)) (HDatetime : forall dt, P (PyDatetime dt))
  (HDate : forall d, P (PyDate d)) (HTime : forall t, P (PyTime t))
  (HTimedelta : forall td, P (PyTimedelta td))
  (HList : forall l, Forall P l -> P (PyList l))
  (HTuple : forall l, Forall P l -> P (PyTuple l))
  (HDict : forall kv, Forall (fun kx => P (snd kx)) kv -> P (PyDict kv)).

Fixpoint pyval_ind' (v : pyval) : P v :=
  match v with
  | PyNone => HNone
  | PyBool b => HBool b
  | PyInt z => HInt z
  | PyStr s => HStr s
  | PyDatetime dt => HDatetime dt
  | PyDate d => HDate d
  | PyTime t => HTime t
  | PyTimedelta td => HTimedelta td
  | PyList l => HList l ((fix go (l : list pyval) : Forall P l := match l with
                          | [] => Forall_nil_2 _
                          | x :: l' => Forall_cons_2 _ x l' (pyval_ind' x) (go l')
                          end) l)
  | PyTuple l => HTuple l ((fix go (l : list pyval) : Forall P l := match l with
                            | [] => Forall_nil_2 _
                            | x :: l' => Forall_cons_2 _ x l' (pyval_ind' x) (go l')
                            end) l)
  | PyDict kv => HDict kv ((fix go (kv : list (string * pyval)) : Forall (fun kx => P (snd kx)) kv := match kv with
                            | [] => Forall_nil_2 _
                            | kx :: kv' => Forall_cons_2 _ kx kv' (pyval_ind' (snd kx)) (go kv')
                            end) kv)
  end.
End pyval_rect.

(** [serialize_data]: dicts and lists are walked, the temporal types
    become strings, and everything else, a tuple included, is returned as
    it is ([isinstance(data, list)] is false for a tuple). *)
Fixpoint serialize_data (v : pyval) : pyval :=
  match v with
  | PyDict kv => PyDict (map (fun kx => (fst kx, serialize_data (snd kx))) kv)
  | PyList l => PyList (map serialize_data l)
  | PyDatetime dt => PyStr (datetime_isoformat dt)
  | PyDate d => PyStr (date_isoformat d)
  | PyTime t => PyStr (time_strftime t)
  | PyTimedelta td => PyStr (format_timedelta td)
  | _ => v
  end.

(** [CustomJSONEncoder.default] (lines 36-51): [None] is the [TypeError]
    raised by [super().default(obj)].  The timedelta branch is the
    arithmetic of lines 46-50, written out as the encoder has it. *)
Definition custom_default (v : pyval) : option pyval :=
  match v with
  | PyDatetime dt => Some (PyStr (datetime_isoformat dt))
  | PyDate d => Some (PyStr (date_isoformat d))
  | PyTime t => Some (PyStr (time_strftime t))
  | PyTimedelta td =>
      let total_seconds := total_seconds_int td in
      let hours := total_seconds / 3600 in
      let minutes := (total_seconds mod 3600) / 60 in
      let seconds := total_seconds mod 60 in
      Some (PyStr (fmt_d 2 hours ++ ":" ++ fmt_d 2 minutes ++ ":" ++ fmt_d 2 seconds))
  | _ => None
  end.

(** A value [json.dumps] encodes without a [default] hook: no temporal
    value anywhere inside. *)
Fixpoint json_ready (v : pyval) : bool :=
  match v with
  | PyDatetime _ | PyDate _ | PyTime _ | PyTimedelta _ => false
  | PyList l | PyTuple l => forallb json_ready l
  | PyDict kv => forallb (fun kx => json_ready (snd kx)) kv
  | _ => true
  end.

(** No tuple anywhere inside. *)
Fixpoint tuple_free (v : pyval) : bool :=
  match v with
  | PyTuple _ => false
  | PyList l => forallb tuple_free l
  | PyDict kv => forallb (fun kx => tuple_free (snd kx)) kv
  | _ => true
  end.

Definition is_temporal (v : pyval) : bool :=
  match v with
  | PyDatetime _ | PyDate _ | PyTime _ | PyTimedelta _ => true
  | _ => false
  end.

(** [d[k]] on a dict (its first entry with key [k]). *)
Definition py_dict_get (k : string) (v : pyval) : option pyval :=
  match v with
  | PyDict kv => snd <$> List.find (fun kx => String.eqb kx.1 k) kv
  | _ => None
  end.

(** ** Lemmas *)

Lemma forallb_map_impl {A B} (p : A -> bool) (q : B -> bool) (f : A -> B) (l : list A) :
  Forall (fun x => p x = true -> q (f x) = true) l ->
  forallb p l = true -> forallb q (map f l) = true.
Proof.
  induction 1 as [|x l Hx _ IH]; simpl; [done|].
  intros [Hp Hl]%andb_prop. by rewrite Hx, IH.
Qed.

Lemma forallb_map_true {A B} (f : A -> B) (g : B -> bool) (l : list A) :
  Forall (fun x => g (f x) = true) l -> forallb g (map f l) = true.
Proof. induction 1; simpl; [done|]. by apply andb_true_intro. Qed.

Lemma forallb_map_false {A B} (f : A -> B) (g : B -> bool) (l : list A) :
  l <> [] -> (forall x, g (f x) = false) -> forallb g (map f l) = false.
Proof. destruct l as [|x l]; [done|]. intros _ Hg. simpl. by rewrite Hg. Qed.

Lemma map_ext_Forall' {A B} (f g : A -> B) (l : list A) :
  Forall (fun x => f x = g x) l -> map f l = map g l.
Proof. induction 1; simpl; congruence. Qed.

(** ** Theorems *)

(** [serialize_data] turns every temporal value of a tuple-free tree into
    a string: its result is JSON-encodable without the encoder hook. *)
Lemma serialize_data_tuple_free_ready (v : pyval) :
  tuple_free v = true -> json_ready (serialize_data v) = true.
Proof.
  induction v as [| | | | | | | |l IH|l IH|kv IH] using pyval_ind'; simpl; try done.
  - apply forallb_map_impl. exact IH.
  - apply forallb_map_impl. exact IH.
Qed.

(** Serialising twice is serialising once. *)
Theorem serialize_data_idempotent (v : pyval) :
  serialize_data (serialize_data v) = serialize_data v.
Proof.
  induction v as [| | | | | | | |l IH|l IH|kv IH] using pyval_ind'; simpl; try done.
  - f_equal. rewrite map_map. by apply map_ext_Forall'.
  - f_equal. rewrite map_map. apply map_ext_Forall'.
    rewrite Forall_forall in IH |- *. intros [k x] Hin. simpl. by rewrite (IH _ Hin : serialize_data (serialize_data x) = _).
Qed.

(** C28: The unused [CustomJSONEncoder.default] agrees with [serialize_data] on
    every value it accepts and refuses (TypeError) every other: its own
    timedelta arithmetic (lines 46-50) prints every duration as the
    timedelta branch of [serialize_data] (lines 70-74) does. *)
Theorem custom_default_serialize_data (v : pyval) :
  custom_default v = if is_temporal v then Some (serialize_data v) else None.
Proof. by destruct v. Qed.
