(* ===== verification/Request.v ===== *)
(** * Requests, responses and the Python operations the handlers use

    A request body is what [request.get_json()] gives: a JSON object (a
    Python dict, here a [gmap string value]), the JSON [null] (Python
    [None]), or a body that makes [get_json()] raise.  The handlers apply
    [in], [data[...]], [data.get(...)], [.lower()] and truthiness to it;
    each raises the exception Python raises when the operand has the wrong
    type.  A response is [jsonify(body), status]. *)

From Stdlib Require Import ZArith String Ascii.
From stdpp Require Import base list option gmap strings.
From S2P Require Import Prelude Temporal PyValue.

Local Open Scope string_scope.
Local Open Scope Z_scope.

(** JSON scalars a client sends as field values. *)
Inductive value : Type :=
| VNull
| VBool (b : bool)
| VInt (z : Z)
| VStr (s : string).

#[export] Instance value_eq_dec : EqDecision value.
Proof. solve_decision. Defined.

(** The body as [request.get_json()] returns it. *)
Inductive payload : Type :=
| PObject (m : gmap string value)
| PNone
| PInvalid.

(** The Python exceptions the handlers can raise (each caught by the
    handler's [except Exception] and answered with HTTP 500). *)
Inductive exn : Type :=
| TypeError          (** [f in None] *)
| AttributeError     (** [None.get], [x.lower()] on a non-string *)
| KeyError           (** [data[f]] with [f] absent *)
| BadRequest         (** [get_json()] on a body that is not JSON *)
| IntegrityError     (** a constraint of the schema refused a write *)
| DataError.         (** a column refused a value *)

Record response := mk_response { status_code : Z; body : pyval }.

(** [jsonify({'error': msg}), code] *)
Definition error_response (code : Z) (msg : string) : response :=
  mk_response code (PyDict [("error", PyStr msg)]).

Definition internal_error : response := error_response 500 "Internal server error".

Definition value_to_py (v : value) : pyval :=
  match v with
  | VNull => PyNone
  | VBool b => PyBool b
  | VInt z => PyInt z
  | VStr s => PyStr s
  end.

(** Python truthiness of a JSON scalar ([not x]). *)
Definition truthy (v : value) : bool :=
  match v with
  | VNull => false
  | VBool b => b
  | VInt z => negb (z =? 0)
  | VStr s => negb (String.eqb s "")
  end.

(** [str.lower()] on ASCII. *)
Definition lower_ascii (a : ascii) : ascii :=
  let n := nat_of_ascii a in
  if (65 <=? n)%nat && (n <=? 90)%nat then ascii_of_nat (n + 32) else a.

Fixpoint lower (s : string) : string :=
  match s with
  | EmptyString => EmptyString
  | String a s' => String (lower_ascii a) (lower s')
  end.

(** ** The Python operations, in the handler monad *)

Section PyOps.
Context {S : Type}.
Abbreviation PM := (M S response exn).

(** [data = request.get_json()] *)
Definition get_json (p : payload) : PM (option (gmap string value)) :=
  match p with
  | PObject m => ret (Some m)
  | PNone => ret None
  | PInvalid => raise BadRequest
  end.

(** [field in data] *)
Definition py_in (f : string) (data : option (gmap string value)) : PM bool :=
  match data with
  | Some m => ret (match m !! f with Some _ => true | None => false end)
  | None => raise TypeError
  end.

(** [data[field]] *)
Definition py_getitem (data : option (gmap string value)) (f : string) : PM value :=
  match data with
  | Some m => match m !! f with Some v => ret v | None => raise KeyError end
  | None => raise TypeError
  end.

(** [data.get(field, default)] *)
Definition py_get (data : option (gmap string value)) (f : string) (d : value) : PM value :=
  match data with
  | Some m => ret (default d (m !! f))
  | None => raise AttributeError
  end.

(** [x.lower()] *)
Definition py_lower (v : value) : PM string :=
  match v with
  | VStr s => ret (lower s)
  | _ => raise AttributeError
  end.

(** [for field in required_fields: if field not in data: return 400] *)
Fixpoint require_fields (fields : list string) (data : option (gmap string value)) : PM unit :=
  match fields with
  | [] => ret tt
  | f :: fs =>
      present <- py_in f data ;;
      guard (negb present) (error_response 400 ("Missing required field: " ++ f)) ;;
      require_fields fs data
  end%hosp.

(** [for field in allowed_fields: if field in data:
        update_fields.append(...); values.append(data[field])] *)
Fixpoint collect_fields (fields : list string) (data : option (gmap string value))
  : PM (list (string * value)) :=
  match fields with
  | [] => ret []
  | f :: fs =>
      present <- py_in f data ;;
      if present then
        v <- py_getitem data f ;;
        rest <- collect_fields fs data ;;
        ret ((f, v) :: rest)
      else collect_fields fs data
  end%hosp.
End PyOps.

(** The fields of an object that are in a list of allowed names, in the
    order of the list: the [for field in allowed_fields: if field in data]
    loops of the update handlers. *)
Fixpoint present_fields (allowed : list string) (m : gmap string value) : list (string * value) :=
  match allowed with
  | [] => []
  | f :: fs =>
      match m !! f with
      | Some v => (f, v) :: present_fields fs m
      | None => present_fields fs m
      end
  end.

(** ** Lemmas *)

Lemma value_to_py_tuple_free v : tuple_free (value_to_py v) = true.
Proof. by destruct v. Qed.

(** [serialize_data] leaves a JSON scalar as it is. *)
Lemma serialize_value_to_py v : serialize_data (value_to_py v) = value_to_py v.
Proof. by destruct v. Qed.


Lemma require_fields_ok {S} (fields : list string) (m : gmap string value) (s : S) :
  Forall (fun f => is_Some (m !! f)) fields ->
  require_fields fields (Some m) s = Next tt s.
Proof.
  induction 1 as [|f fs Hf _ IH]; [reflexivity|].
  cbn [require_fields]. unfold bind, py_in, ret, guard.
  destruct Hf as [v ->]. exact IH.
Qed.

Lemma require_fields_missing {S} (fields : list string) (m : gmap string value) (s : S) :
  Exists (fun f => m !! f = None) fields ->
  exists f, f ∈ fields /\ m !! f = None /\
    require_fields fields (Some m) s = Early (error_response 400 ("Missing required field: " ++ f)) s.
Proof.
  induction fields as [|f fs IH]; [by inversion 1|].
  cbn [require_fields]. unfold bind at 1, py_in, ret, guard.
  destruct (m !! f) as [v|] eqn:Hf.
  - cbn. intros [? | Hex]%Exists_cons; [congruence|].
    destruct (IH Hex) as (g & Hg & Hgm & Hr). exists g. split; [by right|]. done.
  - intros _. exists f. split; [left|]. done.
Qed.

Lemma require_fields_none {S} (fields : list string) (s : S) :
  fields <> [] -> require_fields fields None s = Fault TypeError.
Proof. destruct fields; [done|]. reflexivity. Qed.

Lemma present_fields_nil allowed m :
  present_fields allowed m = [] <-> Forall (fun f => m !! f = None) allowed.
Proof.
  induction allowed as [|f fs IH]; cbn [present_fields]; [split; auto|].
  destruct (m !! f) eqn:Hf.
  - split; [discriminate|]. intros [? ?]%Forall_cons; congruence.
  - rewrite IH, Forall_cons. naive_solver.
Qed.

Lemma collect_fields_some {S} fields m (s : S) :
  collect_fields fields (Some m) s = Next (present_fields fields m) s.
Proof.
  induction fields as [|f fs IH]; [reflexivity|]. cbn [collect_fields present_fields].
  unfold bind at 1, py_in, ret at 1. destruct (m !! f) as [v|] eqn:Hf.
  - cbn. rewrite Hf. cbn. by rewrite (bind_next _ _ _ _ _ IH).
  - exact IH.
Qed.

Lemma collect_fields_none {S} fields (s : S) :
  fields <> [] -> collect_fields fields None s = Fault TypeError.
Proof. destruct fields; [done|]. reflexivity. Qed.
