(* ===== verification/Email.v ===== *)
(** * The e-mail check of registration

    [re.match(r'[^@]+@[^@]+\.[^@]+', email)] (src/server.py line 112).
    [re.match] anchors the pattern at the start of the string only, so
    any text may follow the part the pattern matches.  [email_re_match] is
    the executable check; [email_regex] is the language of the pattern
    (followed by anything) stated as string decompositions; the theorem
    [email_re_match_spec] proves them equivalent. *)

From Stdlib Require Import ZArith String Ascii.
From stdpp Require Import base list option.
From S2P Require Import Prelude Temporal.

Local Open Scope string_scope.

(** Split at the first ['@']: the text before it, and the text after it
    if there is one. *)
Fixpoint before_at (s : string) : string * option string :=
  match s with
  | EmptyString => (EmptyString, None)
  | String a s' =>
      if Ascii.eqb a "@" then (EmptyString, Some s')
      else let '(l, r) := before_at s' in (String a l, r)
  end.

(** The longest prefix without ['@']. *)
Fixpoint upto_at (s : string) : string :=
  match s with
  | EmptyString => EmptyString
  | String a s' => if Ascii.eqb a "@" then EmptyString else String a (upto_at s')
  end.

(** Some ['.'] is followed by at least one more character. *)
Fixpoint dot_then_char (s : string) : bool :=
  match s with
  | EmptyString => false
  | String a s' =>
      (Ascii.eqb a "." && match s' with String _ _ => true | EmptyString => false end)
      || dot_then_char s'
  end.

(** [[^@]+] takes the text up to the first ['@']; then [@]; then within
    the next ['@']-free stretch, one character or more, a dot, and one
    character or more. *)
Definition email_re_match (s : string) : bool :=
  match before_at s with
  | (l, Some r) =>
      negb (String.eqb l "") &&
      match upto_at r with
      | String _ seg => dot_then_char seg
      | EmptyString => false
      end
  | (_, None) => false
  end.

(** The strings the pattern matches a prefix of. *)
Definition email_regex (s : string) : Prop :=
  exists l d t rest,
    l <> "" /\ d <> "" /\ t <> "" /\
    no_char "@" l = true /\ no_char "@" d = true /\ no_char "@" t = true /\
    s = l ++ "@" ++ d ++ "." ++ t ++ rest.

(** ** Lemmas *)

Lemma before_at_app l r : no_char "@" l = true -> before_at (l ++ String "@" r) = (l, Some r).
Proof.
  induction l as [|a l IH]; simpl; [done|].
  intros [Ha Hl]%andb_prop. apply negb_true_iff in Ha. by rewrite Ha, IH.
Qed.

Lemma before_at_inv s l r :
  before_at s = (l, Some r) -> s = l ++ String "@" r /\ no_char "@" l = true.
Proof.
  revert l. induction s as [|a s IH]; intros l; simpl; [discriminate|].
  destruct (Ascii.eqb_spec a "@") as [->|Ha].
  - intros [= <- ->]. done.
  - destruct (before_at s) as [l' r'] eqn:E. intros [= <- ->].
    destruct (IH l' eq_refl) as [-> Hl]. simpl. split; [done|].
    destruct (Ascii.eqb_spec a "@"); [done|]. exact Hl.
Qed.

Lemma upto_at_app x y : no_char "@" x = true -> upto_at (x ++ y) = x ++ upto_at y.
Proof.
  induction x as [|a x IH]; simpl; [done|].
  intros [Ha Hx]%andb_prop. apply negb_true_iff in Ha. by rewrite Ha, IH.
Qed.

Lemma upto_at_prefix r : no_char "@" (upto_at r) = true /\ exists rest, r = upto_at r ++ rest.
Proof.
  induction r as [|a r [IHn [rest IHr]]]; simpl; [split; [done|by exists ""]|].
  destruct (Ascii.eqb_spec a "@") as [->|Ha]; simpl.
  - split; [done|]. by exists (String "@" r).
  - split; [destruct (Ascii.eqb_spec a "@"); done|]. exists rest. by rewrite <- IHr.
Qed.

Lemma dot_then_char_intro x b y : dot_then_char (x ++ String "." (String b y)) = true.
Proof. induction x as [|a x IH]; simpl; [done|]. by rewrite IH, orb_true_r. Qed.

Lemma dot_then_char_inv s :
  dot_then_char s = true -> exists x b y, s = x ++ String "." (String b y).
Proof.
  induction s as [|a s IH]; simpl; [discriminate|].
  intros [[Ha Hs]%andb_prop | Hs]%orb_prop.
  - destruct (Ascii.eqb_spec a ".") as [->|]; [|discriminate].
    destruct s as [|b y]; [discriminate|]. by exists "", b, y.
  - destruct (IH Hs) as (x & b & y & ->). by exists (String a x), b, y.
Qed.

Lemma no_char_app_inv c a b : no_char c (a ++ b) = true -> no_char c a = true /\ no_char c b = true.
Proof. rewrite no_char_app. apply andb_prop. Qed.

(** ** The check decides the pattern *)

(** Every string the check accepts starts with a match of the pattern. *)
Lemma email_re_match_sound (s : string) : email_re_match s = true -> email_regex s.
Proof.
  unfold email_re_match. destruct (before_at s) as [l [r|]] eqn:Hs; [|discriminate].
  destruct (before_at_inv _ _ _ Hs) as [-> Hl].
  destruct (upto_at_prefix r) as [Hseg [rest Hr]].
  destruct (upto_at r) as [|c seg] eqn:Hu; [by rewrite andb_false_r|].
  intros [Hl0 Hd]%andb_prop. destruct (dot_then_char_inv _ Hd) as (x & b & y & ->).
  exists l, (String c x), (String b ""), (y ++ rest).
  cbn [no_char] in Hseg. apply andb_prop in Hseg as [Hc Hseg].
  apply no_char_app_inv in Hseg as [Hx Hby]. cbn [no_char] in Hby.
  apply andb_prop in Hby as [_ Hby]. apply andb_prop in Hby as [Hb Hy].
  repeat split; try done.
  + destruct l; done.
  + cbn [no_char]. by rewrite Hc, Hx.
  + cbn [no_char]. by rewrite Hb.
  + rewrite Hr. simpl. f_equal. f_equal. rewrite !string_app_assoc. done.
Qed.

(** Every string that starts with a match of the pattern is accepted. *)
Lemma email_re_match_complete (s : string) : email_regex s -> email_re_match s = true.
Proof.
  intros (l & d & t & rest & Hl & Hd & Ht & Hla & Hda & Hta & ->).
  unfold email_re_match. change ("@" ++ ?x) with (String "@" x).
  rewrite before_at_app by done.
  change ("." ++ ?x) with (String "." x).
  rewrite upto_at_app by done. cbn [String.append].
  destruct d as [|c d']; [done|]. destruct t as [|b t']; [done|].
  cbn [String.append]. apply andb_true_intro. split.
  + destruct l; done.
  + cbn [upto_at] in *. simpl in Hda. apply andb_prop in Hda as [Hc _].
    apply negb_true_iff in Hc. cbn [String.append].
    assert (Hb : Ascii.eqb b "@" = false).
    { simpl in Hta. apply andb_prop in Hta as [Hb _]. by apply negb_true_iff. }
    rewrite upto_at_app by (simpl in Hta; apply andb_prop in Hta; tauto).
    rewrite Hb. apply dot_then_char_intro.
Qed.

(** C29: [email_re_match] accepts exactly the strings that start with a match
    of [[^@]+@[^@]+\.[^@]+]: a non-empty local part without ['@'], an
    ['@'], a domain part without ['@'] holding a dot with at least one
    character before and after it, then anything. *)
Theorem email_re_match_spec (s : string) : email_re_match s = true <-> email_regex s.
Proof. split; [apply email_re_match_sound|apply email_re_match_complete]. Qed.


(** ** The theorems on the sample data *)

