(* ===== verification/Store.v ===== *)
(** * The persistence layer: one MySQL table with an AUTO_INCREMENT key

    Every table of the schema has an [id INT AUTO_INCREMENT PRIMARY KEY]
    ([INSERT INTO t VALUES (NULL, ...)] lets MySQL pick it) and is read and
    written by single statements:
    - [SELECT ... WHERE id = %s] then [fetchone()]: [select_by_id];
    - [SELECT ... WHERE <col> = %s] / [COUNT( * )]: [select_where], [count_where];
    - [INSERT ... VALUES (NULL, ...)] then [cursor.lastrowid]: [insert_row];
    - [UPDATE t SET ... WHERE id = %s]: [update_by_id];
    - [DELETE FROM t WHERE id = %s]: [delete_by_id].
    A table is its rows in primary-key order (the order an InnoDB scan
    returns them) with the next AUTO_INCREMENT value.  The view of a
    table as the finite map [to_map] from ids to rows gives the lemmas
    the handlers' proofs use: each statement acts on that map as the map
    operation of the same name.  The MySQL engine is not under src/: this
    file models it from the spec (section 2, "Persistence layer"). *)

From Stdlib Require Import ZArith Lia.
From stdpp Require Import base list option gmap fin_maps.
From S2P Require Import Prelude.

Local Open Scope Z_scope.

Record table (R : Type) := mk_table { rows : list (Z * R); auto_increment : Z }.
Arguments mk_table {R} rows auto_increment.
Arguments rows {R} t.
Arguments auto_increment {R} t.

Section Table.
Context {R : Type}.
Implicit Types (t : table R) (id : Z) (r : R).

Definition empty_table : table R := mk_table [] 1.

Definition select_where (p : Z -> R -> bool) t : list (Z * R) :=
  List.filter (fun kr => p kr.1 kr.2) (rows t).

Definition count_where (p : Z -> R -> bool) t : nat := length (select_where p t).

Definition select_by_id id t : option R :=
  snd <$> List.find (fun kr => kr.1 =? id) (rows t).

Definition insert_row r t : Z * table R :=
  (auto_increment t, mk_table (rows t ++ [(auto_increment t, r)]) (auto_increment t + 1)).

Definition update_by_id id (f : R -> R) t : table R :=
  mk_table (map (fun kr => if kr.1 =? id then (kr.1, f kr.2) else kr) (rows t)) (auto_increment t).

Definition delete_by_id id t : table R :=
  mk_table (List.filter (fun kr => negb (kr.1 =? id)) (rows t)) (auto_increment t).

(** Keys are distinct, positive and below the AUTO_INCREMENT counter. *)
Definition table_wf t : Prop :=
  NoDup (map fst (rows t)) /\ Forall (fun kr => 1 <= kr.1 < auto_increment t) (rows t) /\
  1 <= auto_increment t.

Definition to_map t : gmap Z R := list_to_map (rows t).

(** ** The statements preserve well-formedness *)

Lemma empty_table_wf : table_wf empty_table.
Proof. split; [apply NoDup_nil_2|split; [apply Forall_nil_2|simpl; lia]]. Qed.

Lemma insert_wf r t : table_wf t -> table_wf (insert_row r t).2.
Proof.
  intros (Hnd & Hb & Hai). unfold table_wf, insert_row; cbn. split; [|split].
  - rewrite map_app. apply NoDup_app. split; [done|]. split; [|apply NoDup_singleton].
    intros k Hk Hk'. apply list_elem_of_singleton in Hk'. subst k.
    apply list_elem_of_In, in_map_iff in Hk as ([k' r'] & Heq & Hin). simpl in Heq. subst k'.
    rewrite Forall_forall in Hb. specialize (Hb _ (proj2 (list_elem_of_In _ _) Hin)).
    simpl in Hb. lia.
  - apply Forall_app. split; [|constructor; [simpl; lia|constructor]].
    eapply Forall_impl; [exact Hb|]. intros [k v]; simpl; lia.
  - lia.
Qed.

Lemma update_by_id_wf id f t : table_wf t -> table_wf (update_by_id id f t).
Proof.
  intros (Hnd & Hb & Hai). unfold table_wf, update_by_id; cbn.
  assert (Hfst : map fst (map (fun kr => if kr.1 =? id then (kr.1, f kr.2) else kr) (rows t))
                 = map fst (rows t)).
  { rewrite map_map. apply map_ext. intros [k v]; simpl. by destruct (k =? id). }
  split; [by rewrite Hfst|split; [|done]].
  apply Forall_fmap. eapply Forall_impl; [exact Hb|]. intros [k v]; simpl. by destruct (k =? id).
Qed.

Lemma delete_by_id_wf id t : table_wf t -> table_wf (delete_by_id id t).
Proof.
  intros (Hnd & Hb & Hai). unfold table_wf, delete_by_id; cbn. split; [|split]; auto with hosp.
Qed.

(** ** Each statement is the finite-map operation on [to_map] *)

Lemma lookup_to_map_find (l : list (Z * R)) k :
  (list_to_map l : gmap Z R) !! k = snd <$> List.find (fun kr => kr.1 =? k) l.
Proof.
  induction l as [|[k' v] l IH]; cbn [list_to_map foldr List.find]; [apply lookup_empty|].
  rewrite lookup_insert. cbn [fst]. destruct (Z.eqb_spec k' k); case_decide; subst; done.
Qed.

Lemma select_by_id_to_map id t : select_by_id id t = to_map t !! id.
Proof. unfold select_by_id, to_map. by rewrite lookup_to_map_find. Qed.

Lemma select_by_id_of_in id t r :
  table_wf t -> (id, r) ∈ rows t -> select_by_id id t = Some r.
Proof.
  intros (Hnd & _) Hin. rewrite select_by_id_to_map. by apply elem_of_list_to_map_1.
Qed.

Lemma find_none_not_key (l : list (Z * R)) k :
  Forall (fun kr => kr.1 < k) l -> List.find (fun kr => kr.1 =? k) l = None.
Proof.
  induction 1 as [|[k' v] l Hk _ IH]; [done|]. simpl in *.
  destruct (Z.eqb_spec k' k); [lia|done].
Qed.

Lemma find_app_r (l : list (Z * R)) k kr :
  List.find (fun kr => kr.1 =? k) l = None ->
  List.find (fun kr => kr.1 =? k) (l ++ [kr]) = if kr.1 =? k then Some kr else None.
Proof. induction l as [|x l IH]; simpl; [done|]. by destruct (x.1 =? k). Qed.

Lemma find_app_l (l : list (Z * R)) k kr x :
  List.find (fun kr => kr.1 =? k) l = Some x ->
  List.find (fun kr => kr.1 =? k) (l ++ [kr]) = Some x.
Proof. induction l as [|y l IH]; simpl; [done|]. by destruct (y.1 =? k). Qed.

(** [INSERT] stores the row under the AUTO_INCREMENT value, which was
    free. *)
Lemma insert_to_map r t :
  table_wf t ->
  to_map t !! auto_increment t = None /\
  to_map (insert_row r t).2 = <[auto_increment t := r]> (to_map t).
Proof.
  intros (Hnd & Hb & Hai).
  assert (Hfree : List.find (fun kr => kr.1 =? auto_increment t) (rows t) = None).
  { apply find_none_not_key. eapply Forall_impl; [exact Hb|]. intros ? []; done. }
  split; [unfold to_map; by rewrite lookup_to_map_find, Hfree|].
  apply map_eq. intros k. unfold to_map. cbn [insert_row snd rows].
  rewrite lookup_insert, !lookup_to_map_find.
  destruct (List.find (fun kr => kr.1 =? k) (rows t)) as [x|] eqn:Hx.
  - rewrite (find_app_l _ _ _ x Hx). case_decide; [subst; congruence|done].
  - rewrite find_app_r by done. cbn [fst snd].
    destruct (Z.eqb_spec (auto_increment t) k); case_decide; subst; done.
Qed.

Lemma update_by_id_to_map id f t :
  to_map (update_by_id id f t) = alter f id (to_map t).
Proof.
  apply map_eq. intros k. unfold to_map, update_by_id. cbn [rows].
  rewrite lookup_alter, !lookup_to_map_find.
  induction (rows t) as [|[k' v] l IH]; cbn [map List.find fst]; [by case_decide|].
  destruct (Z.eqb_spec k' id) as [->|Hne]; cbn [List.find fst snd].
  - destruct (Z.eqb_spec id k) as [->|Hk]; [by case_decide|].
    rewrite IH. by case_decide.
  - destruct (Z.eqb_spec k' k) as [->|Hk]; [case_decide; [congruence|done]|].
    rewrite IH. by case_decide.
Qed.

Lemma delete_by_id_to_map id t :
  to_map (delete_by_id id t) = delete id (to_map t).
Proof.
  apply map_eq. intros k. unfold to_map, delete_by_id. cbn [rows].
  rewrite lookup_delete, !lookup_to_map_find.
  induction (rows t) as [|[k' v] l IH]; simpl; [by case_decide|].
  destruct (Z.eqb_spec k' id); simpl.
  - subst. rewrite IH. case_decide; [done|]. destruct (Z.eqb_spec id k); [congruence|done].
  - destruct (Z.eqb_spec k' k); [|exact IH]. subst. case_decide; [congruence|done].
Qed.

Lemma select_delete_eq id t : select_by_id id (delete_by_id id t) = None.
Proof. by rewrite select_by_id_to_map, delete_by_id_to_map, lookup_delete_eq. Qed.

Lemma select_update_eq id f t : select_by_id id (update_by_id id f t) = f <$> select_by_id id t.
Proof. by rewrite !select_by_id_to_map, update_by_id_to_map, lookup_alter_eq. Qed.

Lemma select_update_ne k id f t : k <> id -> select_by_id k (update_by_id id f t) = select_by_id k t.
Proof. intros Hne. by rewrite !select_by_id_to_map, update_by_id_to_map, lookup_alter_ne. Qed.

(** The id [cursor.lastrowid] returns selects the inserted row. *)
Lemma select_insert_eq r t :
  table_wf t -> select_by_id (insert_row r t).1 (insert_row r t).2 = Some r.
Proof.
  intros Hwf. destruct (insert_to_map r t Hwf) as [_ Hm].
  rewrite select_by_id_to_map, Hm. apply lookup_insert_eq.
Qed.

Lemma select_insert_ne k r t :
  table_wf t -> k <> auto_increment t ->
  select_by_id k (insert_row r t).2 = select_by_id k t.
Proof.
  intros Hwf Hne. destruct (insert_to_map r t Hwf) as [_ Hm].
  rewrite !select_by_id_to_map, Hm. by apply lookup_insert_ne.
Qed.

End Table.

#[export] Hint Resolve empty_table_wf insert_wf update_by_id_wf delete_by_id_wf : hosp.
