(* ===== verification/Schema.v ===== *)
(** * The schema: four tables and their rows

    The rows of [admins], [doctors], [patients] and [appointments] in the
    column order of the [INSERT ... VALUES (NULL, ...)] statements of
    src/server.py (lines 128-137, 342-344, 479-481, 613-615).  The three
    account tables share the [Account] interface (name, username,
    password hash) that registration, login and the uniqueness checks use.
    The column types are those the handlers' reads imply (DATETIME for
    [created_at], DATE and TIME for the appointment, INT ids); the schema
    file itself is not in the repository, so the column conversions are
    modelled from the spec: a VARCHAR column stores the text of the value
    bound to it (an int as its digits, a boolean as ["1"] or ["0"]:
    [mysql_text]), a DATETIME column rounds the microseconds of
    [datetime.now()] to the second ([mysql_datetime]), and [WHERE
    username = %s] compares the stored text with the converted parameter
    ([username_eq]; collations are not modelled). *)

From Stdlib Require Import ZArith String.
From stdpp Require Import base list option gmap strings sorting.
From S2P Require Import Prelude Temporal PyValue Request Store.

Local Open Scope string_scope.
Local Open Scope Z_scope.

Record admin := mk_admin {
  admin_name : value; admin_username : value; admin_password : string;
  admin_email : value; admin_phone : value; admin_created_at : datetime }.

Record doctor := mk_doctor {
  doctor_name : value; doctor_username : value; doctor_password : string;
  doctor_email : value; doctor_phone : value; specialization : value;
  doctor_created_at : datetime }.

Record patient := mk_patient {
  patient_name : value; patient_username : value; patient_password : string;
  patient_email : value; patient_phone : value; address : value;
  patient_created_at : datetime }.

Record appointment := mk_appointment {
  patient_id : Z; doctor_id : Z; appointment_date : date;
  appointment_time : timedelta; symptoms : value; status : value;
  appt_created_at : datetime }.

Record db := mk_db {
  admins : table admin; doctors : table doctor;
  patients : table patient; appointments : table appointment }.

Definition empty_db : db := mk_db empty_table empty_table empty_table empty_table.

Definition with_admins (t : table admin) (D : db) : db := mk_db t (doctors D) (patients D) (appointments D).
Definition with_doctors (t : table doctor) (D : db) : db := mk_db (admins D) t (patients D) (appointments D).
Definition with_patients (t : table patient) (D : db) : db := mk_db (admins D) (doctors D) t (appointments D).
Definition with_appointments (t : table appointment) (D : db) : db := mk_db (admins D) (doctors D) (patients D) t.

(** ** The account interface *)

Class Account (R : Type) := {
  acct_name : R -> value;
  acct_username : R -> value;
  acct_password : R -> string
}.

#[export] Instance admin_account : Account admin :=
  {| acct_name := admin_name; acct_username := admin_username; acct_password := admin_password |}.
#[export] Instance doctor_account : Account doctor :=
  {| acct_name := doctor_name; acct_username := doctor_username; acct_password := doctor_password |}.
#[export] Instance patient_account : Account patient :=
  {| acct_name := patient_name; acct_username := patient_username; acct_password := patient_password |}.

(** ** What the columns store *)

(** A VARCHAR or TEXT column (the name, username, e-mail, phone,
    specialization, address, symptoms and status columns): MySQLdb sends
    an int as its digits and a bool as [1] or [0], and the column keeps
    the text; [None] is NULL.  Reading the column back gives a [str]. *)
Definition mysql_text (v : value) : value :=
  match v with
  | VInt z => VStr (fmt_d 1 z)
  | VBool b => VStr (if b then "1" else "0")
  | VStr s => VStr s
  | VNull => VNull
  end.

(** [INSERT INTO admins VALUES (NULL, %s, %s, %s, %s, %s, %s)]
    (lines 128-129): the row the table holds for the parameters. *)
Definition admin_row (name username : value) (hashed : string) (email phone : value)
  (created : datetime) : admin :=
  mk_admin (mysql_text name) (mysql_text username) hashed (mysql_text email) (mysql_text phone)
    (mysql_datetime created).

(** [INSERT INTO doctors VALUES (NULL, %s, ...)] (lines 132-133, 342-344). *)
Definition doctor_row (name username : value) (hashed : string) (email phone spec : value)
  (created : datetime) : doctor :=
  mk_doctor (mysql_text name) (mysql_text username) hashed (mysql_text email) (mysql_text phone)
    (mysql_text spec) (mysql_datetime created).

(** [INSERT INTO patients VALUES (NULL, %s, ...)] (lines 136-137, 479-481). *)
Definition patient_row (name username : value) (hashed : string) (email phone addr : value)
  (created : datetime) : patient :=
  mk_patient (mysql_text name) (mysql_text username) hashed (mysql_text email) (mysql_text phone)
    (mysql_text addr) (mysql_datetime created).

(** [WHERE username = %s]: the column's text against the parameter as
    MySQLdb sends it (collations and MySQL's numeric comparison of a
    string column with an int are not modelled: the comparison is on the
    text, byte for byte). *)
Definition username_eq (stored u : value) : bool := bool_decide (stored = mysql_text u).

(** [SELECT * FROM t WHERE username = %s], then [fetchone()] is not None. *)
Definition username_taken {R} `{Account R} (u : value) (t : table R) : bool :=
  existsb (fun kr => username_eq (acct_username kr.2) u) (rows t).

(** [SELECT * FROM t WHERE username = %s AND password = %s], [fetchone()]. *)
Definition find_credentials {R} `{Account R} (u : value) (h : string) (t : table R)
  : option (Z * R) :=
  List.find (fun kr => username_eq (acct_username kr.2) u && String.eqb (acct_password kr.2) h)
    (rows t).

(** The usernames stored in one table. *)
Definition usernames {R} `{Account R} (t : table R) : list value :=
  map (fun kr => acct_username kr.2) (rows t).

(** ** Rows as the dicts a [DictCursor] returns *)

(** [SELECT id, name, username, email, phone, created_at FROM admins] *)
Definition admin_public (id : Z) (a : admin) : pyval :=
  PyDict [("id", PyInt id); ("name", value_to_py (admin_name a));
          ("username", value_to_py (admin_username a));
          ("email", value_to_py (admin_email a)); ("phone", value_to_py (admin_phone a));
          ("created_at", PyDatetime (admin_created_at a))].

(** [SELECT id, name, username, email, phone, specialization, created_at FROM doctors] *)
Definition doctor_public (id : Z) (d : doctor) : pyval :=
  PyDict [("id", PyInt id); ("name", value_to_py (doctor_name d));
          ("username", value_to_py (doctor_username d));
          ("email", value_to_py (doctor_email d)); ("phone", value_to_py (doctor_phone d));
          ("specialization", value_to_py (specialization d));
          ("created_at", PyDatetime (doctor_created_at d))].

(** [SELECT id, name, username, email, phone, address, created_at FROM patients] *)
Definition patient_public (id : Z) (p : patient) : pyval :=
  PyDict [("id", PyInt id); ("name", value_to_py (patient_name p));
          ("username", value_to_py (patient_username p));
          ("email", value_to_py (patient_email p)); ("phone", value_to_py (patient_phone p));
          ("address", value_to_py (address p));
          ("created_at", PyDatetime (patient_created_at p))].

(** [SELECT a.*, p.name as patient_name, d.name as doctor_name,
    d.specialization FROM appointments a JOIN patients p ... JOIN doctors d] *)
Definition appointment_joined (id : Z) (a : appointment) (p : patient) (d : doctor) : pyval :=
  PyDict [("id", PyInt id); ("patient_id", PyInt (patient_id a));
          ("doctor_id", PyInt (doctor_id a));
          ("appointment_date", PyDate (appointment_date a));
          ("appointment_time", PyTimedelta (appointment_time a));
          ("symptoms", value_to_py (symptoms a)); ("status", value_to_py (status a));
          ("created_at", PyDatetime (appt_created_at a));
          ("patient_name", value_to_py (patient_name p));
          ("doctor_name", value_to_py (doctor_name d));
          ("specialization", value_to_py (specialization d))].

(** The inner join of one appointment with its patient and doctor. *)
Definition join_appointment (D : db) (kr : Z * appointment) : option pyval :=
  p ← select_by_id (patient_id kr.2) (patients D);
  d ← select_by_id (doctor_id kr.2) (doctors D);
  Some (appointment_joined kr.1 kr.2 p d).

(** ** MySQL column conversions (from the spec: the schema is not in src/) *)

(** An INT column: integers, booleans (MySQLdb sends [True] as 1) and
    decimal strings are accepted. *)
Definition mysql_int (v : value) : option Z :=
  match v with
  | VInt z => Some z
  | VBool b => Some (if b then 1 else 0)
  | VStr s => parse_int s
  | VNull => None
  end.

(** A DATE column, from a ['YYYY-MM-DD'] string. *)
Definition mysql_date (v : value) : option date :=
  match v with
  | VStr s => mysql_parse_date s
  | _ => None
  end.

(** A TIME column, from a ['[-]H:MM[:SS]'] string, within MySQL's
    range of +-838:59:59; MySQLdb returns it as a [timedelta]. *)
Definition timedelta_of_seconds (z : Z) : timedelta := mk_timedelta (z / 86400) (z mod 86400) 0.

Definition mysql_time (v : value) : option timedelta :=
  match v with
  | VStr s =>
      z ← mysql_parse_time s;
      if (Z.abs z <=? 3020399) then Some (timedelta_of_seconds z) else None
  | _ => None
  end.

(** [ORDER BY name] on a VARCHAR column: the text MySQL stores for the
    value (NULL first), compared by character code. *)
Definition varchar_text (v : value) : option string :=
  match v with
  | VNull => None
  | VBool b => Some (if b then "1" else "0")
  | VInt z => Some (fmt_d 1 z)
  | VStr s => Some s
  end.

Definition text_le (a b : option string) : Prop :=
  match a, b with
  | None, _ => True
  | Some _, None => False
  | Some x, Some y => String.leb x y = true
  end.

#[export] Instance text_le_dec : RelDecision text_le.
Proof. intros [x|] [y|]; simpl; apply _. Defined.

Lemma text_le_total : Total text_le.
Proof. intros [x|] [y|]; simpl; auto. apply String.leb_total. Qed.

(** The order of [ORDER BY name] on rows of an account table. *)
Definition by_name {R} `{Account R} : relation (Z * R) :=
  fun x y => text_le (varchar_text (acct_name x.2)) (varchar_text (acct_name y.2)).

#[export] Instance by_name_dec {R} `{Account R} : RelDecision (@by_name R _).
Proof. intros x y. unfold by_name. apply _. Defined.

Lemma by_name_total {R} `{Account R} : Total (@by_name R _).
Proof. intros x y. apply text_le_total. Qed.

Definition order_by_name {R} `{Account R} (l : list (Z * R)) : list (Z * R) :=
  merge_sort by_name l.
