(* ===== verification/World.v ===== *)
(** * The server's state and the primitives every handler uses

    The state a request sees is the database, the client's session cookie
    ([session] of Flask: [loggedin], [id], [username], [user_type]) and
    the log file [hospital_api.log] that [log_operation] (src/server.py
    lines 81-85) and the handlers' [app.logger.error] calls append to.
    [datetime.now()] and MySQL's [CURDATE()] are read from the request's
    environment [env].  [hashlib.sha256(...).hexdigest()] (line 79) is a
    library call: the handlers are parametric in a [PasswordHasher]. *)

From Stdlib Require Import ZArith String.
From stdpp Require Import base list option gmap strings.
From S2P Require Import Prelude Temporal PyValue Request Email Store Schema.

Local Open Scope string_scope.
Local Open Scope Z_scope.

(** The session after a login (src/server.py lines 173-176); [None] is
    the session after [session.clear()] or before any login. *)
Record session_data := mk_session {
  sess_id : Z; sess_username : value; sess_user_type : string }.

(** [session] as the dict Flask exposes: the keys the login sets
    (lines 173-176), or none. *)
Definition session_dict (s : option session_data) : pyval :=
  match s with
  | None => PyDict []
  | Some s => PyDict [("loggedin", PyBool true); ("id", PyInt (sess_id s));
                     ("username", value_to_py (sess_username s));
                     ("user_type", PyStr (sess_user_type s))]
  end.

(** [d.get(k, default)] on a dict. *)
Definition py_dict_get_or (k : string) (dflt : pyval) (d : pyval) : pyval :=
  default dflt (py_dict_get k d).

(** One line of [hospital_api.log]: [log_operation(op, user_type, data)],
    or an [app.logger.error] line of an [except] clause. *)
Inductive log_entry : Type :=
| LogInfo (operation : string) (user_type : pyval) (data : pyval)
| LogError (context : string) (e : exn).

Record world := mk_world {
  w_db : db; w_session : option session_data; w_log : list log_entry }.

Definition initial_world : world := mk_world empty_db None [].

(** What a request reads from outside: [datetime.now()] and [CURDATE()]. *)
Record env := mk_env { now : datetime; today : date }.

(** [hash_password] (line 78-79): the hex digest of a string. *)
Class PasswordHasher := hash_password : string -> string.

Abbreviation HM := (M world response exn).

Definition set_db (D : db) (w : world) : world := mk_world D (w_session w) (w_log w).
Definition set_session (s : option session_data) (w : world) : world := mk_world (w_db w) s (w_log w).
Definition append_log (e : log_entry) (w : world) : world := mk_world (w_db w) (w_session w) (w_log w ++ [e]).

Definition read_db : HM db := fun w => Next (w_db w) w.

(** A statement that changes the database, followed by
    [mysql.connection.commit()]. *)
Definition write_db (f : db -> db) : HM unit := modify (fun w => set_db (f (w_db w)) w).

(** A [DELETE] of an account row that [appointments] may refer to,
    followed by [commit()].  The foreign keys of [appointments] (spec
    section 3; the schema is not in the repository) are taken with
    MySQL's default [ON DELETE RESTRICT]: while a row refers to the one
    deleted ([referenced] on the database as it is when the statement
    runs), the statement raises an [IntegrityError] and changes nothing. *)
Definition delete_restrict (referenced : db -> bool) (f : db -> db) : HM unit :=
  (D <- read_db ;;
   if referenced D then raise IntegrityError else write_db f)%hosp.

Definition log_operation (op : string) (user_type : pyval) (data : pyval) : HM unit :=
  modify (append_log (LogInfo op user_type data)).

(** [hash_password(x)]: [x.encode()] raises on a non-string. *)
Definition py_hash_password `{PasswordHasher} (v : value) : HM string :=
  match v with
  | VStr s => ret (hash_password s)
  | _ => raise AttributeError
  end.

(** [re.match(r'[^@]+@[^@]+\.[^@]+', email)]: a [TypeError] on a
    non-string. *)
Definition py_re_match_email (v : value) : HM bool :=
  match v with
  | VStr s => ret (email_re_match s)
  | _ => raise TypeError
  end.

(** A value or the exception a statement raised. *)
Definition lift_sum {A} (x : exn + A) : HM A :=
  match x with inl e => raise e | inr a => ret a end.

(** A handler: its body inside [try: ... except Exception as e:
    app.logger.error(...); return 500].  On an exception the writes of the
    body are discarded (the transaction was not committed) and the error
    is logged. *)
Definition handler (context : string) (m : HM response) (w : world) : response * world :=
  run m (fun w0 e => (internal_error, append_log (LogError context e) w0)) w.

(** [str.upper()] and [str.capitalize()] on ASCII. *)
Definition upper_ascii (a : Ascii.ascii) : Ascii.ascii :=
  let n := Ascii.nat_of_ascii a in
  if (97 <=? n)%nat && (n <=? 122)%nat then Ascii.ascii_of_nat (n - 32) else a.

Fixpoint upper (s : string) : string :=
  match s with
  | EmptyString => EmptyString
  | String a s' => String (upper_ascii a) (upper s')
  end.

Definition capitalize (s : string) : string :=
  match s with
  | EmptyString => EmptyString
  | String a s' => String (upper_ascii a) (lower s')
  end.

(** ** Lemmas on the primitives *)

Lemma handler_next ctx m w r w' : m w = Next r w' -> handler ctx m w = (r, w').
Proof. unfold handler, run. by intros ->. Qed.

Lemma handler_early ctx m w r w' : m w = Early r w' -> handler ctx m w = (r, w').
Proof. unfold handler, run. by intros ->. Qed.

Lemma handler_fault ctx m w e :
  m w = Fault e -> handler ctx m w = (internal_error, append_log (LogError ctx e) w).
Proof. unfold handler, run. by intros ->. Qed.

Lemma append_log_db e w : w_db (append_log e w) = w_db w.
Proof. reflexivity. Qed.

Lemma set_db_db D w : w_db (set_db D w) = D.
Proof. reflexivity. Qed.

#[export] Hint Rewrite append_log_db set_db_db : hosp_rw.

(** ** Symbolic execution of a handler body

    Unfold the monad and the Python primitives, then case on the first
    stuck [match] (a dict lookup, a guard's condition, a table query) and
    repeat: each remaining goal is one path through the handler. *)
Ltac hm_simpl :=
  cbv beta iota zeta delta [Prelude.bind Prelude.ret Prelude.early Prelude.raise
    Prelude.get Prelude.modify Prelude.guard read_db write_db delete_restrict log_operation get_json
    py_in py_getitem py_get py_lower py_hash_password py_re_match_email lift_sum
    require_fields collect_fields set_db set_session append_log w_db w_session w_log
    negb andb orb String.eqb Ascii.eqb Bool.eqb default from_option id truthy] in *.

(** The same, keeping the field loops folded so that their lemmas
    ([collect_fields_some], [require_fields_ok]) apply. *)
Ltac hm_simpl_loops :=
  cbv beta iota zeta delta [Prelude.bind Prelude.ret Prelude.early Prelude.raise
    Prelude.get Prelude.modify Prelude.guard read_db write_db delete_restrict log_operation get_json
    py_in py_getitem py_get py_lower py_hash_password py_re_match_email lift_sum
    set_db set_session append_log w_db w_session w_log
    negb andb orb String.eqb Ascii.eqb Bool.eqb default from_option id truthy] in *.

(** For a case analysis over every path, string comparisons stay folded:
    [case_match] then splits on each comparison as a whole. *)
Ltac hm_simpl_paths :=
  cbv beta iota zeta delta [Prelude.bind Prelude.ret Prelude.early Prelude.raise
    Prelude.get Prelude.modify Prelude.guard read_db write_db delete_restrict log_operation get_json
    py_in py_getitem py_get py_lower py_hash_password py_re_match_email lift_sum
    require_fields collect_fields set_db set_session append_log w_db w_session w_log
    negb andb orb default from_option id truthy] in *.

(** Rewrite with the hypotheses that fix a dict lookup, a query result or
    a boolean test, so that only the paths they allow remain.  [rewrite]
    finds its redex by the head symbol, which keeps this fast on the
    large goals of a whole handler. *)
Ltac rewrite_known :=
  repeat match goal with
  | H : _ = Some _ |- _ => rewrite H
  | H : _ = None |- _ => rewrite H
  | H : _ = true |- _ => rewrite H
  | H : _ = false |- _ => rewrite H
  end.

(** Every path of a handler: simplify, use what is known, split on the
    first stuck [match]. *)
Ltac hm_exec := repeat (hm_simpl_paths; rewrite_known; try case_match; simplify_eq).

Ltac db_simpl :=
  cbn [admins doctors patients appointments with_admins with_doctors with_patients
       with_appointments value_to_py fst snd] in *.

Ltac hm_run := do 3 (hm_simpl; rewrite_known); hm_simpl; db_simpl.

Lemma handler_db ctx (m : HM response) w :
  w_db (handler ctx m w).2 =
  match m w with Next _ w' | Early _ w' => w_db w' | Fault _ => w_db w end.
Proof. unfold handler, run. by destruct (m w). Qed.
