(* ===== verification/Sha256.v ===== *)
(** * [hash_password]: SHA-256 of the UTF-8 bytes, as hex

    [hash_password(password)] (src/server.py lines 78-79) is
    [hashlib.sha256(password.encode()).hexdigest()].  World.v states the
    handlers against an abstract [PasswordHasher]; this file gives the
    one the code uses:
    - [utf8_encode]: [str.encode()] of code points below 256;
    - [sha256]: FIPS 180-4 SHA-256 on a list of bytes, with its padding,
      its 64-byte blocks, its message schedule and its 64 rounds on
      32-bit words kept as [Z] below [2^32], every addition wrapping
      ([add32]) and the rotations written with [Z.shiftr], [Z.shiftl]
      and [Z.lor];
    - [hexdigest]: two lower-case hex digits per byte.
    Bytes are [Z] below 256, most significant first within a word
    ([be_split], [be_combine]).

    The theorem: every password's digest is 64 lower-case hex digits,
    the spec's fixed-length hex string, and System.v carries it to every
    stored password. *)

From Stdlib Require Import ZArith String Ascii Lia.
From stdpp Require Import base list.
From S2P Require Import Prelude Temporal World.

Local Open Scope Z_scope.

(** ** 32-bit words *)

Definition wrap (z : Z) : Z := z mod 2 ^ 32.

Definition add32 (x y : Z) : Z := wrap (x + y).

(** [ROTR^n x] of a word below [2^32]. *)
Definition rotr (n x : Z) : Z := Z.lor (Z.shiftr x n) (wrap (Z.shiftl x (32 - n))).

Definition ch (x y z : Z) : Z := Z.lxor (Z.land x y) (Z.land (Z.lxor x 0xffffffff) z).
Definition maj (x y z : Z) : Z := Z.lxor (Z.lxor (Z.land x y) (Z.land x z)) (Z.land y z).
Definition bsig0 (x : Z) : Z := Z.lxor (Z.lxor (rotr 2 x) (rotr 13 x)) (rotr 22 x).
Definition bsig1 (x : Z) : Z := Z.lxor (Z.lxor (rotr 6 x) (rotr 11 x)) (rotr 25 x).
Definition ssig0 (x : Z) : Z := Z.lxor (Z.lxor (rotr 7 x) (rotr 18 x)) (Z.shiftr x 3).
Definition ssig1 (x : Z) : Z := Z.lxor (Z.lxor (rotr 17 x) (rotr 19 x)) (Z.shiftr x 10).

(** The value of a lower-case hex digit. *)
Definition hex_val (c : ascii) : Z :=
  let n := Z.of_nat (nat_of_ascii c) in if n <? 97 then n - 48 else n - 87.

(** The words written in hex in [s], separated by spaces. *)
Fixpoint hex_words (s : string) (cur : Z) (started : bool) : list Z :=
  match s with
  | EmptyString => if started then [cur] else []
  | String c s' =>
      if Ascii.eqb c " " then (if started then cur :: hex_words s' 0 false else hex_words s' 0 false)
      else hex_words s' (cur * 16 + hex_val c) true
  end.

(** The round constants (FIPS 180-4, 4.2.2): the first 32 bits of the
    fractional parts of the cube roots of the first 64 primes. *)
Definition K : list Z :=
  hex_words ("428a2f98 71374491 b5c0fbcf e9b5dba5 3956c25b 59f111f1 923f82a4 ab1c5ed5 " ++
             "d807aa98 12835b01 243185be 550c7dc3 72be5d74 80deb1fe 9bdc06a7 c19bf174 " ++
             "e49b69c1 efbe4786 0fc19dc6 240ca1cc 2de92c6f 4a7484aa 5cb0a9dc 76f988da " ++
             "983e5152 a831c66d b00327c8 bf597fc7 c6e00bf3 d5a79147 06ca6351 14292967 " ++
             "27b70a85 2e1b2138 4d2c6dfc 53380d13 650a7354 766a0abb 81c2c92e 92722c85 " ++
             "a2bfe8a1 a81a664b c24b8b70 c76c51a3 d192e819 d6990624 f40e3585 106aa070 " ++
             "19a4c116 1e376c08 2748774c 34b0bcb5 391c0cb3 4ed8aa4a 5b9cca4f 682e6ff3 " ++
             "748f82ee 78a5636f 84c87814 8cc70208 90befffa a4506ceb bef9a3f7 c67178f2")%string 0 false.

(** The eight working variables, or the eight words of the hash value. *)
Record state := mk_state { sa : Z; sb : Z; sc : Z; sd : Z; se : Z; sf : Z; sg : Z; sh : Z }.

(** The initial hash value (FIPS 180-4, 5.3.3). *)
Definition H0 : state :=
  match hex_words "6a09e667 bb67ae85 3c6ef372 a54ff53a 510e527f 9b05688c 1f83d9ab 5be0cd19"%string 0 false with
  | [a; b; c; d; e; f; g; h] => mk_state a b c d e f g h
  | _ => mk_state 0 0 0 0 0 0 0 0
  end.

Definition state_words (s : state) : list Z := [sa s; sb s; sc s; sd s; se s; sf s; sg s; sh s].

(** ** Bytes, most significant first *)

Fixpoint be_split (n : nat) (z : Z) : list Z :=
  match n with
  | O => []
  | S n => be_split n (Z.shiftr z 8) ++ [Z.land z 255]
  end.

Definition be_combine (l : list Z) : Z := foldl (fun acc b => Z.lor (Z.shiftl acc 8) b) 0 l.

(** ** The message *)

(** 5.1.1: a one bit, zeros up to 56 bytes modulo 64, and the length in
    bits as a 64-bit big-endian integer. *)
Definition pad (m : list Z) : list Z :=
  let len := Z.of_nat (length m) in
  m ++ [128] ++ replicate (Z.to_nat ((55 - len) mod 64)) 0 ++ be_split 8 (8 * len).

Fixpoint chunks (n : nat) (l : list Z) : list (list Z) :=
  match n with
  | O => []
  | S n => take 64 l :: chunks n (drop 64 l)
  end.

Definition blocks (m : list Z) : list (list Z) :=
  let p := pad m in chunks (length p `div` 64) p.

(** The sixteen words of a block. *)
Fixpoint block_words (n : nat) (l : list Z) : list Z :=
  match n with
  | O => []
  | S n => be_combine (take 4 l) :: block_words n (drop 4 l)
  end.

(** 6.2.2 step 1: [W_t] for [16 <= t < 64]; the list holds [W_(t-1)]
    first. *)
Fixpoint schedule_rev (n : nat) (w : list Z) : list Z :=
  match n with
  | O => w
  | S n =>
      let wt := add32 (add32 (ssig1 (nth 1 w 0)) (nth 6 w 0))
                      (add32 (ssig0 (nth 14 w 0)) (nth 15 w 0)) in
      schedule_rev n (wt :: w)
  end.

Definition schedule (blk : list Z) : list Z := reverse (schedule_rev 48 (reverse (block_words 16 blk))).

(** 6.2.2 step 3: one round with its constant and schedule word. *)
Definition round (s : state) (kw : Z * Z) : state :=
  let t1 := add32 (add32 (add32 (sh s) (bsig1 (se s))) (add32 (ch (se s) (sf s) (sg s)) kw.1)) kw.2 in
  let t2 := add32 (bsig0 (sa s)) (maj (sa s) (sb s) (sc s)) in
  mk_state (add32 t1 t2) (sa s) (sb s) (sc s) (add32 (sd s) t1) (se s) (sf s) (sg s).

(** 6.2.2 steps 2-4: the rounds of one block, added to the hash value. *)
Definition compress (h : state) (blk : list Z) : state :=
  let v := foldl round h (zip K (schedule blk)) in
  mk_state (add32 (sa h) (sa v)) (add32 (sb h) (sb v)) (add32 (sc h) (sc v)) (add32 (sd h) (sd v))
           (add32 (se h) (se v)) (add32 (sf h) (sf v)) (add32 (sg h) (sg v)) (add32 (sh h) (sh v)).

Definition sha256 (m : list Z) : list Z :=
  state_words (foldl compress H0 (blocks m)) ≫= be_split 4.

(** ** [str.encode()] and [hexdigest()] *)

(** UTF-8 of one code point below 256: one byte below 128, two above. *)
Definition utf8_char (c : ascii) : list Z :=
  let n := Z.of_nat (nat_of_ascii c) in
  if n <? 128 then [n] else [Z.lor 192 (Z.shiftr n 6); Z.lor 128 (Z.land n 63)].

Fixpoint utf8_encode (s : string) : list Z :=
  match s with
  | EmptyString => []
  | String c s' => utf8_char c ++ utf8_encode s'
  end.

(** The digits of Python's [Py_hexdigits] (lower case). *)
Definition hex_digit (n : nat) : ascii :=
  ascii_of_nat (if (n <? 10)%nat then 48 + n else 87 + n)%nat.

Definition hex_byte (b : Z) : string :=
  String (hex_digit (Z.to_nat (b / 16))) (String (hex_digit (Z.to_nat (b mod 16))) EmptyString).

Fixpoint hexdigest (l : list Z) : string :=
  match l with
  | [] => EmptyString
  | b :: l' => String.append (hex_byte b) (hexdigest l')
  end.

(** Lines 78-79. *)
Definition sha256_hex (password : string) : string := hexdigest (sha256 (utf8_encode password)).

Definition sha256_hasher : PasswordHasher := sha256_hex.

(** Lower-case hex digits only. *)
Definition is_lower_hex (c : ascii) : bool :=
  let n := nat_of_ascii c in (((48 <=? n) && (n <=? 57)) || ((97 <=? n) && (n <=? 102)))%nat.

Fixpoint all_lower_hex (s : string) : bool :=
  match s with
  | EmptyString => true
  | String c s' => is_lower_hex c && all_lower_hex s'
  end.

(** ** Lemmas *)

Definition is_byte (b : Z) : Prop := 0 <= b < 256.

Lemma land_255 z : Z.land z 255 = z mod 256.
Proof. change 255 with (Z.ones 8). by rewrite Z.land_ones. Qed.

Lemma land_255_byte z : is_byte (Z.land z 255).
Proof. rewrite land_255. unfold is_byte. apply Z.mod_pos_bound. lia. Qed.






Lemma hex_digit_lower n : (n < 16)%nat -> is_lower_hex (hex_digit n) = true.
Proof. intros Hn. do 16 (destruct n as [|n]; [reflexivity|]). lia. Qed.

Lemma hex_byte_spec b :
  is_byte b -> String.length (hex_byte b) = 2%nat /\ all_lower_hex (hex_byte b) = true.
Proof.
  intros Hb. split; [done|]. unfold is_byte in Hb. cbn.
  rewrite !hex_digit_lower; [done| |].
  - pose proof (Z.mod_pos_bound b 16). lia.
  - assert (0 <= b / 16 < 16) by (split; [apply Z.div_pos|apply Z.div_lt_upper_bound]; lia). lia.
Qed.

Lemma all_lower_hex_app s1 s2 :
  all_lower_hex (String.append s1 s2) = all_lower_hex s1 && all_lower_hex s2.
Proof. induction s1 as [|c s1 IH]; simpl; [done|]. by rewrite IH, andb_assoc. Qed.

Lemma hexdigest_spec l :
  Forall is_byte l ->
  String.length (hexdigest l) = (2 * length l)%nat /\ all_lower_hex (hexdigest l) = true.
Proof.
  induction 1 as [|b l Hb _ [IHl IHh]]; [done|]. destruct (hex_byte_spec b Hb) as [Hl Hh].
  cbn [hexdigest]. rewrite string_length_app, all_lower_hex_app, Hl, Hh, IHl, IHh. cbn. split; [lia|done].
Qed.

(** The digest is the 32 bytes of the eight words of the final hash value. *)
Lemma sha256_bytes m : length (sha256 m) = 32%nat /\ Forall is_byte (sha256 m).
Proof.
  unfold sha256. destruct (foldl compress H0 (blocks m)) as [a b c d e f g h].
  cbn [state_words]. split; [done|]. simpl. repeat constructor; apply land_255_byte.
Qed.


(** ** Theorems *)

(** The hex digest of a password: 64 characters, all lower-case hex. *)
Lemma sha256_hex_digest password :
  String.length (sha256_hex password) = 64%nat /\ all_lower_hex (sha256_hex password) = true.
Proof.
  destruct (sha256_bytes (utf8_encode password)) as [Hl Hb].
  destruct (hexdigest_spec _ Hb) as [Hn Hh]. unfold sha256_hex. by rewrite Hn, Hl.
Qed.

(** C19: Every stored password hash is 64 lower-case hex digits, whatever
    the password: the digest is 32 bytes and [hexdigest] writes two
    digits per byte. *)
Theorem sha256_hex_format password :
  String.length (sha256_hex password) = 64%nat /\ all_lower_hex (sha256_hex password) = true.
Proof. apply sha256_hex_digest. Qed.

