(* ===== verification/Samples.v ===== *)
(** * Sample data: a small hospital database

    Concrete rows and states on which the theorems of the handler files
    are instantiated: one admin, two doctors, one patient and one
    appointment of that patient with the first doctor, dated on the
    sample day.  The password hasher of the samples is the identity,
    which is enough to run the handlers: the theorems themselves are
    stated for any [PasswordHasher]. *)

From Stdlib Require Import ZArith String.
From stdpp Require Import base list option gmap strings.
From S2P Require Import Prelude Temporal PyValue Request Store Schema World.

Local Open Scope string_scope.
Local Open Scope Z_scope.

Definition plain_hasher : PasswordHasher := fun s => s.

Definition sample_day : date := mk_date 2025 1 6.
Definition sample_now : datetime := mk_datetime sample_day (mk_time 9 0 0 0).
Definition env0 : env := mk_env sample_now sample_day.

Definition sample_admin : admin :=
  mk_admin (VStr "Root") (VStr "root") "rootpw" (VStr "root@h.com") (VStr "100") sample_now.
Definition sample_doctor : doctor :=
  mk_doctor (VStr "Dr X") (VStr "drx") "pw" (VStr "x@h.com") (VStr "555") (VStr "Cardiology") sample_now.
Definition sample_doctor2 : doctor :=
  mk_doctor (VStr "Dr Y") (VStr "dry") "pw2" (VStr "y@h.com") (VStr "556") (VStr "General") sample_now.
Definition sample_patient : patient :=
  mk_patient (VStr "Alice") (VStr "alice") "apw" (VStr "a@h.com") (VStr "777") (VStr "Main St") sample_now.
Definition sample_appointment : appointment :=
  mk_appointment 1 1 sample_day (mk_timedelta 0 34200 0) (VStr "cough") (VStr "Scheduled") sample_now.

Definition sample_db : db :=
  mk_db (mk_table [(1, sample_admin)] 2)
        (mk_table [(1, sample_doctor); (2, sample_doctor2)] 3)
        (mk_table [(1, sample_patient)] 2)
        (mk_table [(1, sample_appointment)] 2).

Definition sample_world : world := mk_world sample_db None [].

(** A JSON object from its fields. *)
Definition obj (kv : list (string * value)) : gmap string value := list_to_map kv.

(** A decidable proposition on concrete data, by evaluation. *)
Ltac by_eval := match goal with |- ?P => apply (bool_decide_unpack P); vm_compute; reflexivity end.

Ltac table_wf_by_eval := unfold table_wf; by_eval.

(** The registration and logins of the spec's scenario (section 6). *)
Definition drx_registration : gmap string value :=
  obj [("name", VStr "Dr X"); ("username", VStr "drx"); ("password", VStr "pw");
       ("email", VStr "x@h.com"); ("phone", VStr "555"); ("role", VStr "doctor");
       ("specialization", VStr "Cardiology")].

Definition login_body (u pw t : string) : gmap string value :=
  obj [("username", VStr u); ("password", VStr pw); ("user_type", VStr t)].

(** A booking of the second doctor by a patient id, on the day after the
    sample day. *)
Definition sample_booking (pid : Z) : gmap string value :=
  obj [("patient_id", VInt pid); ("doctor_id", VInt 2);
       ("appointment_date", VStr "2025-01-07"); ("appointment_time", VStr "10:30:00")].

Definition bob_body : gmap string value :=
  obj [("name", VStr "Bob"); ("username", VStr "bob"); ("password", VStr "bpw");
       ("email", VStr "b@h.com"); ("phone", VStr "888")].

(** A booking whose time is thirty minutes before midnight, negative as
    MySQL's TIME allows. *)
Definition negative_booking : gmap string value :=
  obj [("patient_id", VInt 1); ("doctor_id", VInt 2);
       ("appointment_date", VStr "2025-01-07"); ("appointment_time", VStr "-00:30:00")].
