(* ===== verification/Auth.v ===== *)
(** * Authentication: [/api/register], [/api/login], [/api/logout]

    [api_register] is src/server.py lines 89-147 ([register_validate]
    up to the e-mail check, then the database the SELECTs read, then
    [register_commit], split there for Concurrency.v), [api_login] lines
    149-197 and [api_logout] lines 199-204, statement by statement: the
    early [return]s are [guard]s and [early]s, the Python exceptions the
    statements can raise are [raise]s, and [handler] is the [try/except].
    The theorems: a registration followed by a login succeeds, a taken
    username is refused with 409, credentials that match no row are
    refused with 401, a [null] user type is answered 500, and logout
    clears the session whatever it held, logging the role [None] when
    there was none. *)

From Stdlib Require Import ZArith String.
From stdpp Require Import base list option gmap strings.
From S2P Require Import Prelude Temporal PyValue Request Email Store Schema World Samples.

Local Open Scope string_scope.
Local Open Scope Z_scope.
Local Open Scope hosp_scope.

Definition roles : list string := ["admin"; "doctor"; "patient"].

(** The three [SELECT * FROM {table} WHERE username = %s] of lines 118-122. *)
Definition username_taken_any (u : value) (D : db) : bool :=
  username_taken u (admins D) || username_taken u (doctors D) || username_taken u (patients D).

Section Auth.
Context `{PasswordHasher}.

(** The locals of [api_register] once the body is validated. *)
Record registration := mk_registration {
  rg_data : option (gmap string value); rg_name : value; rg_username : value; rg_password : value;
  rg_email : value; rg_phone : value; rg_role : string }.

(** Lines 92-113: the body, its required fields, the role and the e-mail. *)
Definition register_validate (p : payload) : HM registration :=
  data <- get_json p ;;
  require_fields ["name"; "username"; "password"; "email"; "phone"; "role"] data ;;
  name <- py_getitem data "name" ;;
  username <- py_getitem data "username" ;;
  password <- py_getitem data "password" ;;
  email <- py_getitem data "email" ;;
  phone <- py_getitem data "phone" ;;
  role_v <- py_getitem data "role" ;;
  role <- py_lower role_v ;;
  guard (negb (bool_decide (role ∈ roles)))
    (error_response 400 "Invalid role. Must be admin, doctor, or patient") ;;
  ok <- py_re_match_email email ;;
  guard (negb ok) (error_response 400 "Invalid email address") ;;
  ret (mk_registration data name username password email phone role).

(** Lines 117-143: the username checks on the rows [D] the SELECTs read,
    then the INSERT and the commit on the database as it is then. *)
Definition register_commit (E : env) (rg : registration) (D : db) : HM response :=
  let 'mk_registration data name username password email phone role := rg in
  guard (username_taken username (admins D)) (error_response 409 "Username already exists") ;;
  guard (username_taken username (doctors D)) (error_response 409 "Username already exists") ;;
  guard (username_taken username (patients D)) (error_response 409 "Username already exists") ;;
  hashed <- py_hash_password password ;;
  (if String.eqb role "admin" then
     write_db (fun D => with_admins
       (insert_row (admin_row name username hashed email phone (now E)) (admins D)).2 D)
   else if String.eqb role "doctor" then
     spec <- py_get data "specialization" (VStr "General") ;;
     write_db (fun D => with_doctors
       (insert_row (doctor_row name username hashed email phone spec (now E)) (doctors D)).2 D)
   else
     addr <- py_get data "address" (VStr "") ;;
     write_db (fun D => with_patients
       (insert_row (patient_row name username hashed email phone addr (now E)) (patients D)).2 D)) ;;
  log_operation "REGISTER" (PyStr (upper role))
    (PyDict [("username", value_to_py username); ("name", value_to_py name);
             ("email", value_to_py email)]) ;;
  ret (mk_response 201 (PyDict [("message", PyStr (capitalize role ++ " registered successfully"));
                                ("username", value_to_py username)])).

(** Lines 89-147: validation, the SELECTs' snapshot, the insert. *)
Definition api_register (E : env) (p : payload) : HM response :=
  rg <- register_validate p ;;
  D <- read_db ;;
  register_commit E rg D.

(** [table_map[user_type]] and the credential query of lines 166-170:
    the id, stored username and name of the matching row. *)
Definition lookup_account (user_type : string) (u : value) (h : string) (D : db)
  : option (Z * value * value) :=
  let proj {R} `{Account R} (o : option (Z * R)) :=
    (fun kr => (kr.1, acct_username kr.2, acct_name kr.2)) <$> o in
  if String.eqb user_type "admin" then proj (find_credentials u h (admins D))
  else if String.eqb user_type "doctor" then proj (find_credentials u h (doctors D))
  else proj (find_credentials u h (patients D)).

Definition api_login (p : payload) : HM response :=
  data <- get_json p ;;
  username <- py_get data "username" VNull ;;
  password <- py_get data "password" VNull ;;
  ut_v <- py_get data "user_type" (VStr "") ;;
  user_type <- py_lower ut_v ;;
  guard (negb (truthy username) || negb (truthy password) || String.eqb user_type "")
    (error_response 400 "Username, password, and user_type are required") ;;
  guard (negb (bool_decide (user_type ∈ roles))) (error_response 400 "Invalid user_type") ;;
  hashed <- py_hash_password password ;;
  D <- read_db ;;
  match lookup_account user_type username hashed D with
  | Some (id, uname, name) =>
      modify (set_session (Some (mk_session id uname user_type))) ;;
      log_operation "LOGIN" (PyStr (upper user_type))
        (PyDict [("username", value_to_py username); ("id", PyInt id)]) ;;
      ret (mk_response 200
             (PyDict [("message", PyStr "Login successful");
                      ("user", PyDict [("id", PyInt id); ("username", value_to_py uname);
                                       ("name", value_to_py name);
                                       ("user_type", PyStr user_type)])]))
  | None => ret (error_response 401 "Invalid credentials")
  end.

(** Lines 200-204.  No [try] around the body: nothing in it can raise. *)
Definition api_logout (w : world) : response * world :=
  let sess := session_dict (w_session w) in
  let user_info := PyDict [("username", py_dict_get_or "username" PyNone sess);
                           ("user_type", py_dict_get_or "user_type" PyNone sess)] in
  let w1 := set_session None w in
  let w2 := append_log (LogInfo "LOGOUT" (py_dict_get_or "user_type" (PyStr "UNKNOWN") user_info)
                          user_info) w1 in
  (mk_response 200 (PyDict [("message", PyStr "Logged out successfully")]), w2).

Definition register (E : env) (p : payload) (w : world) : response * world :=
  handler "Registration error" (api_register E p) w.

Definition login (p : payload) (w : world) : response * world :=
  handler "Login error" (api_login p) w.
End Auth.

(** ** Registration *)

Section AuthTheorems.
Context `{PasswordHasher}.

(** A well-formed registration body: the six required fields, a role
    among the three, an e-mail the pattern accepts. *)
Record register_body (m : gmap string value) (name u pw email_s phone role_s : string) : Prop := {
  rb_name : m !! "name" = Some (VStr name);
  rb_username : m !! "username" = Some (VStr u);
  rb_password : m !! "password" = Some (VStr pw);
  rb_email : m !! "email" = Some (VStr email_s);
  rb_phone : m !! "phone" = Some (VStr phone);
  rb_role : m !! "role" = Some (VStr role_s);
  rb_role_ok : bool_decide (lower role_s ∈ roles) = true;
  rb_email_ok : email_re_match email_s = true
}.

(** C11: Registering a username that any of the three tables already holds
    is refused with 409 and changes nothing. *)
Theorem register_conflict E m w name u pw e ph r :
  register_body m name u pw e ph r ->
  username_taken_any (VStr u) (w_db w) = true ->
  register E (PObject m) w = (error_response 409 "Username already exists", w).
Proof.
  intros [] Htaken. unfold username_taken_any in Htaken.
  unfold register, handler, run, api_register, register_validate, register_commit. destruct w as [D s l]. cbn [w_db] in Htaken.
  hm_run.
  destruct (username_taken (VStr u) (admins D)) eqn:Ha; hm_simpl; [reflexivity|].
  destruct (username_taken (VStr u) (doctors D)) eqn:Hd; hm_simpl; [reflexivity|].
  destruct (username_taken (VStr u) (patients D)) eqn:Hp; hm_simpl; [reflexivity|].
  by cbn in Htaken.
Qed.

Lemma find_credentials_insert_fresh {R} `{Account R} (u : value) (h : string) (x : R) (t : table R) :
  acct_username x = mysql_text u -> acct_password x = h -> username_taken u t = false ->
  find_credentials u h (insert_row x t).2 = Some (auto_increment t, x).
Proof.
  intros Hu Hh Hfree. unfold find_credentials, username_taken, username_eq in *. cbn.
  induction (rows t) as [|[k y] l IH]; cbn in *.
  - rewrite bool_decide_eq_true_2 by done. subst h. by rewrite String.eqb_refl.
  - apply orb_false_iff in Hfree as [Hy Hl]. rewrite Hy. cbn. by apply IH.
Qed.

Lemma username_taken_any_false u D :
  username_taken_any u D = false ->
  username_taken u (admins D) = false /\ username_taken u (doctors D) = false /\
  username_taken u (patients D) = false.
Proof. unfold username_taken_any. intros H'. repeat rewrite orb_false_iff in H'. tauto. Qed.

Lemma role_cases r : bool_decide (r ∈ roles) = true -> r = "admin" \/ r = "doctor" \/ r = "patient".
Proof.
  intros Hr%bool_decide_eq_true_1. unfold roles in Hr.
  repeat (apply elem_of_cons in Hr as [Hr|Hr]; [tauto|]).
  by apply not_elem_of_nil in Hr.
Qed.

(** The id the next row of the role's table gets. *)
Definition next_account_id (role : string) (D : db) : Z :=
  if String.eqb role "admin" then auto_increment (admins D)
  else if String.eqb role "doctor" then auto_increment (doctors D)
  else auto_increment (patients D).

(** C3: Registration followed by a login with the same username, password
    and role answers 200 with the new account's id, username and name:
    the account is found by the hash of the password it was stored
    with. *)
Theorem register_then_login E m lm w name u pw e ph r t :
  register_body m name u pw e ph r ->
  username_taken_any (VStr u) (w_db w) = false ->
  u <> "" -> pw <> "" ->
  lm !! "username" = Some (VStr u) -> lm !! "password" = Some (VStr pw) ->
  lm !! "user_type" = Some (VStr t) -> lower t = lower r ->
  (login (PObject lm) (register E (PObject m) w).2).1 =
  mk_response 200
    (PyDict [("message", PyStr "Login successful");
             ("user", PyDict [("id", PyInt (next_account_id (lower r) (w_db w)));
                              ("username", PyStr u); ("name", PyStr name);
                              ("user_type", PyStr (lower r))])]).
Proof.
  intros [] Hfree Hu Hpw Hlu Hlp Hlt Hlow.
  destruct u as [|cu u]; [done|]. destruct pw as [|cp pw]; [done|].
  destruct w as [D s l]. cbn [w_db] in Hfree.
  destruct (username_taken_any_false _ _ Hfree) as (Ha & Hd & Hp).
  destruct (register E (PObject m) (mk_world D s l)) as [r1 w1] eqn:Hreg.
  unfold register, handler, run, api_register, register_validate, register_commit in Hreg. cbn [snd].
  revert Hreg. destruct (role_cases _ rb_role_ok0) as [Hr|[Hr|Hr]];
    hm_run; rewrite Hr; hm_simpl; intros Hreg; apply pair_equal_spec in Hreg as [_ <-];
    clear rb_name0 rb_username0 rb_password0 rb_email0 rb_phone0 rb_role0 rb_email_ok0;
    unfold login, handler, run, api_login, lookup_account; hm_run; rewrite Hlow; hm_run; rewrite Hr;
    hm_simpl; db_simpl; rewrite find_credentials_insert_fresh by done; hm_simpl; reflexivity.
Qed.

(** ** Login *)

(** C22: A well-formed login whose credentials match a row of the role's
    table answers 200 with that row's id, username and name, stores them
    with the role in the session, logs the login, and leaves the database
    as it was. *)
Theorem login_sets_session lm w u pw t id uname name :
  lm !! "username" = Some (VStr u) -> lm !! "password" = Some (VStr pw) ->
  lm !! "user_type" = Some (VStr t) -> u <> "" -> pw <> "" ->
  bool_decide (lower t ∈ roles) = true ->
  lookup_account (lower t) (VStr u) (hash_password pw) (w_db w) = Some (id, uname, name) ->
  login (PObject lm) w =
  (mk_response 200
     (PyDict [("message", PyStr "Login successful");
              ("user", PyDict [("id", PyInt id); ("username", value_to_py uname);
                               ("name", value_to_py name); ("user_type", PyStr (lower t))])]),
   mk_world (w_db w) (Some (mk_session id uname (lower t)))
     (w_log w ++ [LogInfo "LOGIN" (PyStr (upper (lower t)))
                    (PyDict [("username", PyStr u); ("id", PyInt id)])])).
Proof.
  intros Hlu Hlp Hlt Hu Hpw Hr Hfound.
  destruct u as [|cu u]; [done|]. destruct pw as [|cp pw]; [done|].
  destruct (role_cases _ Hr) as [Ht|[Ht|Ht]]; destruct w as [D s l]; cbn [w_db] in *;
    unfold login, handler, run, api_login; hm_run; rewrite Ht; hm_simpl;
    rewrite <- Ht, Hfound; reflexivity.
Qed.

(** A well-formed login whose credentials match no row of the role's
    table is refused with 401 and changes nothing. *)
Lemma login_no_match lm w u pw t :
  lm !! "username" = Some (VStr u) -> lm !! "password" = Some (VStr pw) ->
  lm !! "user_type" = Some (VStr t) -> u <> "" -> pw <> "" ->
  bool_decide (lower t ∈ roles) = true ->
  lookup_account (lower t) (VStr u) (hash_password pw) (w_db w) = None ->
  login (PObject lm) w = (error_response 401 "Invalid credentials", w).
Proof.
  intros Hlu Hlp Hlt Hu Hpw Hr Hnone.
  destruct u as [|cu u]; [done|]. destruct pw as [|cp pw]; [done|].
  destruct (role_cases _ Hr) as [Ht|[Ht|Ht]]; destruct w as [D s l]; cbn [w_db] in *;
    unfold login, handler, run, api_login; hm_run; rewrite Ht; hm_simpl;
    rewrite <- Ht, Hnone; reflexivity.
Qed.

Lemma find_credentials_not_taken {R} `{Account R} u h (t : table R) :
  username_taken u t = false -> find_credentials u h t = None.
Proof.
  unfold username_taken, find_credentials. intros Hn.
  induction (rows t) as [|kr l IH]; cbn in *; [done|].
  apply orb_false_iff in Hn as [Hk Hl]. rewrite Hk. cbn. by apply IH.
Qed.

(** C13: A login with a username no table holds is refused with 401, the
    same answer as for a wrong password. *)
Theorem login_unknown_username lm w u pw t :
  lm !! "username" = Some (VStr u) -> lm !! "password" = Some (VStr pw) ->
  lm !! "user_type" = Some (VStr t) -> u <> "" -> pw <> "" ->
  bool_decide (lower t ∈ roles) = true ->
  username_taken_any (VStr u) (w_db w) = false ->
  login (PObject lm) w = (error_response 401 "Invalid credentials", w).
Proof.
  intros Hlu Hlp Hlt Hu Hpw Hr Hfree. eapply login_no_match; try eassumption.
  destruct (username_taken_any_false _ _ Hfree) as (Ha & Hd & Hp).
  unfold lookup_account. rewrite !find_credentials_not_taken by done. by repeat case_if.
Qed.

(** C32: A ["user_type"] of [null] (or any non-string) makes [.lower()] raise
    [AttributeError]: the answer is 500, not the 400 of a missing
    [user_type], and only the error line is logged. *)
Theorem login_null_user_type lm w :
  lm !! "user_type" = Some VNull ->
  login (PObject lm) w = (internal_error, append_log (LogError "Login error" AttributeError) w).
Proof.
  intros Ht. destruct w as [D s l].
  unfold login, handler, run, api_login. hm_run. reflexivity.
Qed.

(** ** Logout *)

(** C33: Logout always answers 200 and empties the session, whatever it
    held.  The role it logs is the session's user type, or [None] without
    a session: [user_info] always holds the key ['user_type'], so
    [.get('user_type', 'UNKNOWN')] never falls back to ['UNKNOWN'], the
    role the spec says is logged without a session. *)
Theorem logout_clears_session w :
  let role := from_option (fun s => PyStr (sess_user_type s)) PyNone (w_session w) in
  let uname := from_option (fun s => value_to_py (sess_username s)) PyNone (w_session w) in
  api_logout w =
  (mk_response 200 (PyDict [("message", PyStr "Logged out successfully")]),
   mk_world (w_db w) None
     (w_log w ++ [LogInfo "LOGOUT" role (PyDict [("username", uname); ("user_type", role)])])) /\
  (w_session w = None -> role = PyNone).
Proof. destruct w as [D [s|] l]; split; done. Qed.
End AuthTheorems.

(** ** The theorems on the sample data *)

Section AuthWitnesses.
#[local] Existing Instance plain_hasher.

Lemma register_then_login_witness :
  (login (PObject (login_body "drx" "pw" "doctor"))
     (register env0 (PObject drx_registration) initial_world).2).1 =
  mk_response 200
    (PyDict [("message", PyStr "Login successful");
             ("user", PyDict [("id", PyInt (next_account_id (lower "doctor") (w_db initial_world)));
                              ("username", PyStr "drx"); ("name", PyStr "Dr X");
                              ("user_type", PyStr (lower "doctor"))])]).
Proof.
  apply (register_then_login env0 drx_registration (login_body "drx" "pw" "doctor") initial_world
           "Dr X" "drx" "pw" "x@h.com" "555" "doctor" "doctor");
    try reflexivity; try discriminate.
  constructor; reflexivity.
Defined.

Lemma register_conflict_witness :
  register env0 (PObject drx_registration) sample_world =
  (error_response 409 "Username already exists", sample_world).
Proof.
  apply (register_conflict env0 drx_registration sample_world "Dr X" "drx" "pw" "x@h.com" "555" "doctor").
  - constructor; reflexivity.
  - reflexivity.
Defined.

Lemma login_unknown_username_witness :
  login (PObject (login_body "nobody" "pw" "doctor")) sample_world =
  (error_response 401 "Invalid credentials", sample_world).
Proof.
  apply (login_unknown_username _ _ "nobody" "pw" "doctor"); try reflexivity; discriminate.
Defined.

Lemma login_null_user_type_witness :
  login (PObject (obj [("username", VStr "drx"); ("password", VStr "pw"); ("user_type", VNull)])) sample_world =
  (internal_error, append_log (LogError "Login error" AttributeError) sample_world).
Proof. apply login_null_user_type. reflexivity. Defined.

(** Without a session, the logged role is [None]. *)
Lemma logout_clears_session_witness :
  api_logout sample_world =
  (mk_response 200 (PyDict [("message", PyStr "Logged out successfully")]),
   mk_world sample_db None
     [LogInfo "LOGOUT" PyNone (PyDict [("username", PyNone); ("user_type", PyNone)])]).
Proof. apply (proj1 (logout_clears_session sample_world)). Defined.

Lemma login_sets_session_witness :
  login (PObject (login_body "drx" "pw" "doctor")) sample_world =
  (mk_response 200
     (PyDict [("message", PyStr "Login successful");
              ("user", PyDict [("id", PyInt 1); ("username", value_to_py (VStr "drx"));
                               ("name", value_to_py (VStr "Dr X")); ("user_type", PyStr (lower "doctor"))])]),
   mk_world sample_db (Some (mk_session 1 (VStr "drx") (lower "doctor")))
     ([] ++ [LogInfo "LOGIN" (PyStr (upper (lower "doctor")))
               (PyDict [("username", PyStr "drx"); ("id", PyInt 1)])])).
Proof.
  apply (login_sets_session _ sample_world "drx" "pw" "doctor"); try reflexivity; discriminate.
Defined.
End AuthWitnesses.
