(* ===== verification/Log.v ===== *)
(** * The operation log: the line [log_operation] writes

    [log_operation(operation, user_type, data)] (src/server.py lines
    81-85) formats [f"Operation: {operation} | User Type: {user_type} |
    Data: {data}"] and hands it to [app.logger.info]; World.v keeps the
    three arguments as a [LogInfo] entry and [log_message] here renders
    it.  An f-string field is [str()] of its value, and [str()] of a dict
    or a list is built from the [repr()] of its items, so this file
    models Python's [str] and [repr] on the values a handler builds
    ([py_str], [py_repr]), with [repr] of a string ([repr_str]): quotes
    chosen by its content, backslash escapes for the quote, the
    backslash, tab, newline and carriage return, and [\xhh] for the code
    points [str.isprintable] refuses.  Characters are code points below
    256 (a Rocq [ascii]).  [log_record] is the line both handlers of
    [logging.basicConfig] (lines 18-25) write for the record:
    [asctime] (date, time and milliseconds), the level and the message;
    [stdout_line] is the line [print] writes (line 85), the message after
    [str(datetime.now())] in brackets.

    The theorem: a logged record whose operation and user type are one
    line is written as one line, to the log and to standard output,
    whatever strings the client put in the logged dict (the data of the
    record cannot forge a second log line). *)

From Stdlib Require Import ZArith String Ascii.
From stdpp Require Import base list option.
From S2P Require Import Prelude Temporal PyValue Request Store Schema World Sha256 Samples Auth.

Local Open Scope string_scope.
Local Open Scope Z_scope.

(** ** Characters *)

Definition squote : ascii := "'"%char.
Definition dquote : ascii := ascii_of_nat 34.
Definition bslash : ascii := "\"%char.

(** [str.isprintable()] of one code point below 256: printable ASCII,
    and the Latin-1 letters and signs except NO-BREAK SPACE (U+00A0) and
    SOFT HYPHEN (U+00AD). *)
Definition printable (n : nat) : bool :=
  (((32 <=? n) && (n <? 127)) || ((161 <=? n) && (n <=? 255) && negb (n =? 173)))%nat.

Fixpoint has_char (a : ascii) (s : string) : bool :=
  match s with
  | EmptyString => false
  | String c s' => Ascii.eqb c a || has_char a s'
  end.

(** ** [repr] and [str] *)

(** One character of [unicode_repr] inside a literal quoted with [q]. *)
Definition escape_char (q c : ascii) : string :=
  let n := nat_of_ascii c in
  if Ascii.eqb c q || Ascii.eqb c bslash then String bslash (String c EmptyString)
  else if (n =? 9)%nat then String bslash "t"
  else if (n =? 10)%nat then String bslash "n"
  else if (n =? 13)%nat then String bslash "r"
  else if printable n then String c EmptyString
  else String bslash (String "x" (String (hex_digit (n / 16)) (String (hex_digit (n mod 16)) EmptyString))).

Fixpoint escape (q : ascii) (s : string) : string :=
  match s with
  | EmptyString => EmptyString
  | String c s' => escape_char q c ++ escape q s'
  end.

(** [repr(s)]: single quotes, unless [s] holds a single quote and no
    double quote. *)
Definition repr_quote (s : string) : ascii :=
  if has_char squote s && negb (has_char dquote s) then dquote else squote.

Definition repr_str (s : string) : string :=
  let q := repr_quote s in String q (escape q s ++ String q EmptyString).

(** [", ".join(l)] *)
Fixpoint join (sep : string) (l : list string) : string :=
  match l with
  | [] => ""
  | [x] => x
  | x :: l' => x ++ sep ++ join sep l'
  end.

(** [time] and [datetime] drop a zero microsecond, then a zero second,
    from the end of their arguments. *)
Definition time_tail (t : time) : list Z :=
  if microsecond t =? 0 then (if second t =? 0 then [] else [second t])
  else [second t; microsecond t].

Definition repr_args (l : list Z) : string := join ", " (map (fmt_d 1) l).

Definition date_repr (d : date) : string :=
  "datetime.date(" ++ repr_args [year d; month d; day d] ++ ")".

Definition time_repr (t : time) : string :=
  "datetime.time(" ++ repr_args ([hour t; minute t] ++ time_tail t)%list ++ ")".

Definition datetime_repr (dt : datetime) : string :=
  let d := dt_date dt in let t := dt_time dt in
  "datetime.datetime(" ++
  repr_args ([year d; month d; day d; hour t; minute t] ++ time_tail t)%list ++ ")".

(** A keyword argument of [timedelta.__repr__], shown when not zero. *)
Definition kwarg (name : string) (z : Z) : list string :=
  if z =? 0 then [] else [name ++ "=" ++ fmt_d 1 z].

(** [timedelta.__repr__] (Python 3.7 and later): the non-zero fields by
    keyword, or [0]. *)
Definition timedelta_repr (td : timedelta) : string :=
  let args := (kwarg "days" (td_days td) ++ kwarg "seconds" (td_seconds td) ++
               kwarg "microseconds" (td_microseconds td))%list in
  "datetime.timedelta(" ++ (match args with [] => "0" | _ => join ", " args end) ++ ")".

Fixpoint py_repr (v : pyval) : string :=
  match v with
  | PyNone => "None"
  | PyBool b => if b then "True" else "False"
  | PyInt z => fmt_d 1 z
  | PyStr s => repr_str s
  | PyDatetime dt => datetime_repr dt
  | PyDate d => date_repr d
  | PyTime t => time_repr t
  | PyTimedelta td => timedelta_repr td
  | PyList l => "[" ++ join ", " (map py_repr l) ++ "]"
  | PyTuple l =>
      match l with
      | [x] => "(" ++ py_repr x ++ ",)"
      | _ => "(" ++ join ", " (map py_repr l) ++ ")"
      end
  | PyDict kv => "{" ++ join ", " (map (fun kx => repr_str kx.1 ++ ": " ++ py_repr kx.2) kv) ++ "}"
  end.

(** [time.isoformat()] *)
Definition time_isoformat (t : time) : string :=
  time_strftime t ++ (if microsecond t =? 0 then "" else "." ++ fmt_d 6 (microsecond t)).

(** [timedelta.__str__]: [H:MM:SS], after [D day(s), ] when there are
    days and before [.ffffff] when there are microseconds. *)
Definition timedelta_str (td : timedelta) : string :=
  let mm := td_seconds td / 60 in
  let ss := td_seconds td mod 60 in
  let hh := mm / 60 in
  let mm := mm mod 60 in
  (if td_days td =? 0 then ""
   else fmt_d 1 (td_days td) ++ " day" ++ (if Z.abs (td_days td) =? 1 then "" else "s") ++ ", ") ++
  fmt_d 1 hh ++ ":" ++ fmt_d 2 mm ++ ":" ++ fmt_d 2 ss ++
  (if td_microseconds td =? 0 then "" else "." ++ fmt_d 6 (td_microseconds td)).

(** [str(v)]: a string is itself, a temporal value its ISO form, anything
    else its [repr]. *)
Definition py_str (v : pyval) : string :=
  match v with
  | PyStr s => s
  | PyDatetime dt => date_isoformat (dt_date dt) ++ " " ++ time_isoformat (dt_time dt)
  | PyDate d => date_isoformat d
  | PyTime t => time_isoformat t
  | PyTimedelta td => timedelta_str td
  | _ => py_repr v
  end.

(** Lines 83-84: the message [app.logger.info] records. *)
Definition log_message (operation : string) (user_type data : pyval) : string :=
  "Operation: " ++ operation ++ " | User Type: " ++ py_str user_type ++ " | Data: " ++ py_str data.

(** The message of a log entry; the [except] clauses' [app.logger.error]
    lines carry the exception's text, which is not modelled. *)
Definition log_line (e : log_entry) : option string :=
  match e with
  | LogInfo op ut data => Some (log_message op ut data)
  | LogError _ _ => None
  end.

(** ** The lines the handlers of the logger write *)

(** [logging.Formatter.formatTime] with the default formats
    ['%Y-%m-%d %H:%M:%S'] and ['%s,%03d'] (milliseconds). *)
Definition asctime (t : datetime) : string :=
  date_isoformat (dt_date t) ++ " " ++ time_strftime (dt_time t) ++ "," ++
  fmt_d 3 (microsecond (dt_time t) / 1000).

(** Lines 18-25: [logging.basicConfig(format='%(asctime)s - %(levelname)s
    - %(message)s')]; the file and the stream handlers both write this
    line for a record of level [level] made at time [t]. *)
Definition log_record (t : datetime) (level msg : string) : string :=
  asctime t ++ " - " ++ level ++ " - " ++ msg.

(** Line 85: [print(f"[{datetime.now()}] {log_message}")]. *)
Definition stdout_line (t : datetime) (msg : string) : string :=
  "[" ++ py_str (PyDatetime t) ++ "] " ++ msg.

(** No line feed or carriage return. *)
Fixpoint one_line (s : string) : bool :=
  match s with
  | EmptyString => true
  | String c s' => negb (Ascii.eqb c "010") && negb (Ascii.eqb c "013") && one_line s'
  end.

(** ** Lemmas *)

Definition is_quote (q : ascii) : Prop := q = squote \/ q = dquote.

Lemma repr_quote_is_quote s : is_quote (repr_quote s).
Proof. unfold repr_quote. destruct (_ && _); [right|left]; done. Qed.



Lemma one_line_app s1 s2 : one_line (s1 ++ s2) = one_line s1 && one_line s2.
Proof. induction s1 as [|c s1 IH]; simpl; [done|]. by rewrite IH, !andb_assoc. Qed.

Lemma one_line_escape_char q c : is_quote q -> one_line (escape_char q c) = true.
Proof. intros [-> | ->]; destruct c as [[] [] [] [] [] [] [] []]; reflexivity. Qed.

Lemma one_line_escape q s : is_quote q -> one_line (escape q s) = true.
Proof.
  intros Hq. induction s as [|c s IH]; cbn [escape]; [done|].
  by rewrite one_line_app, one_line_escape_char, IH.
Qed.

Lemma one_line_repr_str s : one_line (repr_str s) = true.
Proof.
  unfold repr_str. pose proof (repr_quote_is_quote s) as Hq.
  cbn [one_line]. rewrite one_line_app, (one_line_escape _ _ Hq).
  destruct Hq as [Hq|Hq]; rewrite Hq; reflexivity.
Qed.

Lemma one_line_uint u : one_line (uint_to_string u) = true.
Proof. induction u; simpl; done. Qed.

Lemma one_line_zeros k : one_line (zeros k) = true.
Proof. induction k; simpl; done. Qed.

Lemma one_line_fmt_d w z : one_line (fmt_d w z) = true.
Proof.
  unfold fmt_d, zfill, decimal. case_match; simpl;
    by rewrite one_line_app, one_line_zeros, one_line_uint.
Qed.

Lemma one_line_join sep l :
  one_line sep = true -> Forall (fun x => one_line x = true) l -> one_line (join sep l) = true.
Proof.
  intros Hs. induction 1 as [|x l Hx _ IH]; [done|].
  destruct l as [|y l]; [done|]. change (join sep (x :: y :: l)) with (x ++ sep ++ join sep (y :: l)).
  by rewrite !one_line_app, Hx, Hs, IH.
Qed.

Lemma one_line_repr_args l : one_line (repr_args l) = true.
Proof.
  apply one_line_join; [done|]. apply Forall_map, Forall_forall. intros z _.
  apply one_line_fmt_d.
Qed.

Create Rewrite HintDb one_line_rw.
#[export] Hint Rewrite one_line_app one_line_fmt_d one_line_repr_str one_line_repr_args : one_line_rw.

Ltac one_line_simpl := repeat (simpl; autorewrite with one_line_rw; simpl).

Lemma one_line_kwarg name z :
  one_line name = true -> Forall (fun x => one_line x = true) (kwarg name z).
Proof. intros Hn. unfold kwarg. case_match; repeat constructor. one_line_simpl. by rewrite Hn. Qed.

Lemma one_line_timedelta_repr td : one_line (timedelta_repr td) = true.
Proof.
  unfold timedelta_repr.
  assert (Hargs : Forall (fun x => one_line x = true) (kwarg "days" (td_days td) ++
            kwarg "seconds" (td_seconds td) ++ kwarg "microseconds" (td_microseconds td))%list)
    by (repeat apply Forall_app_2; by apply one_line_kwarg).
  revert Hargs. generalize (kwarg "days" (td_days td) ++ kwarg "seconds" (td_seconds td) ++
                           kwarg "microseconds" (td_microseconds td))%list.
  intros [|a args] Hargs; [reflexivity|]. cbv iota. by rewrite !one_line_app, one_line_join.
Qed.

Lemma one_line_py_repr v : one_line (py_repr v) = true.
Proof.
  induction v as [|b|z|s|dt|d|t|td|l IH|l IH|kv IH] using pyval_ind'; cbn [py_repr].
  - done.
  - by destruct b.
  - apply one_line_fmt_d.
  - apply one_line_repr_str.
  - unfold datetime_repr. by rewrite !one_line_app, one_line_repr_args.
  - unfold date_repr. by rewrite !one_line_app, one_line_repr_args.
  - unfold time_repr. by rewrite !one_line_app, one_line_repr_args.
  - apply one_line_timedelta_repr.
  - rewrite !one_line_app, one_line_join; [done|done|by apply Forall_map].
  - destruct l as [|x [|y l]]; [done| |].
    + inversion IH as [|? ? Hx]. by rewrite !one_line_app, Hx.
    + rewrite !one_line_app, one_line_join; [done|done|by apply Forall_map].
  - rewrite !one_line_app, one_line_join; [done|done|]. apply Forall_map.
    rewrite Forall_forall in IH |- *. intros [k x] Hin. specialize (IH _ Hin). cbn in *.
    by rewrite !one_line_app, one_line_repr_str, IH.
Qed.

(** ** Theorems *)


(** C18: A log record is one line: when the operation name and the user
    type print without a line break, the line the logger writes for the
    message [log_operation] records, and the line it prints, have none
    either, whatever strings the logged dict holds (each is printed by
    [repr], which escapes line feeds and carriage returns), so request
    data cannot forge a second log line. *)
Theorem log_message_one_line t op ut kv :
  one_line op = true -> one_line (py_str ut) = true ->
  one_line (log_record t "INFO" (log_message op ut (PyDict kv))) = true /\
  one_line (stdout_line t (log_message op ut (PyDict kv))) = true.
Proof.
  intros Ho Hu. assert (Hm : one_line (log_message op ut (PyDict kv)) = true).
  { unfold log_message. change (py_str (PyDict kv)) with (py_repr (PyDict kv)).
    by rewrite !one_line_app, Ho, Hu, one_line_py_repr. }
  unfold log_record, stdout_line, asctime, py_str, date_isoformat, time_isoformat, time_strftime.
  destruct (microsecond (dt_time t) =? 0); split;
    by rewrite !one_line_app, ?one_line_fmt_d, Hm.
Qed.

(** ** The theorems on the sample data *)

Section LogWitnesses.
#[local] Existing Instance plain_hasher.

(** The record of the sample doctor's registration, as the log shows it. *)
Lemma log_message_one_line_witness :
  map log_line (w_log (register env0 (PObject drx_registration) initial_world).2) =
    [Some "Operation: REGISTER | User Type: DOCTOR | Data: {'username': 'drx', 'name': 'Dr X', 'email': 'x@h.com'}"] /\
  log_record sample_now "INFO" "m" = "2025-01-06 09:00:00,000 - INFO - m" /\
  one_line (log_record sample_now "INFO" (log_message "REGISTER" (PyStr "DOCTOR")
              (PyDict [("username", PyStr "drx"); ("name", PyStr "Dr X"); ("email", PyStr "x@h.com")]))) = true.
Proof.
  split; [reflexivity|split; [vm_compute; reflexivity|]].
  refine (proj1 (log_message_one_line sample_now "REGISTER" (PyStr "DOCTOR") _ _ _));
    vm_compute; reflexivity.
Defined.
End LogWitnesses.
