(* ===== verification/Accounts.v ===== *)
(** * Account CRUD: [/api/admins], [/api/doctors], [/api/patients]

    One definition per Flask route of src/server.py lines 206-575, each
    following its source statement by statement.  The three update
    handlers share [collect_fields] (the [if field in data] loop) and
    apply the collected columns with [admin_set], [doctor_set] and
    [patient_set] (the [UPDATE ... SET col = %s, ...]).  The list handlers
    differ as the source does: [get_all_admins] and [get_all_doctors] pass
    the tuple of [fetchall()] to [serialize_data], [get_all_patients]
    serialises each row.  [delete_doctor] is its check
    ([delete_doctor_check]: the SELECT, the COUNT and their guards) and
    its commit ([delete_doctor_commit]), the halves Concurrency.v
    interleaves; the DELETEs of doctors and patients go through
    [delete_restrict], the foreign key of [appointments].  The theorems: the appointment-count guards of
    the deletes, the two outcomes of an update, the round trip of a
    created patient through [GET], and which list answers are
    JSON-encodable. *)

From Stdlib Require Import ZArith String.
From stdpp Require Import base list option gmap strings sorting.
From S2P Require Import Prelude Temporal PyValue Request Store Schema World Samples.

Local Open Scope string_scope.
Local Open Scope Z_scope.
Local Open Scope hosp_scope.

(** [UPDATE t SET f1 = %s, f2 = %s ...]: the columns are distinct, so the
    assignments are applied one after the other; each text column stores
    its value as [mysql_text] converts it. *)
Definition apply_fields {R} (set : string -> value -> R -> R) (fs : list (string * value)) (r : R) : R :=
  fold_left (fun r fv => set fv.1 fv.2 r) fs r.

Definition admin_set (f : string) (v : value) (a : admin) : admin :=
  let 'mk_admin n u pw e ph c := a in
  if String.eqb f "name" then mk_admin (mysql_text v) u pw e ph c
  else if String.eqb f "email" then mk_admin n u pw (mysql_text v) ph c
  else if String.eqb f "phone" then mk_admin n u pw e (mysql_text v) c
  else a.

Definition doctor_set (f : string) (v : value) (d : doctor) : doctor :=
  let 'mk_doctor n u pw e ph sp c := d in
  if String.eqb f "name" then mk_doctor (mysql_text v) u pw e ph sp c
  else if String.eqb f "email" then mk_doctor n u pw (mysql_text v) ph sp c
  else if String.eqb f "phone" then mk_doctor n u pw e (mysql_text v) sp c
  else if String.eqb f "specialization" then mk_doctor n u pw e ph (mysql_text v) c
  else d.

Definition patient_set (f : string) (v : value) (p : patient) : patient :=
  let 'mk_patient n u pw e ph ad c := p in
  if String.eqb f "name" then mk_patient (mysql_text v) u pw e ph ad c
  else if String.eqb f "email" then mk_patient n u pw (mysql_text v) ph ad c
  else if String.eqb f "phone" then mk_patient n u pw e (mysql_text v) ad c
  else if String.eqb f "address" then mk_patient n u pw e ph (mysql_text v) c
  else p.

(** [list(data.keys())] of the update log lines, in key order. *)
Definition data_keys (data : option (gmap string value)) : pyval :=
  PyList (map PyStr (from_option (fun m => map fst (map_to_list m)) [] data)).

Definition count_result (n : nat) : pyval := PyDict [("count", PyInt (Z.of_nat n))].
Definition id_dict (id : Z) : pyval := PyDict [("id", PyInt id)].
Definition message (msg : string) : pyval := PyDict [("message", PyStr msg)].

Section Accounts.
Context `{PasswordHasher}.

(** ** Admins, lines 208-304 *)

Definition api_get_all_admins : HM response :=
  D <- read_db ;;
  let admins := order_by_name (rows (admins D)) in
  let serialized := serialize_data (PyTuple (map (fun kr => admin_public kr.1 kr.2) admins)) in
  log_operation "GET_ALL" (PyStr "ADMIN") (count_result (length admins)) ;;
  ret (mk_response 200 (PyDict [("admins", serialized)])).

Definition api_get_admin (admin_id : Z) : HM response :=
  D <- read_db ;;
  match select_by_id admin_id (admins D) with
  | None => early (error_response 404 "Admin not found")
  | Some a =>
      log_operation "GET" (PyStr "ADMIN") (id_dict admin_id) ;;
      ret (mk_response 200 (PyDict [("admin", serialize_data (admin_public admin_id a))]))
  end.

Definition api_update_admin (admin_id : Z) (p : payload) : HM response :=
  data <- get_json p ;;
  D <- read_db ;;
  guard (bool_decide (select_by_id admin_id (admins D) = None)) (error_response 404 "Admin not found") ;;
  fields <- collect_fields ["name"; "email"; "phone"] data ;;
  guard (bool_decide (fields = [])) (error_response 400 "No valid fields to update") ;;
  write_db (fun D => with_admins (update_by_id admin_id (apply_fields admin_set fields) (admins D)) D) ;;
  log_operation "UPDATE" (PyStr "ADMIN")
    (PyDict [("id", PyInt admin_id); ("updated_fields", data_keys data)]) ;;
  ret (mk_response 200 (message "Admin updated successfully")).

Definition api_delete_admin (admin_id : Z) : HM response :=
  D <- read_db ;;
  match select_by_id admin_id (admins D) with
  | None => early (error_response 404 "Admin not found")
  | Some a =>
      write_db (fun D => with_admins (delete_by_id admin_id (admins D)) D) ;;
      log_operation "DELETE" (PyStr "ADMIN")
        (PyDict [("id", PyInt admin_id); ("username", value_to_py (admin_username a))]) ;;
      ret (mk_response 200 (message "Admin deleted successfully"))
  end.

(** ** Doctors, lines 308-438 *)

Definition api_get_all_doctors : HM response :=
  D <- read_db ;;
  let doctors := order_by_name (rows (doctors D)) in
  let serialized := serialize_data (PyTuple (map (fun kr => doctor_public kr.1 kr.2) doctors)) in
  log_operation "GET_ALL" (PyStr "DOCTOR") (count_result (length doctors)) ;;
  ret (mk_response 200 (PyDict [("doctors", serialized)])).

Definition api_create_doctor (E : env) (p : payload) : HM response :=
  data <- get_json p ;;
  require_fields ["name"; "username"; "password"; "email"; "phone"; "specialization"] data ;;
  D <- read_db ;;
  username <- py_getitem data "username" ;;
  guard (username_taken username (doctors D)) (error_response 409 "Username already exists") ;;
  password <- py_getitem data "password" ;;
  hashed <- py_hash_password password ;;
  name <- py_getitem data "name" ;;
  email <- py_getitem data "email" ;;
  phone <- py_getitem data "phone" ;;
  spec <- py_getitem data "specialization" ;;
  let ins := insert_row (doctor_row name username hashed email phone spec (now E)) (doctors D) in
  let doctor_id := ins.1 in
  write_db (with_doctors ins.2) ;;
  log_operation "CREATE" (PyStr "DOCTOR")
    (PyDict [("id", PyInt doctor_id); ("username", value_to_py username); ("name", value_to_py name)]) ;;
  ret (mk_response 201 (PyDict [("message", PyStr "Doctor created successfully"); ("id", PyInt doctor_id)])).

Definition api_get_doctor (doctor_id : Z) : HM response :=
  D <- read_db ;;
  match select_by_id doctor_id (doctors D) with
  | None => early (error_response 404 "Doctor not found")
  | Some d =>
      log_operation "GET" (PyStr "DOCTOR") (id_dict doctor_id) ;;
      ret (mk_response 200 (PyDict [("doctor", serialize_data (doctor_public doctor_id d))]))
  end.

Definition api_update_doctor (doctor_id : Z) (p : payload) : HM response :=
  data <- get_json p ;;
  D <- read_db ;;
  guard (bool_decide (select_by_id doctor_id (doctors D) = None)) (error_response 404 "Doctor not found") ;;
  fields <- collect_fields ["name"; "email"; "phone"; "specialization"] data ;;
  guard (bool_decide (fields = [])) (error_response 400 "No valid fields to update") ;;
  write_db (fun D => with_doctors (update_by_id doctor_id (apply_fields doctor_set fields) (doctors D)) D) ;;
  log_operation "UPDATE" (PyStr "DOCTOR")
    (PyDict [("id", PyInt doctor_id); ("updated_fields", data_keys data)]) ;;
  ret (mk_response 200 (message "Doctor updated successfully")).

(** [SELECT COUNT( * ) FROM appointments WHERE doctor_id = %s] *)
Definition doctor_appointment_count (doctor_id : Z) (D : db) : nat :=
  count_where (fun _ a => Z.eqb (Schema.doctor_id a) doctor_id) (appointments D).

(** Lines 418-427: the doctor's [SELECT] and the [COUNT( * )] of its
    appointments, on the database [D] they read; the row found is
    passed on. *)
Definition delete_doctor_check (doctor_id : Z) (D : db) : HM doctor :=
  match select_by_id doctor_id (doctors D) with
  | None => early (error_response 404 "Doctor not found")
  | Some d =>
      guard (0 <? doctor_appointment_count doctor_id D)%nat
        (error_response 400 "Cannot delete doctor with existing appointments") ;;
      ret d
  end.

(** Lines 429-433: the [DELETE], [commit()], the log line and the answer. *)
Definition delete_doctor_commit (doctor_id : Z) (d : doctor) : HM response :=
  delete_restrict (fun D => 0 <? doctor_appointment_count doctor_id D)%nat
    (fun D => with_doctors (delete_by_id doctor_id (doctors D)) D) ;;
  log_operation "DELETE" (PyStr "DOCTOR")
    (PyDict [("id", PyInt doctor_id); ("username", value_to_py (doctor_username d))]) ;;
  ret (mk_response 200 (message "Doctor deleted successfully")).

Definition api_delete_doctor (doctor_id : Z) : HM response :=
  D <- read_db ;;
  d <- delete_doctor_check doctor_id D ;;
  delete_doctor_commit doctor_id d.

(** ** Patients, lines 441-575 *)

Definition api_get_all_patients : HM response :=
  D <- read_db ;;
  let patients := order_by_name (rows (patients D)) in
  let serialized := PyList (map (fun kr => serialize_data (patient_public kr.1 kr.2)) patients) in
  log_operation "GET_ALL" (PyStr "PATIENT") (count_result (length patients)) ;;
  ret (mk_response 200 (PyDict [("patients", serialized)])).

Definition api_create_patient (E : env) (p : payload) : HM response :=
  data <- get_json p ;;
  require_fields ["name"; "username"; "password"; "email"; "phone"] data ;;
  D <- read_db ;;
  username <- py_getitem data "username" ;;
  guard (username_taken username (patients D)) (error_response 409 "Username already exists") ;;
  password <- py_getitem data "password" ;;
  hashed <- py_hash_password password ;;
  addr <- py_get data "address" (VStr "") ;;
  name <- py_getitem data "name" ;;
  email <- py_getitem data "email" ;;
  phone <- py_getitem data "phone" ;;
  let ins := insert_row (patient_row name username hashed email phone addr (now E)) (patients D) in
  let patient_id := ins.1 in
  write_db (with_patients ins.2) ;;
  log_operation "CREATE" (PyStr "PATIENT")
    (PyDict [("id", PyInt patient_id); ("username", value_to_py username); ("name", value_to_py name)]) ;;
  ret (mk_response 201 (PyDict [("message", PyStr "Patient created successfully"); ("id", PyInt patient_id)])).

Definition api_get_patient (patient_id : Z) : HM response :=
  D <- read_db ;;
  match select_by_id patient_id (patients D) with
  | None => early (error_response 404 "Patient not found")
  | Some p =>
      log_operation "GET" (PyStr "PATIENT") (id_dict patient_id) ;;
      ret (mk_response 200 (PyDict [("patient", serialize_data (patient_public patient_id p))]))
  end.

Definition api_update_patient (patient_id : Z) (p : payload) : HM response :=
  data <- get_json p ;;
  D <- read_db ;;
  guard (bool_decide (select_by_id patient_id (patients D) = None)) (error_response 404 "Patient not found") ;;
  fields <- collect_fields ["name"; "email"; "phone"; "address"] data ;;
  guard (bool_decide (fields = [])) (error_response 400 "No valid fields to update") ;;
  write_db (fun D => with_patients (update_by_id patient_id (apply_fields patient_set fields) (patients D)) D) ;;
  log_operation "UPDATE" (PyStr "PATIENT")
    (PyDict [("id", PyInt patient_id); ("updated_fields", data_keys data)]) ;;
  ret (mk_response 200 (message "Patient updated successfully")).

(** [SELECT COUNT( * ) FROM appointments WHERE patient_id = %s] *)
Definition patient_appointment_count (patient_id : Z) (D : db) : nat :=
  count_where (fun _ a => Z.eqb (Schema.patient_id a) patient_id) (appointments D).

Definition api_delete_patient (patient_id : Z) : HM response :=
  D <- read_db ;;
  match select_by_id patient_id (patients D) with
  | None => early (error_response 404 "Patient not found")
  | Some p =>
      guard (0 <? patient_appointment_count patient_id D)%nat
        (error_response 400 "Cannot delete patient with existing appointments") ;;
      delete_restrict (fun D => 0 <? patient_appointment_count patient_id D)%nat
        (fun D => with_patients (delete_by_id patient_id (patients D)) D) ;;
      log_operation "DELETE" (PyStr "PATIENT")
        (PyDict [("id", PyInt patient_id); ("username", value_to_py (patient_username p))]) ;;
      ret (mk_response 200 (message "Patient deleted successfully"))
  end.
End Accounts.

(** ** Theorems *)

Section AccountTheorems.
Context `{PasswordHasher}.

(** C4: A doctor with at least one appointment is not deleted: 400, and
    nothing changes. *)
Theorem delete_doctor_blocked i w d :
  select_by_id i (doctors (w_db w)) = Some d ->
  (0 < doctor_appointment_count i (w_db w))%nat ->
  handler "Delete doctor error" (api_delete_doctor i) w =
  (error_response 400 "Cannot delete doctor with existing appointments", w).
Proof.
  intros Hs Hc%Nat.ltb_lt. destruct w as [D s l]. cbn [w_db] in *.
  unfold handler, run, api_delete_doctor, delete_doctor_check, delete_doctor_commit. hm_run. reflexivity.
Qed.

(** C15: A doctor with no appointment is deleted: 200, the row is gone and
    the other tables are as they were. *)
Theorem delete_doctor_unreferenced i w d :
  select_by_id i (doctors (w_db w)) = Some d ->
  doctor_appointment_count i (w_db w) = 0%nat ->
  exists w', handler "Delete doctor error" (api_delete_doctor i) w =
             (mk_response 200 (message "Doctor deleted successfully"), w') /\
    select_by_id i (doctors (w_db w')) = None /\
    admins (w_db w') = admins (w_db w) /\ patients (w_db w') = patients (w_db w) /\
    appointments (w_db w') = appointments (w_db w).
Proof.
  intros Hs Hc. assert ((0 <? doctor_appointment_count i (w_db w))%nat = false) as Hc'
    by (rewrite Hc; done). destruct w as [D s l]. cbn [w_db] in *.
  unfold handler, run, api_delete_doctor, delete_doctor_check, delete_doctor_commit. hm_run.
  eexists. split; [reflexivity|]. cbn. split; [apply select_delete_eq|done].
Qed.

(** A patient with at least one appointment is not deleted: 400,
    and nothing changes. *)
Theorem delete_patient_blocked i w p :
  select_by_id i (patients (w_db w)) = Some p ->
  (0 < patient_appointment_count i (w_db w))%nat ->
  handler "Delete patient error" (api_delete_patient i) w =
  (error_response 400 "Cannot delete patient with existing appointments", w).
Proof.
  intros Hs Hc%Nat.ltb_lt. destruct w as [D s l]. cbn [w_db] in *.
  unfold handler, run, api_delete_patient. hm_run. reflexivity.
Qed.

(** [UPDATE doctors SET ...] with the fields of the body that are in
    [allowed_fields]: each column named in the body takes its value as the
    text column stores it, the others keep theirs. *)
Lemma apply_doctor_fields m d :
  apply_fields doctor_set (present_fields ["name"; "email"; "phone"; "specialization"] m) d =
  mk_doctor (default (doctor_name d) (mysql_text <$> m !! "name")) (doctor_username d)
    (doctor_password d) (default (doctor_email d) (mysql_text <$> m !! "email"))
    (default (doctor_phone d) (mysql_text <$> m !! "phone"))
    (default (specialization d) (mysql_text <$> m !! "specialization")) (doctor_created_at d).
Proof.
  destruct d. cbn [present_fields].
  destruct (m !! "name"), (m !! "email"), (m !! "phone"), (m !! "specialization"); reflexivity.
Qed.

(** C14: An update of an existing doctor with at least one allowed field
    answers 200, rewrites exactly the columns the body names in that
    doctor's row (with the text MySQL stores for each value), and leaves
    every other row as it was. *)
Theorem update_doctor_ok i m w d :
  select_by_id i (doctors (w_db w)) = Some d ->
  present_fields ["name"; "email"; "phone"; "specialization"] m <> [] ->
  exists w', handler "Update doctor error" (api_update_doctor i (PObject m)) w =
             (mk_response 200 (message "Doctor updated successfully"), w') /\
    select_by_id i (doctors (w_db w')) =
      Some (mk_doctor (default (doctor_name d) (mysql_text <$> m !! "name")) (doctor_username d)
              (doctor_password d) (default (doctor_email d) (mysql_text <$> m !! "email"))
              (default (doctor_phone d) (mysql_text <$> m !! "phone"))
              (default (specialization d) (mysql_text <$> m !! "specialization")) (doctor_created_at d)) /\
    (forall k, k <> i -> select_by_id k (doctors (w_db w')) = select_by_id k (doctors (w_db w))).
Proof.
  intros Hs Hne. destruct w as [D s l]. cbn [w_db] in *.
  unfold handler, run, api_update_doctor. hm_simpl_loops.
  rewrite Hs, bool_decide_false by done. hm_simpl_loops.
  rewrite collect_fields_some, bool_decide_false by done. hm_simpl.
  eexists. split; [reflexivity|]. db_simpl. split.
  - rewrite select_update_eq, Hs.
    transitivity (Some (apply_fields doctor_set
                          (present_fields ["name"; "email"; "phone"; "specialization"] m) d));
      [reflexivity|]. rewrite apply_doctor_fields. reflexivity.
  - intros k Hk. by apply select_update_ne.
Qed.

(** An update of an existing doctor whose body names none of the allowed
    fields answers 400 and changes nothing. *)
Theorem update_doctor_no_fields i m w d :
  select_by_id i (doctors (w_db w)) = Some d ->
  present_fields ["name"; "email"; "phone"; "specialization"] m = [] ->
  handler "Update doctor error" (api_update_doctor i (PObject m)) w =
  (error_response 400 "No valid fields to update", w).
Proof.
  intros Hs Hne. destruct w as [D s l]. cbn [w_db] in *.
  unfold handler, run, api_update_doctor. hm_simpl_loops.
  rewrite Hs, bool_decide_false by done. hm_simpl_loops.
  rewrite collect_fields_some, Hne, bool_decide_true by done. reflexivity.
Qed.

(** C20: A patient created with a fresh username can be read back under the
    id the creation returned, as the columns store the body's fields:
    each text field as a string (an int as its digits, a boolean as
    ['1'] or ['0']), [address] defaulting to the empty string, and
    [created_at] the creation time rounded to the second by the DATETIME
    column; the answer leaves the password out. *)
Theorem create_then_get_patient E m w n u pw e ph :
  table_wf (patients (w_db w)) ->
  m !! "name" = Some n -> m !! "username" = Some u -> m !! "password" = Some (VStr pw) ->
  m !! "email" = Some e -> m !! "phone" = Some ph ->
  username_taken u (patients (w_db w)) = false ->
  exists i w1 w2,
    handler "Create patient error" (api_create_patient E (PObject m)) w =
      (mk_response 201 (PyDict [("message", PyStr "Patient created successfully");
                                ("id", PyInt i)]), w1) /\
    handler "Get patient error" (api_get_patient i) w1 =
      (mk_response 200 (PyDict [("patient", PyDict
         [("id", PyInt i); ("name", value_to_py (mysql_text n));
          ("username", value_to_py (mysql_text u));
          ("email", value_to_py (mysql_text e)); ("phone", value_to_py (mysql_text ph));
          ("address", value_to_py (mysql_text (default (VStr "") (m !! "address"))));
          ("created_at", PyStr (datetime_isoformat (mysql_datetime (now E))))])]),
       w2).
Proof.
  intros Hwf Hn Hu Hpw He Hph Ht. destruct w as [D s l]. cbn [w_db] in *.
  unfold handler, run, api_create_patient. hm_simpl_loops.
  rewrite require_fields_ok by (repeat constructor; eexists; eassumption).
  hm_run. do 3 eexists. split; [reflexivity|].
  unfold api_get_patient. hm_simpl. db_simpl. rewrite select_insert_eq by done.
  cbn. by rewrite !serialize_value_to_py.
Qed.

(** C25: [GET /api/admins] hands [serialize_data] the tuple [fetchall()]
    returns, which it passes through unchanged: as soon as one admin
    exists, the [created_at] datetimes reach [jsonify] unconverted. *)
Theorem get_all_admins_unserialized w :
  rows (admins (w_db w)) <> [] ->
  json_ready (body (handler "Get admins error" api_get_all_admins w).1) = false.
Proof.
  intros Hne. destruct w as [D s l]. cbn [w_db] in *.
  unfold handler, run, api_get_all_admins. hm_simpl. cbn [fst body json_ready serialize_data forallb snd].
  rewrite forallb_map_false; [done| |intros [k a]; simpl; by rewrite !andb_false_r].
  unfold order_by_name. intros Hnil. apply Hne, Permutation_nil.
  by rewrite <- Hnil, merge_sort_Permutation.
Qed.

(** [GET /api/patients] serialises each row: the body is JSON-encodable
    whatever the table holds. *)
Theorem get_all_patients_json_ready w :
  json_ready (body (handler "Get patients error" api_get_all_patients w).1) = true.
Proof.
  destruct w as [D s l]. unfold handler, run, api_get_all_patients. hm_simpl.
  cbn [fst body json_ready forallb snd]. rewrite andb_true_r.
  apply forallb_map_true, Forall_forall. intros [k p] _.
  apply serialize_data_tuple_free_ready. simpl. by rewrite !value_to_py_tuple_free.
Qed.

(** [GET /api/doctors] answers every doctor once, in the order of
    [ORDER BY name] (a stable sort on the names), as the tuple of public
    rows. *)
Theorem get_all_doctors_ordered w :
  exists l w',
    handler "Get doctors error" api_get_all_doctors w =
      (mk_response 200 (PyDict [("doctors", PyTuple (map (fun kr => doctor_public kr.1 kr.2) l))]), w') /\
    l ≡ₚ rows (doctors (w_db w)) /\ Sorted by_name l.
Proof.
  destruct w as [D s lg]. exists (order_by_name (rows (doctors D))). eexists.
  split; [reflexivity|]. split.
  - apply merge_sort_Permutation.
  - apply Sorted_merge_sort, by_name_total.
Qed.
End AccountTheorems.

(** ** The theorems on the sample data *)

Section AccountWitnesses.
#[local] Existing Instance plain_hasher.

Lemma delete_doctor_blocked_witness :
  handler "Delete doctor error" (api_delete_doctor 1) sample_world =
  (error_response 400 "Cannot delete doctor with existing appointments", sample_world).
Proof. apply (delete_doctor_blocked 1 sample_world sample_doctor); [reflexivity|vm_compute; lia]. Defined.

Lemma delete_doctor_unreferenced_witness :
  exists w', handler "Delete doctor error" (api_delete_doctor 2) sample_world =
             (mk_response 200 (message "Doctor deleted successfully"), w') /\
    select_by_id 2 (doctors (w_db w')) = None /\
    admins (w_db w') = admins (w_db sample_world) /\ patients (w_db w') = patients (w_db sample_world) /\
    appointments (w_db w') = appointments (w_db sample_world).
Proof. apply (delete_doctor_unreferenced 2 sample_world sample_doctor2); reflexivity. Defined.

Lemma delete_patient_blocked_witness :
  handler "Delete patient error" (api_delete_patient 1) sample_world =
  (error_response 400 "Cannot delete patient with existing appointments", sample_world).
Proof. apply (delete_patient_blocked 1 sample_world sample_patient); [reflexivity|vm_compute; lia]. Defined.

(** A phone sent as the number 999 is stored as the text ['999']. *)
Lemma update_doctor_ok_witness :
  exists w', handler "Update doctor error" (api_update_doctor 1 (PObject (obj [("phone", VInt 999)]))) sample_world =
             (mk_response 200 (message "Doctor updated successfully"), w') /\
    select_by_id 1 (doctors (w_db w')) =
      Some (mk_doctor (default (doctor_name sample_doctor) (mysql_text <$> obj [("phone", VInt 999)] !! "name"))
              (doctor_username sample_doctor) (doctor_password sample_doctor)
              (default (doctor_email sample_doctor) (mysql_text <$> obj [("phone", VInt 999)] !! "email"))
              (default (doctor_phone sample_doctor) (mysql_text <$> obj [("phone", VInt 999)] !! "phone"))
              (default (specialization sample_doctor) (mysql_text <$> obj [("phone", VInt 999)] !! "specialization"))
              (doctor_created_at sample_doctor)) /\
    (forall k, k <> 1 -> select_by_id k (doctors (w_db w')) = select_by_id k (doctors (w_db sample_world))).
Proof. apply (update_doctor_ok 1 _ sample_world sample_doctor); [reflexivity|vm_compute; discriminate]. Defined.

Lemma update_doctor_no_fields_witness :
  handler "Update doctor error" (api_update_doctor 1 (PObject (obj [("username", VStr "evil")]))) sample_world =
  (error_response 400 "No valid fields to update", sample_world).
Proof. apply (update_doctor_no_fields 1 _ sample_world sample_doctor); reflexivity. Defined.

(** A phone sent as a number is read back as a string, and a creation at
    09:00:00.75 is stored as 09:00:01. *)
Lemma create_then_get_patient_witness :
  exists i w1 w2,
    handler "Create patient error" (api_create_patient
      (mk_env (mk_datetime sample_day (mk_time 9 0 0 750000)) sample_day) (PObject (obj
      [("name", VStr "Bob"); ("username", VStr "bob"); ("password", VStr "bpw");
       ("email", VStr "b@h.com"); ("phone", VInt 888)]))) sample_world =
      (mk_response 201 (PyDict [("message", PyStr "Patient created successfully");
                                ("id", PyInt i)]), w1) /\
    handler "Get patient error" (api_get_patient i) w1 =
      (mk_response 200 (PyDict [("patient", PyDict
         [("id", PyInt i); ("name", PyStr "Bob"); ("username", PyStr "bob");
          ("email", PyStr "b@h.com"); ("phone", PyStr "888"); ("address", PyStr "");
          ("created_at", PyStr "2025-01-06T09:00:01")])]), w2).
Proof.
  edestruct (create_then_get_patient (mk_env (mk_datetime sample_day (mk_time 9 0 0 750000)) sample_day)
    (obj [("name", VStr "Bob"); ("username", VStr "bob"); ("password", VStr "bpw");
          ("email", VStr "b@h.com"); ("phone", VInt 888)])
    sample_world (VStr "Bob") (VStr "bob") "bpw" (VStr "b@h.com") (VInt 888))
    as (i & w1 & w2 & H1 & H2); [table_wf_by_eval|reflexivity..|].
  exists i, w1, w2. split; [exact H1|]. rewrite H2. reflexivity.
Defined.

Lemma get_all_admins_unserialized_witness :
  json_ready (body (handler "Get admins error" api_get_all_admins sample_world).1) = false.
Proof. apply get_all_admins_unserialized. discriminate. Defined.
End AccountWitnesses.
