(* ===== verification/Appointments.v ===== *)
(** * Appointments: [/api/appointments]

    src/server.py lines 578-711.  The list and get handlers read the inner
    join of an appointment with its patient and doctor; creation inserts
    with status ["Scheduled"]; update sets the allowed columns; deletion
    has no guard.  Writes go through the column conversions of the schema
    (DATE, TIME, INT and the foreign keys to [patients] and [doctors]):
    a value a column refuses raises, and the handler answers 500.  The
    theorems: a created appointment is read back as its joined row, an
    unknown patient id is answered 500, and the join keeps every
    appointment whose patient and doctor exist. *)

From Stdlib Require Import ZArith String.
From stdpp Require Import base list option gmap strings sorting.
From S2P Require Import Prelude Temporal PyValue Request Store Schema World Samples Accounts.

Local Open Scope string_scope.
Local Open Scope Z_scope.
Local Open Scope hosp_scope.

(** [ORDER BY a.appointment_date DESC]. *)
Definition date_key (d : date) : Z * Z * Z := (year d, month d, day d).

Definition date_ge (x y : Z * appointment) : Prop :=
  let '(y1, m1, d1) := date_key (appointment_date x.2) in
  let '(y2, m2, d2) := date_key (appointment_date y.2) in
  y2 < y1 \/ (y2 = y1 /\ (m2 < m1 \/ (m2 = m1 /\ d2 <= d1))).

#[export] Instance date_ge_dec : RelDecision date_ge.
Proof.
  intros [i a] [j b]. unfold date_ge. destruct (date_key _) as [[? ?] ?], (date_key _) as [[? ?] ?].
  apply _.
Defined.

Lemma date_ge_total : Total date_ge.
Proof.
  intros [i a] [j b]. unfold date_ge.
  destruct (date_key _) as [[? ?] ?], (date_key _) as [[? ?] ?]. lia.
Qed.

Definition order_by_date_desc (l : list (Z * appointment)) : list (Z * appointment) :=
  merge_sort date_ge l.

(** The joined rows the two [SELECT a.*, p.name ... JOIN ...] return. *)
Definition joined_appointments (D : db) : list pyval :=
  omap (join_appointment D) (order_by_date_desc (rows (appointments D))).

(** The row [INSERT INTO appointments VALUES (NULL, %s, %s, %s, %s, %s,
    "Scheduled", %s)] stores, or the error of the column that refuses its
    value: an INT, DATE or TIME that does not convert, or a patient or
    doctor id with no row (the foreign keys). *)
Definition appointment_row (D : db) (pid did date_v time_v sym : value) (created : datetime)
  : exn + appointment :=
  match mysql_int pid, mysql_int did, mysql_date date_v, mysql_time time_v with
  | Some p, Some d, Some dt, Some tm =>
      if bool_decide (select_by_id p (patients D) = None) then inl IntegrityError
      else if bool_decide (select_by_id d (doctors D) = None) then inl IntegrityError
      else inr (mk_appointment p d dt tm (mysql_text sym) (VStr "Scheduled") (mysql_datetime created))
  | _, _, _, _ => inl DataError
  end.

(** [UPDATE appointments SET f = %s]: the DATE and TIME columns convert
    their value, the text columns store it as text. *)
Definition appointment_set (f : string) (v : value) (a : appointment) : exn + appointment :=
  let 'mk_appointment p d dt tm sy st c := a in
  if String.eqb f "appointment_date" then
    match mysql_date v with Some dt' => inr (mk_appointment p d dt' tm sy st c) | None => inl DataError end
  else if String.eqb f "appointment_time" then
    match mysql_time v with Some tm' => inr (mk_appointment p d dt tm' sy st c) | None => inl DataError end
  else if String.eqb f "symptoms" then inr (mk_appointment p d dt tm (mysql_text v) st c)
  else if String.eqb f "status" then inr (mk_appointment p d dt tm sy (mysql_text v) c)
  else inr a.

Fixpoint appointment_apply (fs : list (string * value)) (a : appointment) : exn + appointment :=
  match fs with
  | [] => inr a
  | (f, v) :: fs' =>
      match appointment_set f v a with
      | inl e => inl e
      | inr a' => appointment_apply fs' a'
      end
  end.

Section Appointments.
Context `{PasswordHasher}.

Definition api_get_all_appointments : HM response :=
  D <- read_db ;;
  let appointments := joined_appointments D in
  let serialized := PyList (map serialize_data appointments) in
  log_operation "GET_ALL" (PyStr "APPOINTMENT") (count_result (length appointments)) ;;
  ret (mk_response 200 (PyDict [("appointments", serialized)])).

Definition api_create_appointment (E : env) (p : payload) : HM response :=
  data <- get_json p ;;
  require_fields ["patient_id"; "doctor_id"; "appointment_date"; "appointment_time"] data ;;
  symptoms <- py_get data "symptoms" (VStr "") ;;
  pid <- py_getitem data "patient_id" ;;
  did <- py_getitem data "doctor_id" ;;
  date_v <- py_getitem data "appointment_date" ;;
  time_v <- py_getitem data "appointment_time" ;;
  D <- read_db ;;
  row <- lift_sum (appointment_row D pid did date_v time_v symptoms (now E)) ;;
  let ins := insert_row row (appointments D) in
  let appointment_id := ins.1 in
  write_db (with_appointments ins.2) ;;
  log_operation "CREATE" (PyStr "APPOINTMENT")
    (PyDict [("id", PyInt appointment_id); ("patient_id", value_to_py pid);
             ("doctor_id", value_to_py did); ("date", value_to_py date_v)]) ;;
  ret (mk_response 201 (PyDict [("message", PyStr "Appointment created successfully");
                                ("id", PyInt appointment_id)])).

Definition api_get_appointment (appointment_id : Z) : HM response :=
  D <- read_db ;;
  match select_by_id appointment_id (appointments D) ≫= fun a => join_appointment D (appointment_id, a) with
  | None => early (error_response 404 "Appointment not found")
  | Some row =>
      log_operation "GET" (PyStr "APPOINTMENT") (id_dict appointment_id) ;;
      ret (mk_response 200 (PyDict [("appointment", serialize_data row)]))
  end.

Definition api_update_appointment (appointment_id : Z) (p : payload) : HM response :=
  data <- get_json p ;;
  D <- read_db ;;
  match select_by_id appointment_id (appointments D) with
  | None => early (error_response 404 "Appointment not found")
  | Some a =>
      fields <- collect_fields ["appointment_date"; "appointment_time"; "symptoms"; "status"] data ;;
      guard (bool_decide (fields = [])) (error_response 400 "No valid fields to update") ;;
      a' <- lift_sum (appointment_apply fields a) ;;
      write_db (fun D => with_appointments (update_by_id appointment_id (fun _ => a') (appointments D)) D) ;;
      log_operation "UPDATE" (PyStr "APPOINTMENT")
        (PyDict [("id", PyInt appointment_id); ("updated_fields", data_keys data)]) ;;
      ret (mk_response 200 (message "Appointment updated successfully"))
  end.

Definition api_delete_appointment (appointment_id : Z) : HM response :=
  D <- read_db ;;
  match select_by_id appointment_id (appointments D) with
  | None => early (error_response 404 "Appointment not found")
  | Some _ =>
      write_db (fun D => with_appointments (delete_by_id appointment_id (appointments D)) D) ;;
      log_operation "DELETE" (PyStr "APPOINTMENT") (id_dict appointment_id) ;;
      ret (mk_response 200 (message "Appointment deleted successfully"))
  end.
End Appointments.

(** ** Theorems *)

Lemma appointment_row_ok D pid did date_v time_v sym c p d dt tm pat doc :
  mysql_int pid = Some p -> mysql_int did = Some d ->
  mysql_date date_v = Some dt -> mysql_time time_v = Some tm ->
  select_by_id p (patients D) = Some pat -> select_by_id d (doctors D) = Some doc ->
  appointment_row D pid did date_v time_v sym c =
    inr (mk_appointment p d dt tm (mysql_text sym) (VStr "Scheduled") (mysql_datetime c)).
Proof.
  intros Hp Hd Hdt Htm Hpat Hdoc. unfold appointment_row.
  rewrite Hp, Hd, Hdt, Htm, Hpat, Hdoc, !bool_decide_false by done. reflexivity.
Qed.

(** The inner join keeps every appointment whose patient and doctor
    exist. *)
Lemma joined_appointments_length D :
  Forall (fun kr => is_Some (select_by_id (patient_id kr.2) (patients D)) /\
                    is_Some (select_by_id (doctor_id kr.2) (doctors D))) (rows (appointments D)) ->
  length (joined_appointments D) = length (rows (appointments D)).
Proof.
  intros Hall. unfold joined_appointments, order_by_date_desc.
  rewrite <- (Permutation_length (merge_sort_Permutation date_ge (rows (appointments D)))).
  apply (Permutation_Forall (symmetry (merge_sort_Permutation date_ge (rows (appointments D))))) in Hall.
  induction Hall as [|[k a] l [[pat Hp] [doc Hd]] _ IH]; [done|]. cbn [fst snd] in Hp, Hd.
  cbn [omap list_omap]. unfold join_appointment at 1. cbn [fst snd]. rewrite Hp, Hd.
  cbn [mbind option_bind length]. by f_equal.
Qed.

(** [GET /api/appointments] answers the joined rows of the appointments
    taken in the order of [ORDER BY a.appointment_date DESC]. *)
Theorem get_all_appointments_ordered w :
  exists l w',
    handler "Get appointments error" api_get_all_appointments w =
      (mk_response 200 (PyDict [("appointments",
         PyList (map serialize_data (omap (join_appointment (w_db w)) l)))]), w') /\
    l ≡ₚ rows (appointments (w_db w)) /\ Sorted date_ge l.
Proof.
  destruct w as [D s lg]. exists (order_by_date_desc (rows (appointments D))). eexists.
  split; [reflexivity|]. split.
  - apply merge_sort_Permutation.
  - apply Sorted_merge_sort, date_ge_total.
Qed.

Section AppointmentTheorems.
Context `{PasswordHasher}.

(** C21: An appointment created for an existing patient and doctor, with a
    date and a time the columns accept, can be read back under the id
    the creation returned: the joined row holds the date and the time as
    the DATE and TIME columns converted them, printed back by
    [serialize_data], status ['Scheduled'], [symptoms] as the text column
    stores it (defaulting to the empty string), [created_at] the
    creation time rounded to the second, and the patient's and doctor's
    stored names. *)
Theorem create_then_get_appointment E m w p d ds ts dt tm pat doc :
  table_wf (appointments (w_db w)) ->
  m !! "patient_id" = Some (VInt p) -> m !! "doctor_id" = Some (VInt d) ->
  m !! "appointment_date" = Some (VStr ds) -> m !! "appointment_time" = Some (VStr ts) ->
  mysql_date (VStr ds) = Some dt -> mysql_time (VStr ts) = Some tm ->
  select_by_id p (patients (w_db w)) = Some pat -> select_by_id d (doctors (w_db w)) = Some doc ->
  exists i w1 w2,
    handler "Create appointment error" (api_create_appointment E (PObject m)) w =
      (mk_response 201 (PyDict [("message", PyStr "Appointment created successfully");
                                ("id", PyInt i)]), w1) /\
    handler "Get appointment error" (api_get_appointment i) w1 =
      (mk_response 200 (PyDict [("appointment", PyDict
         [("id", PyInt i); ("patient_id", PyInt p); ("doctor_id", PyInt d);
          ("appointment_date", PyStr (date_isoformat dt));
          ("appointment_time", PyStr (format_timedelta tm));
          ("symptoms", value_to_py (mysql_text (default (VStr "") (m !! "symptoms"))));
          ("status", PyStr "Scheduled");
          ("created_at", PyStr (datetime_isoformat (mysql_datetime (now E))));
          ("patient_name", value_to_py (patient_name pat));
          ("doctor_name", value_to_py (doctor_name doc));
          ("specialization", value_to_py (specialization doc))])]), w2).
Proof.
  intros Hwf Hp Hd Hds Hts Hdt Htm Hpat Hdoc. destruct w as [D s l]. cbn [w_db] in *.
  unfold handler, run, api_create_appointment. hm_simpl_loops.
  rewrite require_fields_ok by (repeat constructor; eexists; eassumption).
  hm_simpl_loops. rewrite Hp, Hd, Hds, Hts. hm_simpl_loops.
  erewrite appointment_row_ok by (done || reflexivity). hm_simpl.
  do 3 eexists. split; [reflexivity|].
  unfold api_get_appointment. hm_simpl. db_simpl. rewrite select_insert_eq by done.
  cbn [mbind option_bind]. unfold join_appointment. cbn [fst snd patient_id doctor_id].
  db_simpl. rewrite Hpat, Hdoc. cbn. by rewrite !serialize_value_to_py.
Qed.

(** C23: Creating an appointment whose patient id has no row violates the
    foreign key: the [IntegrityError] is caught and answered 500, and
    only the error line is logged. *)
Theorem create_appointment_unknown_patient E m w pid did date_v time_v p d dt tm :
  m !! "patient_id" = Some pid -> m !! "doctor_id" = Some did ->
  m !! "appointment_date" = Some date_v -> m !! "appointment_time" = Some time_v ->
  mysql_int pid = Some p -> mysql_int did = Some d ->
  mysql_date date_v = Some dt -> mysql_time time_v = Some tm ->
  select_by_id p (patients (w_db w)) = None ->
  handler "Create appointment error" (api_create_appointment E (PObject m)) w =
  (internal_error, append_log (LogError "Create appointment error" IntegrityError) w).
Proof.
  intros Hp Hd Hds Hts Hip Hid Hdt Htm Hpat. destruct w as [D s l]. cbn [w_db] in *.
  unfold handler, run, api_create_appointment. hm_simpl_loops.
  rewrite require_fields_ok by (repeat constructor; eexists; eassumption).
  hm_simpl_loops. rewrite Hp, Hd, Hds, Hts. hm_simpl_loops.
  unfold appointment_row. rewrite Hip, Hid, Hdt, Htm, Hpat, bool_decide_true by done.
  reflexivity.
Qed.
End AppointmentTheorems.

(** ** The theorems on the sample data *)

Section AppointmentWitnesses.
#[local] Existing Instance plain_hasher.

Lemma create_then_get_appointment_witness :
  exists i w1 w2,
    handler "Create appointment error" (api_create_appointment env0 (PObject (sample_booking 1))) sample_world =
      (mk_response 201 (PyDict [("message", PyStr "Appointment created successfully");
                                ("id", PyInt i)]), w1) /\
    handler "Get appointment error" (api_get_appointment i) w1 =
      (mk_response 200 (PyDict [("appointment", PyDict
         [("id", PyInt i); ("patient_id", PyInt 1); ("doctor_id", PyInt 2);
          ("appointment_date", PyStr "2025-01-07"); ("appointment_time", PyStr "10:30:00");
          ("symptoms", PyStr ""); ("status", PyStr "Scheduled");
          ("created_at", PyStr "2025-01-06T09:00:00");
          ("patient_name", value_to_py (patient_name sample_patient));
          ("doctor_name", value_to_py (doctor_name sample_doctor2));
          ("specialization", value_to_py (specialization sample_doctor2))])]), w2).
Proof.
  edestruct (create_then_get_appointment env0 (sample_booking 1) sample_world 1 2 "2025-01-07" "10:30:00")
    as (i & w1 & w2 & H1 & H2); [table_wf_by_eval|reflexivity..|].
  exists i, w1, w2. split; [exact H1|]. rewrite H2. reflexivity.
Defined.

Lemma create_appointment_unknown_patient_witness :
  handler "Create appointment error" (api_create_appointment env0 (PObject (sample_booking 5))) sample_world =
  (internal_error, append_log (LogError "Create appointment error" IntegrityError) sample_world).
Proof.
  eapply (create_appointment_unknown_patient env0 (sample_booking 5) sample_world
            (VInt 5) (VInt 2) (VStr "2025-01-07") (VStr "10:30:00") 5 2); reflexivity.
Defined.
End AppointmentWitnesses.

