(* ===== verification/Dashboard.v ===== *)
(** * Dashboard statistics: [GET /api/dashboard/stats]

    src/server.py lines 715-749: five [COUNT( * )] queries, the fourth
    restricted to the appointments of [CURDATE()].  The theorems: the
    answer holds the counts of the current database, and a created
    patient adds one to [total_patients] only. *)

From Stdlib Require Import ZArith String.
From stdpp Require Import base list option gmap strings.
From S2P Require Import Prelude Temporal PyValue Request Store Schema World Samples Accounts.

Local Open Scope string_scope.
Local Open Scope Z_scope.
Local Open Scope hosp_scope.

(** [SELECT COUNT( * ) FROM t] *)
Definition count_all {R} (t : table R) : nat := count_where (fun _ _ => true) t.

(** [SELECT COUNT( * ) FROM appointments WHERE DATE(appointment_date) = CURDATE()] *)
Definition count_today (today : date) (t : table appointment) : nat :=
  count_where (fun _ a => bool_decide (appointment_date a = today)) t.

Definition stats_dict (E : env) (D : db) : pyval :=
  PyDict [("total_patients", PyInt (Z.of_nat (count_all (patients D))));
          ("total_doctors", PyInt (Z.of_nat (count_all (doctors D))));
          ("total_admins", PyInt (Z.of_nat (count_all (admins D))));
          ("today_appointments", PyInt (Z.of_nat (count_today (today E) (appointments D))));
          ("total_appointments", PyInt (Z.of_nat (count_all (appointments D))))].

Definition api_get_dashboard_stats (E : env) : HM response :=
  D <- read_db ;;
  let stats := stats_dict E D in
  log_operation "GET_STATS" (PyStr "DASHBOARD") stats ;;
  ret (mk_response 200 (PyDict [("stats", stats)])).

(** ** Theorems *)

(** An [INSERT] appends one row. *)
Lemma count_all_snoc {R} (t : table R) kr n : count_all (mk_table (rows t ++ [kr]) n) = S (count_all t).
Proof.
  unfold count_all, count_where, select_where. cbn [rows].
  rewrite List.filter_app, length_app. cbn. lia.
Qed.

Lemma count_today_le E t : (count_today (today E) t <= count_all t)%nat.
Proof.
  unfold count_today, count_all, count_where, select_where.
  induction (rows t) as [|kr l IH]; cbn; [lia|]. case_match; cbn; lia.
Qed.

Section DashboardTheorems.
Context `{PasswordHasher}.

(** The dashboard answers 200 with the five counts of the current
    database, changes nothing in it, and never reports more of today's
    appointments than appointments in all. *)
Theorem dashboard_stats_counts E w :
  exists l,
    handler "Get stats error" (api_get_dashboard_stats E) w =
      (mk_response 200 (PyDict [("stats", stats_dict E (w_db w))]), mk_world (w_db w) (w_session w) l) /\
    (count_today (today E) (appointments (w_db w)) <= count_all (appointments (w_db w)))%nat.
Proof.
  destruct w as [D s l]. eexists. split; [reflexivity|]. apply count_today_le.
Qed.

(** A successful [POST /api/patients] (status 201) adds one to
    [total_patients] and leaves the four other counts as they were. *)
Theorem create_patient_stats E p w :
  status_code (handler "Create patient error" (api_create_patient E p) w).1 = 201 ->
  let D := w_db w in
  let D' := w_db (handler "Create patient error" (api_create_patient E p) w).2 in
  count_all (patients D') = S (count_all (patients D)) /\
  count_all (doctors D') = count_all (doctors D) /\ count_all (admins D') = count_all (admins D) /\
  count_all (appointments D') = count_all (appointments D) /\
  count_today (today E) (appointments D') = count_today (today E) (appointments D).
Proof.
  intros Hst. destruct w as [D s l]. revert Hst. unfold handler, run, api_create_patient.
  hm_exec. all: cbn [status_code fst snd] in *; intros Hst; try discriminate.
  all: match goal with H : mk_world _ _ _ = mk_world _ _ _ |- _ => injection H as <- _ _ end.
  all: db_simpl. all: rewrite count_all_snoc; auto.
Qed.
End DashboardTheorems.

(** ** The theorems on the sample data *)

Section DashboardWitnesses.
#[local] Existing Instance plain_hasher.

Lemma create_patient_stats_witness :
  let D := w_db sample_world in
  let D' := w_db (handler "Create patient error" (api_create_patient env0 (PObject bob_body)) sample_world).2 in
  count_all (patients D') = S (count_all (patients D)) /\
  count_all (doctors D') = count_all (doctors D) /\ count_all (admins D') = count_all (admins D) /\
  count_all (appointments D') = count_all (appointments D) /\
  count_today (today env0) (appointments D') = count_today (today env0) (appointments D).
Proof. apply create_patient_stats. reflexivity. Defined.
End DashboardWitnesses.
