(* ===== verification/Invariants.v ===== *)
(** * The database invariant and the operations that preserve it

    [store_inv] is what every database the threaded server reaches
    satisfies, and [db_inv] adds what the one-request-at-a-time server
    keeps as well (the distinct usernames):
    - each table is well formed (distinct keys below its AUTO_INCREMENT);
    - ([db_inv] only) within each account table, usernames are distinct
      (registration
      checks all three tables, [create_doctor] and [create_patient] check
      their own, updates never touch [username]);
    - every appointment refers to an existing patient and an existing
      doctor (the foreign keys refuse a dangling insert, and the
      [COUNT( * )] guards of [delete_doctor] and [delete_patient] refuse to
      orphan one);
    - every password of an account table is [hash_password] of some
      string (the inserts store [hash_password(password)], and no update
      writes the column).
    This file proves that each database write a handler performs, under
    the conditions the handler checked before it, preserves [store_inv]
    and [db_inv]; [inv_leaf] and [store_leaf] close one path of a handler
    with them, and Router.v runs
    every route once ([route_paths]).
    Usernames are not distinct across the three tables: see System.v.
    The last section uses the invariant: a wrong password is refused
    with 401 because usernames are distinct, and the appointment list is
    complete because no appointment dangles. *)

From Stdlib Require Import ZArith String.
From stdpp Require Import base list option gmap strings.
From S2P Require Import Prelude Temporal PyValue Request Store Schema World Samples Auth Accounts Appointments Dashboard.

Local Open Scope Z_scope.

Definition usernames_unique {R} `{Account R} (t : table R) : Prop := NoDup (usernames t).

Definition refs_ok (D : db) (a : appointment) : Prop :=
  is_Some (select_by_id (patient_id a) (patients D)) /\
  is_Some (select_by_id (doctor_id a) (doctors D)).

Definition ref_integrity (D : db) : Prop :=
  Forall (fun kr => refs_ok D kr.2) (rows (appointments D)).

(** Every stored password is the hash of some string: no plaintext. *)
Definition hashed `{PasswordHasher} {R} `{Account R} (t : table R) : Prop :=
  Forall (fun kr => exists s, acct_password kr.2 = hash_password s) (rows t).

(** What the tables satisfy in every state the server reaches, requests
    served concurrently included: well-formed tables, no dangling
    appointment, only hashed passwords. *)
Record store_inv `{PasswordHasher} (D : db) : Prop := {
  st_admins_wf : table_wf (admins D);
  st_doctors_wf : table_wf (doctors D);
  st_patients_wf : table_wf (patients D);
  st_appointments_wf : table_wf (appointments D);
  st_refs : ref_integrity D;
  st_admins_hashed : hashed (admins D);
  st_doctors_hashed : hashed (doctors D);
  st_patients_hashed : hashed (patients D)
}.

(** The invariant of the server that serves one request at a time: also
    distinct usernames within each account table. *)
Record db_inv `{PasswordHasher} (D : db) : Prop := {
  inv_store : store_inv D;
  inv_admins_unique : usernames_unique (admins D);
  inv_doctors_unique : usernames_unique (doctors D);
  inv_patients_unique : usernames_unique (patients D)
}.

(** ** Usernames *)

Section Usernames.
Context {R : Type} `{Account R}.
Implicit Types (t : table R).

Lemma username_taken_false t u : username_taken u t = false <-> mysql_text u ∉ usernames t.
Proof.
  unfold username_taken, username_eq, usernames. rewrite <- not_true_iff_false, existsb_exists.
  rewrite list_elem_of_In, in_map_iff. split.
  - intros Hn (kr & Heq & Hin). apply Hn. exists kr. split; [done|]. by apply bool_decide_eq_true_2.
  - intros Hn (kr & Hin & Hb). apply bool_decide_eq_true_1 in Hb. apply Hn. by exists kr.
Qed.

(** The INSERT of a row whose username column holds [u] as text, after
    [SELECT ... WHERE username = u] found nothing. *)
Lemma unique_insert r u t :
  usernames_unique t -> acct_username r = mysql_text u -> username_taken u t = false ->
  usernames_unique (insert_row r t).2.
Proof.
  unfold usernames_unique. intros Hnd Hr Hfree%username_taken_false. revert Hnd Hfree.
  unfold usernames. cbn. rewrite map_app. cbn. rewrite Hr. intros Hnd Hfree.
  apply NoDup_app. split; [done|]. split; [|apply NoDup_singleton].
  intros x Hx ->%list_elem_of_singleton. exact (Hfree Hx).
Qed.

Lemma unique_update id f t :
  (forall r, acct_username (f r) = acct_username r) ->
  usernames_unique t -> usernames_unique (update_by_id id f t).
Proof.
  intros Hf Hnd. unfold usernames_unique, usernames, update_by_id in *. cbn.
  rewrite map_map.
  replace (map _ (rows t)) with (map (fun kr : Z * R => acct_username kr.2) (rows t)); [exact Hnd|].
  apply map_ext. intros [k r]. cbn. destruct (k =? id); [symmetry; apply Hf|done].
Qed.

Lemma unique_delete id t : usernames_unique t -> usernames_unique (delete_by_id id t).
Proof. apply NoDup_map_filter. Qed.
End Usernames.

(** An update by fields keeps what no single field update changes. *)
Lemma apply_fields_keep {R A} (proj : R -> A) (set : string -> value -> R -> R) fs r :
  (forall f v x, proj (set f v x) = proj x) -> proj (apply_fields set fs r) = proj r.
Proof.
  intros Hs. unfold apply_fields. revert r. induction fs as [|fv fs IH]; intros r; [done|].
  cbn. by rewrite IH, Hs.
Qed.

Lemma admin_set_username f v a : admin_username (admin_set f v a) = admin_username a.
Proof. destruct a; unfold admin_set; repeat case_if; reflexivity. Qed.
Lemma admin_set_password f v a : admin_password (admin_set f v a) = admin_password a.
Proof. destruct a; unfold admin_set; repeat case_if; reflexivity. Qed.
Lemma doctor_set_username f v d : doctor_username (doctor_set f v d) = doctor_username d.
Proof. destruct d; unfold doctor_set; repeat case_if; reflexivity. Qed.
Lemma doctor_set_password f v d : doctor_password (doctor_set f v d) = doctor_password d.
Proof. destruct d; unfold doctor_set; repeat case_if; reflexivity. Qed.
Lemma patient_set_username f v p : patient_username (patient_set f v p) = patient_username p.
Proof. destruct p; unfold patient_set; repeat case_if; reflexivity. Qed.
Lemma patient_set_password f v p : patient_password (patient_set f v p) = patient_password p.
Proof. destruct p; unfold patient_set; repeat case_if; reflexivity. Qed.

Create HintDb keep.
#[export] Hint Resolve admin_set_username admin_set_password doctor_set_username doctor_set_password
  patient_set_username patient_set_password : keep.

(** An account update by fields keeps the username and the password. *)
Ltac keep_solve := intro; apply apply_fields_keep; auto with keep.

(** ** Password hashes *)

Section Hashed.
Context `{PasswordHasher} {R : Type} `{Account R}.
Implicit Types (t : table R).

Lemma hashed_insert r t :
  (exists s, acct_password r = hash_password s) -> hashed t -> hashed (insert_row r t).2.
Proof. intros Hr Ht. unfold hashed, insert_row. cbn. apply Forall_app. split; [done|by constructor]. Qed.

Lemma hashed_update id f t :
  (forall r, acct_password (f r) = acct_password r) -> hashed t -> hashed (update_by_id id f t).
Proof.
  intros Hf Ht. unfold hashed, update_by_id. cbn. apply Forall_fmap.
  eapply Forall_impl; [exact Ht|]. intros [k r] Hr. cbn in *. case_match; cbn; [by rewrite Hf|done].
Qed.

Lemma hashed_delete id t : hashed t -> hashed (delete_by_id id t).
Proof. apply Forall_list_filter. Qed.
End Hashed.

#[export] Hint Resolve hashed_delete : hosp.

(** ** Row lookups across writes *)

Section Lookups.
Context {R : Type}.
Implicit Types (t : table R).

Lemma select_insert_some k r t :
  is_Some (select_by_id k t) -> is_Some (select_by_id k (insert_row r t).2).
Proof.
  unfold select_by_id. cbn. destruct (List.find _ (rows t)) as [x|] eqn:Hx; [|by intros []].
  by rewrite (find_app_l _ _ _ x Hx).
Qed.

Lemma select_update_some k id f t :
  is_Some (select_by_id k t) -> is_Some (select_by_id k (update_by_id id f t)).
Proof.
  rewrite !select_by_id_to_map, update_by_id_to_map, lookup_alter.
  case_decide; subst; [by intros [? ->]|done].
Qed.

Lemma select_delete_ne k id t :
  k <> id -> select_by_id k (delete_by_id id t) = select_by_id k t.
Proof. intros Hne. rewrite !select_by_id_to_map, delete_by_id_to_map. by apply lookup_delete_ne. Qed.

Lemma count_where_zero (p : Z -> R -> bool) t :
  count_where p t = 0%nat -> Forall (fun kr => p kr.1 kr.2 = false) (rows t).
Proof.
  unfold count_where, select_where. intros Hc. apply length_zero_iff_nil in Hc.
  apply Forall_forall. intros kr Hin. destruct (p kr.1 kr.2) eqn:Hp; [|done].
  apply list_elem_of_In in Hin. assert (In kr (List.filter (fun kr => p kr.1 kr.2) (rows t))).
  { by apply filter_In. }
  by rewrite Hc in H.
Qed.
End Lookups.

(** ** Referential integrity across writes *)

Lemma refs_ok_mono (D D' : db) a :
  (forall k, is_Some (select_by_id k (patients D)) -> is_Some (select_by_id k (patients D'))) ->
  (forall k, is_Some (select_by_id k (doctors D)) -> is_Some (select_by_id k (doctors D'))) ->
  refs_ok D a -> refs_ok D' a.
Proof. intros Hp Hd [? ?]. split; auto. Qed.

Lemma ref_integrity_mono (D D' : db) :
  rows (appointments D') = rows (appointments D) ->
  (forall k, is_Some (select_by_id k (patients D)) -> is_Some (select_by_id k (patients D'))) ->
  (forall k, is_Some (select_by_id k (doctors D)) -> is_Some (select_by_id k (doctors D'))) ->
  ref_integrity D -> ref_integrity D'.
Proof.
  intros Ha Hp Hd HF. unfold ref_integrity in *. rewrite Ha.
  refine (Forall_impl _ _ _ HF _). intros kr. by apply refs_ok_mono.
Qed.

Lemma ref_with_admins t D : ref_integrity D -> ref_integrity (with_admins t D).
Proof. apply ref_integrity_mono; cbn; auto. Qed.

Lemma ref_insert_doctor d D : ref_integrity D -> ref_integrity (with_doctors (insert_row d (doctors D)).2 D).
Proof. apply ref_integrity_mono; cbn [with_doctors with_patients doctors patients appointments]; auto using select_insert_some. Qed.

Lemma ref_insert_patient p D : ref_integrity D -> ref_integrity (with_patients (insert_row p (patients D)).2 D).
Proof. apply ref_integrity_mono; cbn [with_doctors with_patients doctors patients appointments]; auto using select_insert_some. Qed.

Lemma ref_update_doctor id f D : ref_integrity D -> ref_integrity (with_doctors (update_by_id id f (doctors D)) D).
Proof. apply ref_integrity_mono; cbn [with_doctors with_patients doctors patients appointments]; auto using select_update_some. Qed.

Lemma ref_update_patient id f D : ref_integrity D -> ref_integrity (with_patients (update_by_id id f (patients D)) D).
Proof. apply ref_integrity_mono; cbn [with_doctors with_patients doctors patients appointments]; auto using select_update_some. Qed.

Lemma Forall_combine {A} (P Q R : A -> Prop) (l : list A) :
  Forall P l -> Forall Q l -> (forall x, P x -> Q x -> R x) -> Forall R l.
Proof.
  intros HP HQ HR. apply Forall_forall. intros x Hx.
  apply HR; [eapply Forall_forall in HP|eapply Forall_forall in HQ]; eauto.
Qed.

Lemma ref_delete_doctor id D :
  doctor_appointment_count id D = 0%nat -> ref_integrity D ->
  ref_integrity (with_doctors (delete_by_id id (doctors D)) D).
Proof.
  intros Hc%count_where_zero HF. unfold ref_integrity in *. cbn [with_doctors appointments].
  apply (Forall_combine _ _ _ _ HF Hc). intros [k a] [Hp Hd] Hne%Z.eqb_neq.
  cbn [fst snd] in *. unfold refs_ok. cbn [with_doctors doctors patients].
  split; [done|]. by rewrite select_delete_ne.
Qed.

Lemma ref_delete_patient id D :
  patient_appointment_count id D = 0%nat -> ref_integrity D ->
  ref_integrity (with_patients (delete_by_id id (patients D)) D).
Proof.
  intros Hc%count_where_zero HF. unfold ref_integrity in *. cbn [with_patients appointments].
  apply (Forall_combine _ _ _ _ HF Hc). intros [k a] [Hp Hd] Hne%Z.eqb_neq.
  cbn [fst snd] in *. unfold refs_ok. cbn [with_patients doctors patients].
  split; [|done]. by rewrite select_delete_ne.
Qed.

Lemma appointment_row_refs D pid did dv tv sym c a :
  appointment_row D pid did dv tv sym c = inr a -> refs_ok D a.
Proof.
  unfold appointment_row.
  destruct (mysql_int pid), (mysql_int did), (mysql_date dv), (mysql_time tv); try discriminate.
  case_bool_decide as Hp; [discriminate|]. case_bool_decide as Hd; [discriminate|].
  intros [= <-]. split; cbn; by apply not_eq_None_Some.
Qed.

Lemma ref_insert_appointment a D :
  refs_ok D a -> ref_integrity D ->
  ref_integrity (with_appointments (insert_row a (appointments D)).2 D).
Proof.
  intros Ha HF. unfold ref_integrity in *. cbn. apply Forall_app. split; [|by constructor].
  exact HF.
Qed.

Lemma appointment_set_ids f v a a' :
  appointment_set f v a = inr a' -> patient_id a' = patient_id a /\ doctor_id a' = doctor_id a.
Proof.
  destruct a. unfold appointment_set. repeat case_if; repeat case_match; intros [=<-]; done.
Qed.

Lemma appointment_apply_ids fs a a' :
  appointment_apply fs a = inr a' -> patient_id a' = patient_id a /\ doctor_id a' = doctor_id a.
Proof.
  revert a. induction fs as [|[f v] fs IH]; intros a; cbn; [by intros [= <-]|].
  destruct (appointment_set f v a) as [e|a1] eqn:Hs; [discriminate|].
  intros Hr. destruct (IH _ Hr) as [-> ->]. by apply appointment_set_ids in Hs.
Qed.

Lemma select_by_id_in {R} id (t : table R) r :
  select_by_id id t = Some r -> (id, r) ∈ rows t.
Proof.
  unfold select_by_id. destruct (List.find _ _) as [[k r']|] eqn:Hf; [|done].
  intros [= <-]. apply find_some in Hf as [Hin Hk]. apply Z.eqb_eq in Hk. cbn in Hk. subst.
  by apply list_elem_of_In.
Qed.

Lemma ref_update_appointment id a a' D :
  select_by_id id (appointments D) = Some a ->
  patient_id a' = patient_id a -> doctor_id a' = doctor_id a -> ref_integrity D ->
  ref_integrity (with_appointments (update_by_id id (fun _ => a') (appointments D)) D).
Proof.
  intros Hsel Hp Hd HF. unfold ref_integrity in *. cbn.
  assert (Ha : refs_ok D a).
  { apply select_by_id_in in Hsel. by eapply Forall_forall in HF; [|exact Hsel]. }
  apply Forall_fmap. refine (Forall_impl _ _ _ HF _). intros [k b] Hb. cbn.
  destruct (k =? id); [|exact Hb]. cbn. unfold refs_ok. rewrite Hp, Hd. exact Ha.
Qed.

Lemma ref_delete_appointment id D :
  ref_integrity D -> ref_integrity (with_appointments (delete_by_id id (appointments D)) D).
Proof. unfold ref_integrity. cbn. apply Forall_list_filter. Qed.

(** ** [store_inv] and [db_inv] across each write of the handlers *)

Section Writes.
Context `{PasswordHasher}.

Ltac store_solve :=
  match goal with
  | H : store_inv _ |- _ => destruct H; constructor; cbn [with_admins with_doctors with_patients
       with_appointments admins doctors patients appointments]; auto with hosp
  end.

(** The uniqueness fields of [db_inv], from [store_inv] of the new state. *)
Ltac inv_solve :=
  match goal with
  | H : db_inv _ |- _ => destruct H as [? ? ? ?]; constructor; cbn [with_admins with_doctors
       with_patients with_appointments admins doctors patients appointments]; auto with hosp
  end.

Lemma empty_db_inv : db_inv empty_db.
Proof. constructor; [constructor|..]; cbn; auto with hosp; constructor. Qed.

Lemma store_insert_admin a D :
  (exists s, admin_password a = hash_password s) -> store_inv D ->
  store_inv (with_admins (insert_row a (admins D)).2 D).
Proof.
  intros Hh HD. store_solve. all: first [by apply ref_with_admins | by apply (hashed_insert (R := admin))].
Qed.

Lemma store_insert_doctor d D :
  (exists s, doctor_password d = hash_password s) -> store_inv D ->
  store_inv (with_doctors (insert_row d (doctors D)).2 D).
Proof.
  intros Hh HD. store_solve.
  all: first [by apply ref_insert_doctor | by apply (hashed_insert (R := doctor))].
Qed.

Lemma store_insert_patient p D :
  (exists s, patient_password p = hash_password s) -> store_inv D ->
  store_inv (with_patients (insert_row p (patients D)).2 D).
Proof.
  intros Hh HD. store_solve.
  all: first [by apply ref_insert_patient | by apply (hashed_insert (R := patient))].
Qed.

Lemma store_update_admin id fs D :
  store_inv D -> store_inv (with_admins (update_by_id id (apply_fields admin_set fs) (admins D)) D).
Proof.
  intros HD. store_solve.
  all: first [by apply ref_with_admins | apply (hashed_update (R := admin)); [keep_solve|done]].
Qed.

Lemma store_update_doctor id fs D :
  store_inv D -> store_inv (with_doctors (update_by_id id (apply_fields doctor_set fs) (doctors D)) D).
Proof.
  intros HD. store_solve.
  all: first [by apply ref_update_doctor | apply (hashed_update (R := doctor)); [keep_solve|done]].
Qed.

Lemma store_update_patient id fs D :
  store_inv D ->
  store_inv (with_patients (update_by_id id (apply_fields patient_set fs) (patients D)) D).
Proof.
  intros HD. store_solve.
  all: first [by apply ref_update_patient | apply (hashed_update (R := patient)); [keep_solve|done]].
Qed.

Lemma store_delete_admin id D : store_inv D -> store_inv (with_admins (delete_by_id id (admins D)) D).
Proof. intros HD. store_solve. all: by apply ref_with_admins. Qed.

Lemma store_delete_doctor id D :
  doctor_appointment_count id D = 0%nat -> store_inv D ->
  store_inv (with_doctors (delete_by_id id (doctors D)) D).
Proof. intros Hc HD. store_solve. all: by apply ref_delete_doctor. Qed.

Lemma store_delete_patient id D :
  patient_appointment_count id D = 0%nat -> store_inv D ->
  store_inv (with_patients (delete_by_id id (patients D)) D).
Proof. intros Hc HD. store_solve. all: by apply ref_delete_patient. Qed.

Lemma store_insert_appointment a D :
  refs_ok D a -> store_inv D -> store_inv (with_appointments (insert_row a (appointments D)).2 D).
Proof. intros Ha HD. store_solve. all: by apply ref_insert_appointment. Qed.

Lemma store_update_appointment id fs a a' D :
  select_by_id id (appointments D) = Some a -> appointment_apply fs a = inr a' -> store_inv D ->
  store_inv (with_appointments (update_by_id id (fun _ => a') (appointments D)) D).
Proof.
  intros Hs Hap HD. destruct (appointment_apply_ids _ _ _ Hap) as [Hp Hd].
  store_solve. all: by eapply ref_update_appointment.
Qed.

Lemma store_delete_appointment id D :
  store_inv D -> store_inv (with_appointments (delete_by_id id (appointments D)) D).
Proof. intros HD. store_solve. all: by apply ref_delete_appointment. Qed.

Lemma inv_insert_admin a u D :
  (exists s, admin_password a = hash_password s) -> admin_username a = mysql_text u ->
  username_taken u (admins D) = false -> db_inv D ->
  db_inv (with_admins (insert_row a (admins D)).2 D).
Proof.
  intros Hh Hn Hu HD. pose proof (store_insert_admin a D Hh (inv_store _ HD)).
  inv_solve. by eapply unique_insert.
Qed.

Lemma inv_insert_doctor d u D :
  (exists s, doctor_password d = hash_password s) -> doctor_username d = mysql_text u ->
  username_taken u (doctors D) = false -> db_inv D ->
  db_inv (with_doctors (insert_row d (doctors D)).2 D).
Proof.
  intros Hh Hn Hu HD. pose proof (store_insert_doctor d D Hh (inv_store _ HD)).
  inv_solve. by eapply unique_insert.
Qed.

Lemma inv_insert_patient p u D :
  (exists s, patient_password p = hash_password s) -> patient_username p = mysql_text u ->
  username_taken u (patients D) = false -> db_inv D ->
  db_inv (with_patients (insert_row p (patients D)).2 D).
Proof.
  intros Hh Hn Hu HD. pose proof (store_insert_patient p D Hh (inv_store _ HD)).
  inv_solve. by eapply unique_insert.
Qed.

Lemma inv_update_admin id fs D :
  db_inv D -> db_inv (with_admins (update_by_id id (apply_fields admin_set fs) (admins D)) D).
Proof.
  intros HD. pose proof (store_update_admin id fs D (inv_store _ HD)).
  inv_solve. apply unique_update; [keep_solve|done].
Qed.

Lemma inv_update_doctor id fs D :
  db_inv D -> db_inv (with_doctors (update_by_id id (apply_fields doctor_set fs) (doctors D)) D).
Proof.
  intros HD. pose proof (store_update_doctor id fs D (inv_store _ HD)).
  inv_solve. apply unique_update; [keep_solve|done].
Qed.

Lemma inv_update_patient id fs D :
  db_inv D -> db_inv (with_patients (update_by_id id (apply_fields patient_set fs) (patients D)) D).
Proof.
  intros HD. pose proof (store_update_patient id fs D (inv_store _ HD)).
  inv_solve. apply unique_update; [keep_solve|done].
Qed.

Lemma inv_delete_admin id D : db_inv D -> db_inv (with_admins (delete_by_id id (admins D)) D).
Proof.
  intros HD. pose proof (store_delete_admin id D (inv_store _ HD)). inv_solve. by apply unique_delete.
Qed.

Lemma inv_delete_doctor id D :
  doctor_appointment_count id D = 0%nat -> db_inv D ->
  db_inv (with_doctors (delete_by_id id (doctors D)) D).
Proof.
  intros Hc HD. pose proof (store_delete_doctor id D Hc (inv_store _ HD)). inv_solve. by apply unique_delete.
Qed.

Lemma inv_delete_patient id D :
  patient_appointment_count id D = 0%nat -> db_inv D ->
  db_inv (with_patients (delete_by_id id (patients D)) D).
Proof.
  intros Hc HD. pose proof (store_delete_patient id D Hc (inv_store _ HD)). inv_solve. by apply unique_delete.
Qed.

Lemma inv_insert_appointment a D :
  refs_ok D a -> db_inv D -> db_inv (with_appointments (insert_row a (appointments D)).2 D).
Proof. intros Ha HD. pose proof (store_insert_appointment a D Ha (inv_store _ HD)). by inv_solve. Qed.

Lemma inv_update_appointment id fs a a' D :
  select_by_id id (appointments D) = Some a -> appointment_apply fs a = inr a' -> db_inv D ->
  db_inv (with_appointments (update_by_id id (fun _ => a') (appointments D)) D).
Proof.
  intros Hs Hap HD. pose proof (store_update_appointment id fs a a' D Hs Hap (inv_store _ HD)).
  by inv_solve.
Qed.

Lemma inv_delete_appointment id D :
  db_inv D -> db_inv (with_appointments (delete_by_id id (appointments D)) D).
Proof. intros HD. pose proof (store_delete_appointment id D (inv_store _ HD)). by inv_solve. Qed.
End Writes.

Lemma count_guard_zero (n : nat) : (0 <? n)%nat = false -> n = 0%nat.
Proof. intros Hn%Nat.ltb_ge. lia. Qed.

(** Closes the invariant goal of one path of a handler: the path wrote
    nothing, or its write is one of the writes above under the guards
    the path passed. *)
Ltac inv_leaf :=
  first
    [ assumption
    | eapply inv_insert_admin; [by eexists|reflexivity|done|done]
    | eapply inv_insert_doctor; [by eexists|reflexivity|done|done]
    | eapply inv_insert_patient; [by eexists|reflexivity|done|done]
    | by apply inv_update_admin | by apply inv_update_doctor | by apply inv_update_patient
    | by apply inv_delete_admin
    | apply inv_delete_doctor; [|done];
      match goal with H : (0 <? _)%nat = false |- _ => by apply count_guard_zero end
    | apply inv_delete_patient; [|done];
      match goal with H : (0 <? _)%nat = false |- _ => by apply count_guard_zero end
    | apply inv_insert_appointment; [by eapply appointment_row_refs|done]
    | by eapply inv_update_appointment
    | by apply inv_delete_appointment ].

(** The same for [store_inv], which needs no username check. *)
Ltac store_leaf :=
  first
    [ assumption
    | apply store_insert_admin; [by eexists|done]
    | apply store_insert_doctor; [by eexists|done]
    | apply store_insert_patient; [by eexists|done]
    | by apply store_update_admin | by apply store_update_doctor | by apply store_update_patient
    | by apply store_delete_admin
    | apply store_delete_doctor; [|done];
      match goal with H : (0 <? _)%nat = false |- _ => by apply count_guard_zero end
    | apply store_delete_patient; [|done];
      match goal with H : (0 <? _)%nat = false |- _ => by apply count_guard_zero end
    | apply store_insert_appointment; [by eapply appointment_row_refs|done]
    | by eapply store_update_appointment
    | by apply store_delete_appointment ].

(** ** Consequences of the invariant for the handlers *)

Section Consequences.
Context `{PasswordHasher}.

(** With distinct usernames, the row holding a username is the only
    candidate of the credential query. *)
Lemma find_credentials_mismatch {R} `{Account R} (t : table R) k x u h :
  usernames_unique t -> (k, x) ∈ rows t -> acct_username x = mysql_text u -> acct_password x <> h ->
  find_credentials u h t = None.
Proof.
  unfold usernames_unique, usernames, find_credentials, username_eq.
  induction (rows t) as [|[k' y] l IH]; cbn [map List.find fst snd];
    [by intros _ ?%not_elem_of_nil|].
  intros [Hy Hnd]%list.NoDup_cons Hin Hu Hh. apply elem_of_cons in Hin as [[= -> ->]|Hin].
  - rewrite bool_decide_true by done. apply String.eqb_neq in Hh. rewrite Hh. cbn.
    clear IH Hh Hnd. rewrite <- Hu. induction l as [|[k2 z] l IHl]; cbn in *; [done|].
    apply not_elem_of_cons in Hy as [Hz Hy].
    rewrite bool_decide_false by congruence. by apply IHl.
  - rewrite bool_decide_false; [by apply IH|]. intros Hyu. apply Hy. rewrite Hyu, <- Hu.
    apply list_elem_of_In, in_map_iff. exists (k, x). split; [done|]. by apply list_elem_of_In.
Qed.

(** C12: Under the invariant, a login as a doctor with the username of a
    doctor's row and a password whose hash is not the one stored there
    is refused with 401 and changes nothing. *)
Theorem login_wrong_password lm w u pw t k d :
  db_inv (w_db w) ->
  lm !! "username" = Some (VStr u) -> lm !! "password" = Some (VStr pw) ->
  lm !! "user_type" = Some (VStr t) -> lower t = "doctor" -> u <> "" -> pw <> "" ->
  (k, d) ∈ rows (doctors (w_db w)) -> doctor_username d = VStr u ->
  doctor_password d <> hash_password pw ->
  login (PObject lm) w = (error_response 401 "Invalid credentials", w).
Proof.
  intros HI Hlu Hlp Hlt Ht Hu Hpw Hk Hdu Hdp. eapply login_no_match; try eassumption.
  - by rewrite Ht.
  - rewrite Ht. unfold lookup_account. cbn -[find_credentials].
    by erewrite find_credentials_mismatch by (eauto using inv_doctors_unique).
Qed.

(** C24: Under the invariant, [GET /api/appointments] lists every
    appointment: the inner join with [patients] and [doctors] drops no
    row. *)
Theorem list_appointments_complete w :
  db_inv (w_db w) ->
  exists l w',
    handler "Get appointments error" api_get_all_appointments w =
      (mk_response 200 (PyDict [("appointments", PyList l)]), w') /\
    length l = length (rows (appointments (w_db w))).
Proof.
  intros HI. destruct w as [D s lg]. do 2 eexists. split; [reflexivity|].
  rewrite length_map. apply joined_appointments_length, (st_refs _ (inv_store _ HI)).
Qed.
End Consequences.

(** ** The theorems on the sample data *)

Section InvariantWitnesses.
#[local] Existing Instance plain_hasher.

(** With the identity hasher, the sample passwords are their own hashes. *)
Lemma sample_db_inv : db_inv sample_db.
Proof.
  constructor; [constructor|..];
    first [table_wf_by_eval | unfold usernames_unique; by_eval
          | unfold ref_integrity, refs_ok; by_eval
          | unfold hashed; repeat constructor; by eexists].
Qed.

Lemma login_wrong_password_witness :
  login (PObject (login_body "drx" "wrong" "doctor")) sample_world =
  (error_response 401 "Invalid credentials", sample_world).
Proof.
  apply (login_wrong_password _ _ "drx" "wrong" "doctor" 1 sample_doctor);
    [apply sample_db_inv|reflexivity..|discriminate|discriminate|apply elem_of_cons; by left|reflexivity|discriminate].
Defined.

Lemma list_appointments_complete_witness :
  exists l w',
    handler "Get appointments error" api_get_all_appointments sample_world =
      (mk_response 200 (PyDict [("appointments", PyList l)]), w') /\
    length l = length (rows (appointments (w_db sample_world))).
Proof. apply list_appointments_complete, sample_db_inv. Defined.
End InvariantWitnesses.
