(* ===== verification/Privacy.v ===== *)
(** * What the answers disclose: no password field

    The account tables store a [password] column (the hash).  The reads of
    src/server.py select explicit column lists without it (lines 212,
    229, 311, 360, 445, 497), and login answers a projection of the
    account (lines 183-191).  [no_key] walks the Python value of an
    answer's body for a dict with a given key; the lemmas here let a
    symbolic run of a handler decide it on every path, and Router.v
    proves that no answer holds a ["password"] key. *)

From Stdlib Require Import ZArith String.
From stdpp Require Import base list option gmap strings.
From S2P Require Import Prelude Temporal PyValue Request Store Schema World Auth Accounts Appointments Dashboard.

Local Open Scope string_scope.
Local Open Scope Z_scope.

(** No dict anywhere inside the value has the key [k]. *)
Fixpoint no_key (k : string) (v : pyval) : bool :=
  match v with
  | PyDict kv => forallb (fun kx => negb (String.eqb kx.1 k) && no_key k kx.2) kv
  | PyList l | PyTuple l => forallb (no_key k) l
  | _ => true
  end.

(** ** Lemmas *)

Lemma no_key_value_to_py k v : no_key k (value_to_py v) = true.
Proof. by destruct v. Qed.

(** [serialize_data] keeps the keys of every dict. *)
Lemma no_key_serialize k v : no_key k (serialize_data v) = no_key k v.
Proof.
  induction v as [| | | | | | | |l IH|l IH|kv IH] using pyval_ind'; simpl; try done.
  - induction IH as [|x l Hx _ IHl]; simpl; [done|]. by rewrite Hx, IHl.
  - induction IH as [|[x y] kv Hy _ IHl]; simpl in *; [done|]. by rewrite Hy, IHl.
Qed.

Lemma join_appointment_no_key D kr v :
  join_appointment D kr = Some v -> no_key "password" v = true.
Proof.
  unfold join_appointment. destruct (select_by_id _ (patients D)); [|done].
  destruct (select_by_id _ (doctors D)); [|done]. intros [= <-].
  simpl. by rewrite !no_key_value_to_py.
Qed.

Lemma no_key_joined D : forallb (no_key "password") (map serialize_data (joined_appointments D)) = true.
Proof.
  apply forallb_map_true, Forall_forall. intros v Hv. rewrite no_key_serialize.
  unfold joined_appointments in Hv. apply list_elem_of_omap in Hv as (kr & _ & Hj).
  by eapply join_appointment_no_key.
Qed.

Lemma no_key_get_appointment D i (o : option appointment) row :
  o ≫= (fun a => join_appointment D (i, a)) = Some row -> no_key "password" row = true.
Proof. destruct o as [a|]; [apply join_appointment_no_key|done]. Qed.

(** Closes the goal of one path of a handler: the body is built from
    public rows, messages and scalars. *)
Ltac no_key_leaf :=
  cbn [fst snd body];
  repeat first
    [ reflexivity
    | rewrite no_key_serialize
    | rewrite no_key_joined
    | apply forallb_map_true, Forall_forall; intros [? ?] _
    | progress (simpl; rewrite ?no_key_value_to_py, ?no_key_serialize, ?andb_true_r)
    | match goal with H : _ ≫= _ = Some _ |- _ => by eapply no_key_get_appointment end ].
