(* ===== verification/Router.v ===== *)
(** * Routing: from a request to a handler

    The [@app.route] table of src/server.py with Werkzeug's matching: a
    path of the table with an [<int:...>] segment matches only digits; a
    path of the table requested with a method it does not list is
    answered by the 405 handler (lines 757-759), any other path by the
    404 handler (lines 753-755).  Each route runs its handler inside its
    [try/except] with the error context the source logs.  The theorems:
    item URLs built from an id are routed back to that id, a method a
    route does not list is answered 405, and every answer with a status
    of 400 or more (a guard, an unknown route, a caught exception) leaves
    the database as it was. *)

From Stdlib Require Import ZArith String Ascii.
From stdpp Require Import base list option gmap strings.
From S2P Require Import Prelude Temporal PyValue Request Store Schema World Samples Auth Accounts Appointments Dashboard Invariants Privacy.

Local Open Scope string_scope.
Local Open Scope Z_scope.

Record request := mk_request { method : string; path : string; req_body : payload }.

(** Werkzeug's [int] converter: one or more digits. *)
Definition int_segment (s : string) : option Z := parse_nat s.

(** The resources of the route table. *)
Inductive resource : Type :=
| RRegister | RLogin | RLogout
| RAdmins | RAdmin (id : Z)
| RDoctors | RDoctor (id : Z)
| RPatients | RPatient (id : Z)
| RAppointments | RAppointment (id : Z)
| RStats.

Definition match_path (p : string) : option resource :=
  match split_on "/"%char p with
  | [""; "api"; "register"] => Some RRegister
  | [""; "api"; "login"] => Some RLogin
  | [""; "api"; "logout"] => Some RLogout
  | [""; "api"; "admins"] => Some RAdmins
  | [""; "api"; "admins"; i] => RAdmin <$> int_segment i
  | [""; "api"; "doctors"] => Some RDoctors
  | [""; "api"; "doctors"; i] => RDoctor <$> int_segment i
  | [""; "api"; "patients"] => Some RPatients
  | [""; "api"; "patients"; i] => RPatient <$> int_segment i
  | [""; "api"; "appointments"] => Some RAppointments
  | [""; "api"; "appointments"; i] => RAppointment <$> int_segment i
  | [""; "api"; "dashboard"; "stats"] => Some RStats
  | _ => None
  end.

(** The methods the [@app.route] decorators list for each resource. *)
Definition allowed_methods (r : resource) : list string :=
  match r with
  | RRegister | RLogin | RLogout => ["POST"]
  | RAdmins | RStats => ["GET"]
  | RDoctors | RPatients | RAppointments => ["GET"; "POST"]
  | RAdmin _ | RDoctor _ | RPatient _ | RAppointment _ => ["GET"; "PUT"; "DELETE"]
  end.

(** The URL of the item [i] of a collection, as a client builds it. *)
Definition item_path (collection : string) (i : Z) : string := "/api/" ++ collection ++ "/" ++ fmt_d 1 i.

Section Router.
Context `{PasswordHasher}.

(** The view function of a resource and method, with the context string
    of its [app.logger.error] line; [None] when the method is not
    listed. *)
Definition route (E : env) (r : resource) (meth : string) (p : payload)
  : option (world -> response * world) :=
  let on m h := if String.eqb meth m then Some h else None in
  let or_else o o' := match o with Some h => Some h | None => o' end in
  match r with
  | RRegister => on "POST" (register E p)
  | RLogin => on "POST" (login p)
  | RLogout => on "POST" api_logout
  | RAdmins => on "GET" (handler "Get admins error" api_get_all_admins)
  | RAdmin i =>
      or_else (on "GET" (handler "Get admin error" (api_get_admin i)))
     (or_else (on "PUT" (handler "Update admin error" (api_update_admin i p)))
              (on "DELETE" (handler "Delete admin error" (api_delete_admin i))))
  | RDoctors =>
      or_else (on "GET" (handler "Get doctors error" api_get_all_doctors))
              (on "POST" (handler "Create doctor error" (api_create_doctor E p)))
  | RDoctor i =>
      or_else (on "GET" (handler "Get doctor error" (api_get_doctor i)))
     (or_else (on "PUT" (handler "Update doctor error" (api_update_doctor i p)))
              (on "DELETE" (handler "Delete doctor error" (api_delete_doctor i))))
  | RPatients =>
      or_else (on "GET" (handler "Get patients error" api_get_all_patients))
              (on "POST" (handler "Create patient error" (api_create_patient E p)))
  | RPatient i =>
      or_else (on "GET" (handler "Get patient error" (api_get_patient i)))
     (or_else (on "PUT" (handler "Update patient error" (api_update_patient i p)))
              (on "DELETE" (handler "Delete patient error" (api_delete_patient i))))
  | RAppointments =>
      or_else (on "GET" (handler "Get appointments error" api_get_all_appointments))
              (on "POST" (handler "Create appointment error" (api_create_appointment E p)))
  | RAppointment i =>
      or_else (on "GET" (handler "Get appointment error" (api_get_appointment i)))
     (or_else (on "PUT" (handler "Update appointment error" (api_update_appointment i p)))
              (on "DELETE" (handler "Delete appointment error" (api_delete_appointment i))))
  | RStats => on "GET" (handler "Get stats error" (api_get_dashboard_stats E))
  end.

(** One request served: the whole server as a function of the state. *)
Definition serve (E : env) (req : request) (w : world) : response * world :=
  match match_path (path req) with
  | None => (error_response 404 "Endpoint not found", w)
  | Some r =>
      match route E r (method req) (req_body req) with
      | None => (error_response 405 "Method not allowed", w)
      | Some h => h w
      end
  end.
End Router.

(** ** Theorems *)

Lemma split_api_path (c x : string) :
  no_char "/" c = true -> no_char "/" x = true ->
  split_on "/" ("/api/" ++ c ++ "/" ++ x) = [""; "api"; c; x].
Proof.
  intros Hc Hx.
  change ("/api/" ++ c ++ "/" ++ x) with ("" ++ String "/" ("api" ++ String "/" (c ++ String "/" x))).
  rewrite !split_on_app by done. by rewrite split_on_no_char.
Qed.

(** The URL of an item, built from its id in decimal, is routed to that
    item: Werkzeug's [<int:...>] converter reads back the id. *)
Lemma match_item_path n :
  0 <= n ->
  match_path (item_path "admins" n) = Some (RAdmin n) /\
  match_path (item_path "doctors" n) = Some (RDoctor n) /\
  match_path (item_path "patients" n) = Some (RPatient n) /\
  match_path (item_path "appointments" n) = Some (RAppointment n).
Proof.
  intros Hn. assert (Hx : no_char "/" (fmt_d 1 n) = true) by (by apply no_char_fmt_d_nonneg).
  unfold match_path, int_segment, item_path. rewrite !split_api_path by done.
  cbn. by rewrite parse_nat_fmt_d.
Qed.

Lemma elem_of_item_methods (meth : string) :
  meth ∈ ["GET"; "PUT"; "DELETE"] -> meth = "GET" \/ meth = "PUT" \/ meth = "DELETE".
Proof. intros Hm. repeat (apply elem_of_cons in Hm as [Hm|Hm]; [tauto|]). by apply not_elem_of_nil in Hm. Qed.

(** Unfold every view function, for a case analysis over the routes. *)
Ltac unfold_api :=
  cbv beta delta [api_register register_validate register_commit api_login lookup_account api_get_all_admins api_get_admin
    api_update_admin api_delete_admin api_get_all_doctors api_create_doctor api_get_doctor
    api_update_doctor api_delete_doctor delete_doctor_check delete_doctor_commit api_get_all_patients api_create_patient
    api_get_patient api_update_patient api_delete_patient api_get_all_appointments
    api_create_appointment api_get_appointment api_update_appointment
    api_delete_appointment api_get_dashboard_stats].

Section RouterTheorems.
Context `{PasswordHasher}.

Lemma route_defined E r meth p : is_Some (route E r meth p) <-> meth ∈ allowed_methods r.
Proof.
  destruct r; cbn [route allowed_methods]; repeat case_if;
    rewrite ?String.eqb_eq, ?String.eqb_neq in *; subst.
  all: split; [intros [h Hh]; simplify_eq; set_solver|intros Hin].
  all: first [eexists; reflexivity | set_solver].
Qed.

(** A mapped path requested with a method its decorator does not list
    is answered 405 by the [method_not_allowed] handler, and nothing
    changes. *)
Theorem serve_method_not_allowed E req w r :
  match_path (path req) = Some r -> method req ∉ allowed_methods r ->
  serve E req w = (error_response 405 "Method not allowed", w).
Proof.
  intros Hp Hm. unfold serve. rewrite Hp.
  destruct (route E r (method req) (req_body req)) eqn:Hr; [|done].
  exfalso. apply Hm, (route_defined E r _ (req_body req)). by rewrite Hr.
Qed.
(** ** Every route, on every path *)

(** What one answer [r] from state [w] to state [w'] must satisfy: an
    error answer leaves the database as it was, no answer holds a
    password field, and both invariants are kept. *)
Definition answer_ok (w : world) (r : response) (w' : world) : Prop :=
  (400 <= status_code r -> w_db w' = w_db w) /\
  no_key "password" (body r) = true /\
  (db_inv (w_db w) -> db_inv (w_db w')) /\
  (store_inv (w_db w) -> store_inv (w_db w')).

(** A handler's [except] clause answers 500 and keeps the database. *)
Lemma handler_answer_ok ctx (m : HM response) w :
  match m w with Next r w' | Early r w' => answer_ok w r w' | Fault _ => True end ->
  answer_ok w (handler ctx m w).1 (handler ctx m w).2.
Proof.
  unfold handler, run. destruct (m w) as [r w'|r w'|e]; [done|done|].
  intros _. split; [done|split; [reflexivity|done]].
Qed.

(** One symbolic run of every view function, on every path. *)
Lemma route_paths E r meth p h w :
  route E r meth p = Some h -> answer_ok w (h w).1 (h w).2.
Proof.
  destruct r; cbn [route]; repeat case_if; intros [= <-].
  all: try (unfold api_logout; split; [cbn; lia|split; [reflexivity|done]]).
  all: unfold register, login; apply handler_answer_ok; unfold_api; destruct w as [D s l].
  all: hm_exec; try exact I; (split; [cbn; try lia; reflexivity|split; [no_key_leaf|cbn; split;
    [intros HI; inv_leaf|intros HS; store_leaf]]]).
Qed.

Lemma serve_store_inv E req w : store_inv (w_db w) -> store_inv (w_db (serve E req w).2).
Proof.
  intros Hw. unfold serve. destruct (match_path (path req)) as [r|]; [|done].
  destruct (route E r (method req) (req_body req)) as [h|] eqn:Hr; [|done].
  by apply (route_paths E r (method req) (req_body req) h w Hr).
Qed.

Lemma serve_inv E req w : db_inv (w_db w) -> db_inv (w_db (serve E req w).2).
Proof.
  intros Hw. unfold serve. destruct (match_path (path req)) as [r|]; [|done].
  destruct (route E r (method req) (req_body req)) as [h|] eqn:Hr; [|done].
  by apply (route_paths E r (method req) (req_body req) h w Hr).
Qed.

(** C2: An error response (status 400 or more, from a guard, a missing
    route or a caught exception) leaves the database as it was. *)
Theorem serve_error_keeps_db E req w :
  400 <= status_code (serve E req w).1 -> w_db (serve E req w).2 = w_db w.
Proof.
  unfold serve. destruct (match_path (path req)) as [r|]; [|done].
  destruct (route E r (method req) (req_body req)) as [h|] eqn:Hr; [|done].
  by apply (route_paths E r (method req) (req_body req) h w Hr).
Qed.

(** C16: No answer of the server, to any request in any state, holds a
    field named ["password"]: the stored hash is never sent back. *)
Theorem serve_no_password E req w : no_key "password" (body (serve E req w).1) = true.
Proof.
  unfold serve. destruct (match_path (path req)) as [r|]; [|reflexivity].
  destruct (route E r (method req) (req_body req)) as [h|] eqn:Hr; [|reflexivity].
  by apply (route_paths E r (method req) (req_body req) h w Hr).
Qed.

(** C17: Reading, updating or deleting an item through its URL when no row has
    its id answers 404 with the collection's message and changes
    nothing, for the four collections. *)
Theorem serve_unknown_id E meth m w i :
  0 <= i -> meth ∈ ["GET"; "PUT"; "DELETE"] ->
  (select_by_id i (admins (w_db w)) = None ->
   serve E (mk_request meth (item_path "admins" i) (PObject m)) w = (error_response 404 "Admin not found", w)) /\
  (select_by_id i (doctors (w_db w)) = None ->
   serve E (mk_request meth (item_path "doctors" i) (PObject m)) w = (error_response 404 "Doctor not found", w)) /\
  (select_by_id i (patients (w_db w)) = None ->
   serve E (mk_request meth (item_path "patients" i) (PObject m)) w = (error_response 404 "Patient not found", w)) /\
  (select_by_id i (appointments (w_db w)) = None ->
   serve E (mk_request meth (item_path "appointments" i) (PObject m)) w =
   (error_response 404 "Appointment not found", w)).
Proof.
  intros Hi Hm. destruct (match_item_path i Hi) as (Ha & Hd & Hp & Hap).
  destruct w as [D s l]. cbn [w_db].
  repeat split; intros Hnone; unfold serve; cbn [path method req_body];
    rewrite ?Ha, ?Hd, ?Hp, ?Hap; cbn [route]; clear Ha Hd Hp Hap;
    destruct (elem_of_item_methods _ Hm) as [Hg|[Hg|Hg]]; subst meth; hm_simpl;
    unfold handler, run, api_get_admin, api_update_admin, api_delete_admin, api_get_doctor,
      api_update_doctor, api_delete_doctor, delete_doctor_check, api_get_patient, api_update_patient,
      api_delete_patient, api_get_appointment, api_update_appointment, api_delete_appointment;
    hm_simpl; rewrite Hnone, ?bool_decide_true by done; hm_simpl; reflexivity.
Qed.
End RouterTheorems.

Section RouterWitnesses.
#[local] Existing Instance plain_hasher.

Lemma serve_method_not_allowed_witness :
  serve env0 (mk_request "PATCH" "/api/doctors/1" (PObject ∅)) sample_world =
  (error_response 405 "Method not allowed", sample_world).
Proof. apply (serve_method_not_allowed _ _ _ (RDoctor 1)); [reflexivity|by_eval]. Defined.

Lemma serve_error_keeps_db_witness :
  w_db (serve env0 (mk_request "DELETE" "/api/doctors/1" (PObject ∅)) sample_world).2 = sample_db.
Proof. apply (serve_error_keeps_db env0 _ sample_world). vm_compute. discriminate. Defined.

Lemma serve_unknown_id_witness :
  item_path "doctors" 9 = "/api/doctors/9" /\
  serve env0 (mk_request "DELETE" (item_path "doctors" 9) (PObject ∅)) sample_world =
  (error_response 404 "Doctor not found", sample_world).
Proof.
  split; [reflexivity|].
  apply (serve_unknown_id env0 "DELETE" ∅ sample_world 9); [lia|by_eval|reflexivity].
Defined.
End RouterWitnesses.
