(* ===== verification/Banner.v ===== *)
(** * The startup banner and the endpoints it announces

    When src/server.py is run as a script (lines 767-800) it prints a
    banner that lists the endpoints, one [print] per line, before
    [app.run] starts the server (line 802, not modelled: it only starts
    Werkzeug).  [banner_lines] are the [print] arguments in order,
    [banner] the text on standard output, and [banner_endpoints] the
    (method, path) pairs of its endpoint lines (four spaces, method,
    path, [-], description), read back from that text.  [endpoint_url]
    is the URL a client requests for such a line and an id.

    The theorem: for every endpoint the banner announces and every id,
    the router of Router.v maps the URL to a view that answers the
    announced method; the banner omits one endpoint the router serves,
    [GET /api/appointments/<id>] (line 632). *)

From Stdlib Require Import ZArith String Ascii.
From stdpp Require Import base list option gmap strings.
From S2P Require Import Prelude Temporal PyValue Request Store Schema World Samples Auth Accounts Appointments Dashboard Invariants Privacy Router.

Local Open Scope string_scope.
Local Open Scope Z_scope.

(** ** The printed text *)

Definition newline : string := String "010" EmptyString.

(** [print(s)]: the text and a line feed. *)
Definition py_print (s : string) : string := s ++ newline.

(** [s * n] *)
Fixpoint str_repeat (n : nat) (s : string) : string :=
  match n with O => EmptyString | S n => s ++ str_repeat n s end.

(** Lines 768-800, the arguments of the [print] calls. *)
Definition banner_lines : list string :=
  [str_repeat 60 "=";
   "Hospital Management API Starting...";
   str_repeat 60 "=";
   "Available Endpoints:";
   "Authentication:";
   "    POST /api/register - Register new user (admin/doctor/patient)";
   "    POST /api/login - User login";
   "    POST /api/logout - User logout";
   newline ++ "Admin CRUD:";
   "    GET /api/admins - Get all admins";
   "    GET /api/admins/<id> - Get specific admin";
   "    PUT /api/admins/<id> - Update admin";
   "    DELETE /api/admins/<id> - Delete admin";
   newline ++ "Doctor CRUD:";
   "    GET /api/doctors - Get all doctors";
   "    POST /api/doctors - Create new doctor";
   "    GET /api/doctors/<id> - Get specific doctor";
   "    PUT /api/doctors/<id> - Update doctor";
   "    DELETE /api/doctors/<id> - Delete doctor";
   newline ++ "Patient CRUD:";
   "    GET /api/patients - Get all patients";
   "    POST /api/patients - Create new patient";
   "    GET /api/patients/<id> - Get specific patient";
   "    PUT /api/patients/<id> - Update patient";
   "    DELETE /api/patients/<id> - Delete patient";
   newline ++ "Appointment CRUD:";
   "    GET /api/appointments - Get all appointments";
   "    POST /api/appointments - Create new appointment";
   "    PUT /api/appointments/<id> - Update appointment";
   "    DELETE /api/appointments/<id> - Delete appointment";
   newline ++ "Dashboard:";
   "    GET /api/dashboard/stats - Get dashboard statistics";
   str_repeat 60 "="].

(** What the banner writes on standard output. *)
Definition banner : string := foldr (fun l acc => py_print l ++ acc) EmptyString banner_lines.

(** An endpoint line: four spaces, the method, the path, a dash. *)
Definition endpoint_of_line (l : string) : option (string * string) :=
  match split_on " "%char l with
  | "" :: "" :: "" :: "" :: m :: p :: "-" :: _ => Some (m, p)
  | _ => None
  end.

Definition banner_endpoints : list (string * string) :=
  omap endpoint_of_line (split_on "010"%char banner).

(** The URL a client requests for an endpoint of the banner and an id:
    [<id>] written as the id's digits. *)
Definition endpoint_url (p : string) (i : Z) : string :=
  match split_on "/"%char p with
  | [""; "api"; c; "<id>"] => item_path c i
  | _ => p
  end.

(** ** Theorems *)

Section BannerTheorems.
Context `{PasswordHasher}.

(** C31: The banner announces only endpoints the server serves: for every
    endpoint line and every id, the router maps the URL to a view that
    answers the announced method (neither 404 nor 405).  It omits one
    endpoint it serves: [GET /api/appointments/<id>], which the router
    dispatches to [get_appointment] for every id. *)
Theorem banner_endpoints_served E p :
  (forall m u, (m, u) ∈ banner_endpoints -> forall i, 0 <= i ->
     exists r, match_path (endpoint_url u i) = Some r /\ is_Some (route E r m p)) /\
  (("GET", "/api/appointments/<id>") ∉ banner_endpoints) /\
  (forall i, 0 <= i ->
     match_path (endpoint_url "/api/appointments/<id>" i) = Some (RAppointment i) /\
     route E (RAppointment i) "GET" p = Some (handler "Get appointment error" (api_get_appointment i))).
Proof.
  split; [|split].
  - intros m u Hin i Hi. destruct (match_item_path i Hi) as (Ha & Hd & Hp & Hap).
    remember banner_endpoints as be eqn:Hb. vm_compute in Hb. subst be.
    repeat (apply elem_of_cons in Hin as [Hin|Hin];
      [injection Hin as -> ->; eexists; split;
         [first [exact Ha | exact Hd | exact Hp | exact Hap | reflexivity]
         |apply route_defined; cbn; set_solver]|]).
    by apply not_elem_of_nil in Hin.
  - apply (bool_decide_unpack _). vm_compute. reflexivity.
  - intros i Hi. split; [apply (match_item_path i Hi)|reflexivity].
Qed.
End BannerTheorems.

Section BannerWitnesses.
#[local] Existing Instance plain_hasher.

Lemma banner_endpoints_served_witness :
  ("PUT", "/api/admins/<id>") ∈ banner_endpoints /\
  endpoint_url "/api/admins/<id>" 7 = "/api/admins/7" /\
  exists r, match_path (endpoint_url "/api/admins/<id>" 7) = Some r /\
    is_Some (route env0 r "PUT" (PObject ∅)).
Proof.
  assert (Hin : ("PUT", "/api/admins/<id>") ∈ banner_endpoints)
    by (apply (bool_decide_unpack _); vm_compute; reflexivity).
  split; [exact Hin|split; [reflexivity|]].
  apply (proj1 (banner_endpoints_served env0 (PObject ∅)) "PUT" "/api/admins/<id>" Hin 7). lia.
Defined.
End BannerWitnesses.
