(* ===== verification/System.v ===== *)
(** * The server as a transition system

    A state steps to another by serving one request ([serve] of
    Router.v) at any time [env] and with any body: requests are handled
    one after the other, each atomically (the model of the spec's
    one-request-at-a-time reading; interleavings inside a handler are not
    modelled here; Concurrency.v adds them).  [reachable] is the
    reflexive-transitive closure of [step] from the empty database, and
    [rtc_step_db_inv] carries [db_inv] along it (from [serve_inv] of
    Router.v).  The theorems: with the SHA-256 hasher of Sha256.v, every
    stored password is 64 lower-case hex digits; and the cross-table username
    uniqueness the spec states is not an invariant, since
    [POST /api/doctors] and [POST /api/patients] only look in their own
    table. *)

From Stdlib Require Import ZArith String.
From stdpp Require Import base list option gmap strings relations.
From S2P Require Import Prelude Temporal PyValue Request Store Schema World Sha256 Samples Auth Accounts Appointments Dashboard Invariants Privacy Router.

Local Open Scope string_scope.
Local Open Scope Z_scope.

Section System.
Context `{PasswordHasher}.

Inductive step : world -> world -> Prop :=
| step_serve (E : env) (req : request) (w : world) : step w (serve E req w).2.

Definition reachable (w : world) : Prop := rtc step initial_world w.

(** Two creations with the same username, as a doctor then as a patient. *)
Definition account_body : payload :=
  PObject (list_to_map [("name", VStr "A"); ("username", VStr "u"); ("password", VStr "p");
                        ("email", VStr "a@b.com"); ("phone", VStr "1");
                        ("specialization", VStr "General")]).

Definition create_doctor_then_patient : world :=
  (serve env0 (mk_request "POST" "/api/patients" account_body)
     (serve env0 (mk_request "POST" "/api/doctors" account_body) initial_world).2).2.

(** Serving requests keeps [db_inv], along any sequence of steps. *)
Lemma rtc_step_db_inv w w' : rtc step w w' -> db_inv (w_db w) -> db_inv (w_db w').
Proof. induction 1 as [|x y z [E req] _ IH]; [done|]. intros Hx. by apply IH, serve_inv. Qed.


(** ** Usernames are not unique across the three account tables *)

(** C5: The spec's data model says a username is unique across the three
    account tables; [POST /api/doctors] followed by [POST /api/patients]
    with the same username reaches a state where both tables hold it. *)
Theorem username_shared_across_tables :
  exists w, reachable w /\
    VStr "u" ∈ usernames (doctors (w_db w)) /\ VStr "u" ∈ usernames (patients (w_db w)).
Proof.
  exists create_doctor_then_patient. split; [|split].
  - eapply rtc_l; [apply step_serve|]. eapply rtc_l; [apply step_serve|]. apply rtc_refl.
  - vm_compute. left.
  - vm_compute. left.
Qed.
End System.

(** ** The stored passwords are SHA-256 hex digests *)

(** Every password of an account table is 64 lower-case hex digits. *)
Definition digests_stored {R} `{Account R} (t : table R) : Prop :=
  Forall (fun kr => String.length (acct_password kr.2) = 64%nat /\ all_lower_hex (acct_password kr.2) = true)
    (rows t).

Lemma hashed_digests {R} `{Account R} (t : table R) : @hashed sha256_hasher R _ t -> digests_stored t.
Proof.
  unfold hashed, digests_stored. intros Hh. eapply Forall_impl; [exact Hh|].
  intros kr [s ->]. apply sha256_hex_digest.
Qed.

Section StoredDigests.
#[local] Existing Instance sha256_hasher.

(** C10: With the hash of the code ([hashlib.sha256(...).hexdigest()]),
    every password stored in a reachable state is 64 lower-case hex
    digits, the spec's fixed-length hex digest: accounts are created only
    with a hashed password and no update touches the column. *)
Theorem reachable_password_digests w :
  reachable w ->
  digests_stored (admins (w_db w)) /\ digests_stored (doctors (w_db w)) /\ digests_stored (patients (w_db w)).
Proof.
  intros Hr. pose proof (rtc_step_db_inv _ _ Hr empty_db_inv) as HI.
  split; [|split]; apply hashed_digests, HI.
Qed.

(** One registration from the empty database stores [sha256_hex "pw"]. *)
Definition registered_world : world :=
  (serve env0 (mk_request "POST" "/api/register" (PObject drx_registration)) initial_world).2.

Lemma reachable_password_digests_witness :
  map (fun kr => doctor_password kr.2) (rows (doctors (w_db registered_world))) = [sha256_hex "pw"] /\
  digests_stored (doctors (w_db registered_world)).
Proof.
  split; [vm_compute; reflexivity|].
  apply (reachable_password_digests registered_world). eapply rtc_l; [apply step_serve|apply rtc_refl].
Defined.
End StoredDigests.

(** ** The theorems on the sample data *)

Section SystemWitnesses.
#[local] Existing Instance plain_hasher.

End SystemWitnesses.
