(* ===== verification/Liveness.v ===== *)
(** * Progress: every doctor can be deleted

    [DELETE /api/doctors/<id>] refuses a doctor who still has
    appointments (400, lines 418-424 of src/server.py), so a client that
    wants a doctor gone first deletes that doctor's appointments with
    [DELETE /api/appointments/<id>] (lines 695-711), which has no guard.
    [drain_doctor] is that client: a loop over the server of System.v
    that deletes the first appointment of the doctor still listed, then
    the doctor.  Its fuel bounds the number of appointment deletions.

    The theorem: each appointment deletion lowers the doctor's
    appointment count by one at least, so fuel equal to the count is
    enough, and from any state satisfying [db_inv] the requests of
    [drain_doctor] are steps of the server that delete the given doctor
    (liveness: the 400 guard never blocks forever). *)

From Stdlib Require Import ZArith String.
From stdpp Require Import base list option gmap strings relations.
From S2P Require Import Prelude Temporal PyValue Request Store Schema World Samples Auth Accounts Appointments Dashboard Invariants Privacy Router System.

Local Open Scope string_scope.
Local Open Scope Z_scope.

Section Liveness.
Context `{PasswordHasher}.

(** [DELETE] on the URL of one row, with an empty JSON body. *)
Definition delete_request (collection : string) (i : Z) : request :=
  mk_request "DELETE" (item_path collection i) (PObject ∅).

(** The first appointment of doctor [d] in table order. *)
Definition first_appointment_of (d : Z) (D : db) : option (Z * appointment) :=
  List.find (fun kr => Z.eqb (doctor_id kr.2) d) (rows (appointments D)).

(** Delete the doctor's appointments one by one, at most [fuel] of them,
    then the doctor. *)
Fixpoint drain_doctor (fuel : nat) (E : env) (d : Z) (w : world) : world :=
  match fuel with
  | O => (serve E (delete_request "doctors" d) w).2
  | S n =>
      match first_appointment_of d (w_db w) with
      | Some (k, _) => drain_doctor n E d (serve E (delete_request "appointments" k) w).2
      | None => (serve E (delete_request "doctors" d) w).2
      end
  end.
End Liveness.

(** ** Lemmas *)

Lemma filter_filter_length_le {A} (p q : A -> bool) (l : list A) :
  (length (List.filter p (List.filter q l)) <= length (List.filter p l))%nat.
Proof. induction l as [|y l IH]; cbn; [done|]. destruct (q y); cbn; destruct (p y); cbn; lia. Qed.

Lemma filter_filter_length_lt {A} (p q : A -> bool) (l : list A) x :
  x ∈ l -> p x = true -> q x = false ->
  (length (List.filter p (List.filter q l)) < length (List.filter p l))%nat.
Proof.
  intros Hx Hp Hq. induction l as [|y l IH]; [by apply not_elem_of_nil in Hx|].
  pose proof (filter_filter_length_le p q l).
  apply elem_of_cons in Hx as [->|Hx]; cbn; [rewrite Hq, Hp; cbn; lia|].
  specialize (IH Hx). destruct (q y); cbn; destruct (p y); cbn; lia.
Qed.

Lemma select_by_id_key_pos {R} (t : table R) k r :
  table_wf t -> select_by_id k t = Some r -> 1 <= k.
Proof.
  intros (_ & Hk & _) Hs%select_by_id_in. rewrite Forall_forall in Hk. apply Hk in Hs. cbn in Hs. lia.
Qed.

Lemma first_appointment_of_some d D k a :
  first_appointment_of d D = Some (k, a) -> (k, a) ∈ rows (appointments D) /\ doctor_id a = d.
Proof.
  intros Hf%find_some. destruct Hf as [Hin Hd%Z.eqb_eq]. split; [by apply list_elem_of_In|done].
Qed.

Lemma first_appointment_of_none d D :
  first_appointment_of d D = None -> doctor_appointment_count d D = 0%nat.
Proof.
  intros Hf. unfold doctor_appointment_count, count_where, select_where.
  apply length_zero_iff_nil, existsb_filter_nil, not_true_iff_false.
  intros (kr & Hin & Hp)%existsb_exists. by rewrite (find_none _ _ Hf kr Hin) in Hp.
Qed.

Lemma doctor_appointment_count_delete d k a D :
  (k, a) ∈ rows (appointments D) -> doctor_id a = d ->
  (doctor_appointment_count d (with_appointments (delete_by_id k (appointments D)) D) <
   doctor_appointment_count d D)%nat.
Proof.
  intros Hin Hd. unfold doctor_appointment_count, count_where, select_where, delete_by_id. cbn.
  apply (filter_filter_length_lt _ _ _ (k, a) Hin); cbn; [by apply Z.eqb_eq|by rewrite Z.eqb_refl].
Qed.

Section Requests.
Context `{PasswordHasher}.

Lemma serve_delete_appointment E k a w :
  0 <= k -> select_by_id k (appointments (w_db w)) = Some a ->
  w_db (serve E (delete_request "appointments" k) w).2 =
  with_appointments (delete_by_id k (appointments (w_db w))) (w_db w).
Proof.
  intros Hk Hs. destruct (match_item_path k Hk) as (_ & _ & _ & Hap).
  destruct w as [D s l]. cbn [w_db] in *. unfold serve, delete_request. cbn [path method req_body].
  rewrite Hap. cbn [route]. hm_simpl. unfold handler, run, api_delete_appointment. hm_run. reflexivity.
Qed.

Lemma serve_delete_free_doctor E d doc w :
  0 <= d -> select_by_id d (doctors (w_db w)) = Some doc ->
  doctor_appointment_count d (w_db w) = 0%nat ->
  select_by_id d (doctors (w_db (serve E (delete_request "doctors" d) w).2)) = None.
Proof.
  intros Hd Hs Hc. destruct (match_item_path d Hd) as (_ & Hdoc & _ & _).
  destruct w as [D s l]. cbn [w_db] in *. unfold serve, delete_request. cbn [path method req_body].
  rewrite Hdoc. cbn [route]. hm_simpl.
  unfold handler, run, api_delete_doctor, delete_doctor_check, delete_doctor_commit.
  hm_run. do 2 (rewrite Hc; cbn [Nat.ltb Nat.leb]; hm_run).
  apply select_delete_eq.
Qed.
End Requests.

(** ** Theorems *)

Section Progress.
Context `{PasswordHasher}.

(** Fuel at least the doctor's appointment count is enough: the loop
    takes steps of the server and ends with the doctor deleted. *)
Lemma drain_doctor_spec E n d doc w :
  db_inv (w_db w) -> select_by_id d (doctors (w_db w)) = Some doc ->
  (doctor_appointment_count d (w_db w) <= n)%nat ->
  rtc step w (drain_doctor n E d w) /\ select_by_id d (doctors (w_db (drain_doctor n E d w))) = None.
Proof.
  revert w. induction n as [|n IH]; intros w Hinv Hs Hc; cbn [drain_doctor].
  all: assert (0 <= d) by (eapply select_by_id_key_pos in Hs; [lia|apply Hinv]).
  - split; [apply rtc_once, step_serve|]. eapply serve_delete_free_doctor; [done|exact Hs|lia].
  - destruct (first_appointment_of d (w_db w)) as [[k a]|] eqn:Hf.
    + apply first_appointment_of_some in Hf as [Hin Hda].
      assert (Ha : select_by_id k (appointments (w_db w)) = Some a).
      { apply select_by_id_of_in; [apply Hinv|done]. }
      pose proof (serve_delete_appointment E k a w) as Hw1.
      assert (0 <= k) by (eapply select_by_id_key_pos in Ha; [lia|apply Hinv]).
      specialize (Hw1 ltac:(done) Ha).
      pose proof (doctor_appointment_count_delete d k a (w_db w) Hin Hda) as Hlt.
      destruct (IH (serve E (delete_request "appointments" k) w).2) as [Hr Hdel].
      * apply serve_inv, Hinv.
      * by rewrite Hw1.
      * rewrite Hw1. lia.
      * split; [|done]. eapply rtc_l; [apply step_serve|exact Hr].
    + split; [apply rtc_once, step_serve|].
      eapply serve_delete_free_doctor; [done|exact Hs|]. by apply first_appointment_of_none.
Qed.


(** C6: Liveness of doctor deletion.  From any state satisfying [db_inv]
    (every reachable state, System.v), for every existing doctor, the
    requests [drain_doctor] issues, at any time and with any fuel at
    least the doctor's appointment count, are a sequence of steps of the
    server that deletes that doctor, and the state reached still
    satisfies [db_inv]. *)
Theorem doctor_eventually_deleted E n d doc w :
  db_inv (w_db w) -> select_by_id d (doctors (w_db w)) = Some doc ->
  (doctor_appointment_count d (w_db w) <= n)%nat ->
  let w' := drain_doctor n E d w in
  rtc step w w' /\ db_inv (w_db w') /\ select_by_id d (doctors (w_db w')) = None.
Proof.
  intros Hinv Hs Hc. destruct (drain_doctor_spec E n d doc w Hinv Hs Hc) as [Hr Hd].
  split; [done|split; [by apply (rtc_step_db_inv w)|done]].
Qed.
End Progress.

(** ** The theorems on the sample data *)

Section LivenessWitnesses.
#[local] Existing Instance plain_hasher.


Lemma doctor_eventually_deleted_witness :
  doctor_appointment_count 1 sample_db = 1%nat /\
  let w' := drain_doctor 3 env0 1 sample_world in
  rtc step sample_world w' /\ db_inv (w_db w') /\ select_by_id 1 (doctors (w_db w')) = None.
Proof.
  split; [reflexivity|].
  apply (doctor_eventually_deleted env0 3 1 sample_doctor sample_world);
    [apply sample_db_inv|reflexivity|vm_compute; lia].
Defined.
End LivenessWitnesses.
