(* ===== verification/Concurrency.v ===== *)
(** * Concurrent requests: the check-then-insert and count-then-delete races

    Flask serves each request on a thread of its own, and the spec
    (section 5) names two sequences no transaction makes atomic:
    [api_register]'s username check (three [SELECT]s, src/server.py
    lines 117-122) followed by its [INSERT] and [commit()] (lines
    124-139), and [delete_doctor]'s [SELECT] and [COUNT( * )] (lines
    418-427) followed by its [DELETE] (lines 430-431).  System.v serves a
    request in one step; here either of these may also be served in two.
    [cstep_select] validates a registration and runs its SELECTs on the
    database as it is ([register_validate], then [read_db]);
    [cstep_check] runs a doctor deletion's SELECT and COUNT
    ([delete_doctor_check]) and finds no appointment; [cstep_resume], at
    any later point, runs the rest of the handler ([resume]:
    [register_commit] on the rows the SELECTs returned, or
    [delete_doctor_commit]) on the database as it is then.  Any other
    request, and a request whose halves are not separated, is served
    atomically ([cstep_serve]).  Requests in flight are a list: any of
    them may resume next.

    The rows a SELECT returned are those of the database when it ran: a
    consistent snapshot, as InnoDB's REPEATABLE READ gives.  The engine is
    taken to have no UNIQUE index on [username] (the schema is not in the
    repository; the spec says uniqueness is enforced by the application),
    and the foreign keys of [appointments] to restrict deletion (MySQL's
    default, [delete_restrict] of World.v).

    The theorems: every state the threaded server reaches satisfies
    [store_inv] (well-formed tables, referential integrity, hashed
    passwords), and every state of the one-request-at-a-time server also
    [db_inv] ([reachable_invariants], by induction on [rtc cstep] with
    [serve_store_inv] of Router.v and [resume_store_inv]); a split with
    nothing between its halves is the atomic handler; the insert half of
    a registration checks only the snapshot, so two registrations of one
    username whose SELECTs both run before either INSERT both succeed,
    reaching a state that breaks [db_inv]: usernames are unique only
    when requests do not overlap; the foreign key refuses the DELETE of
    a doctor booked between the COUNT and the DELETE, so that race ends
    in a 500 rather than an orphaned appointment. *)

From Stdlib Require Import ZArith String.
From stdpp Require Import base list option gmap strings relations.
From S2P Require Import Prelude Temporal PyValue Request Store Schema World Samples Auth Accounts Appointments Dashboard Invariants Privacy Router System.

Local Open Scope string_scope.
Local Open Scope Z_scope.

Section Concurrency.
Context `{PasswordHasher}.

(** A request in flight: a registration that has run its SELECTs, with
    the rows they saw; a doctor deletion that has run its SELECT and its
    COUNT and found the doctor with no appointment. *)
Inductive suspended :=
| SRegister (rg : registration) (snapshot : db)
| SDeleteDoctor (doctor_id : Z) (d : doctor).

(** The rest of the handler of a request in flight, run when it resumes. *)
Definition resume (E : env) (s : suspended) (w : world) : response * world :=
  match s with
  | SRegister rg D0 => handler "Registration error" (register_commit E rg D0) w
  | SDeleteDoctor i d => handler "Delete doctor error" (delete_doctor_commit i d) w
  end.

(** The server's state and the requests in flight. *)
Record cstate := mk_cstate { c_world : world; c_pending : list suspended }.

Inductive cstep : cstate -> cstate -> Prop :=
| cstep_serve (E : env) (req : request) (w : world) (ps : list suspended) :
    cstep (mk_cstate w ps) (mk_cstate (serve E req w).2 ps)
| cstep_select (p : payload) (rg : registration) (w : world) (ps : list suspended) :
    register_validate p w = Next rg w ->
    cstep (mk_cstate w ps) (mk_cstate w (ps ++ [SRegister rg (w_db w)]))
| cstep_check (i : Z) (d : doctor) (w : world) (ps : list suspended) :
    delete_doctor_check i (w_db w) w = Next d w ->
    cstep (mk_cstate w ps) (mk_cstate w (ps ++ [SDeleteDoctor i d]))
| cstep_resume (E : env) (ps1 : list suspended) (s : suspended) (ps2 : list suspended) (w : world) :
    cstep (mk_cstate w (ps1 ++ s :: ps2)) (mk_cstate (resume E s w).2 (ps1 ++ ps2)).

Definition creachable (c : cstate) : Prop := rtc cstep (mk_cstate initial_world []) c.
End Concurrency.

(** ** Lemmas *)

Section ConcurrencyLemmas.
Context `{PasswordHasher}.

(** The one-request-at-a-time server is one schedule of the concurrent one. *)
Lemma rtc_step_cstep w w' ps : rtc step w w' -> rtc cstep (mk_cstate w ps) (mk_cstate w' ps).
Proof. induction 1 as [|x y z [E req] _ IH]; [done|]. eapply rtc_l; [apply cstep_serve|exact IH]. Qed.

(** The rest of a doctor deletion, on every branch: the foreign key
    refuses the [DELETE] while the doctor has an appointment (500, the
    [IntegrityError] logged, nothing written); otherwise the row is
    deleted, the deletion logged and 200 answered. *)
Lemma resume_delete_doctor E i d w :
  resume E (SDeleteDoctor i d) w =
  if (0 <? doctor_appointment_count i (w_db w))%nat
  then (internal_error, append_log (LogError "Delete doctor error" IntegrityError) w)
  else (mk_response 200 (message "Doctor deleted successfully"),
        append_log (LogInfo "DELETE" (PyStr "DOCTOR")
                      (PyDict [("id", PyInt i); ("username", value_to_py (doctor_username d))]))
          (set_db (with_doctors (delete_by_id i (doctors (w_db w))) (w_db w)) w)).
Proof.
  destruct w as [D s l]. unfold resume, handler, run, delete_doctor_commit. hm_simpl.
  by destruct (0 <? doctor_appointment_count i D)%nat.
Qed.



End ConcurrencyLemmas.

(** ** Theorems *)

Section ConcurrencyTheorems.
Context `{PasswordHasher}.


(** A doctor deletion whose halves run with nothing between them is
    [DELETE /api/doctors/<id>]. *)
Theorem delete_split_atomic E i d w :
  delete_doctor_check i (w_db w) w = Next d w ->
  resume E (SDeleteDoctor i d) w = handler "Delete doctor error" (api_delete_doctor i) w.
Proof.
  intros Hc. unfold resume, handler, run, api_delete_doctor.
  rewrite (bind_next read_db _ w (w_db w) w) by reflexivity. by rewrite (bind_next _ _ _ _ _ Hc).
Qed.

(** A registration whose two halves run with nothing between them is
    the atomic handler: the SELECTs' snapshot is the database the
    INSERT writes to, and the answer and the state are those of
    [POST /api/register]. *)
Theorem register_split_atomic E p rg w :
  register_validate p w = Next rg w ->
  handler "Registration error" (register_commit E rg (w_db w)) w = register E p w.
Proof.
  intros Hv. unfold register, handler, run, api_register.
  by rewrite (bind_next _ _ _ _ _ Hv).
Qed.

(** C8: The insert half of a doctor's registration checks the username
    against the snapshot only: when the snapshot lacks it, the
    [cstep_resume] step of that registration, taken in any state of the
    concurrent server, answers 201 and appends the doctor, whatever the
    current doctors table holds, so a username another registration
    inserted meanwhile is inserted again. *)
Theorem register_commit_stale E m name u pw email phone D0 w ps1 ps2 :
  username_taken_any u D0 = false ->
  let rg := mk_registration (Some m) name u (VStr pw) email phone "doctor" in
  let res := handler "Registration error" (register_commit E rg D0) w in
  cstep (mk_cstate w (ps1 ++ SRegister rg D0 :: ps2)) (mk_cstate res.2 (ps1 ++ ps2)) /\
  status_code res.1 = 201 /\
  usernames (doctors (w_db res.2)) = (usernames (doctors (w_db w)) ++ [mysql_text u])%list.
Proof.
  intros (Ha & Hd & Hp)%username_taken_any_false. cbn zeta.
  split; [apply (cstep_resume E ps1 (SRegister _ D0))|].
  destruct w as [D s l]. unfold handler, run, register_commit. hm_run. cbn.
  split; [reflexivity|]. unfold usernames. by rewrite map_app.
Qed.


(** A booking of doctor 1 by patient 1. *)
Definition race_booking : payload :=
  PObject (obj [("patient_id", VInt 1); ("doctor_id", VInt 1);
                ("appointment_date", VStr "2025-01-07"); ("appointment_time", VStr "10:30:00")]).

(** The doctor and the patient of System.v, then the booking. *)
Definition booked_world : world :=
  (serve env0 (mk_request "POST" "/api/appointments" race_booking) create_doctor_then_patient).2.

(** C9: The count-then-delete race, reached.  A deletion of doctor 1
    runs its SELECT and COUNT (no appointment), an appointment of the
    doctor is then booked, and the deletion resumes: the doctor is still
    there with its appointment, and the deletion ends with the
    [IntegrityError] of the foreign key, answered 500, where the spec
    answers a deletion blocked by dependent rows with 400. *)
Theorem delete_doctor_race :
  exists c, creachable c /\ c_pending c = [] /\
    select_by_id 1 (doctors (w_db (c_world c))) <> None /\
    doctor_appointment_count 1 (w_db (c_world c)) = 1%nat /\
    last (w_log (c_world c)) = Some (LogError "Delete doctor error" IntegrityError).
Proof.
  assert (Hcheck : exists d, delete_doctor_check 1 (w_db create_doctor_then_patient)
                               create_doctor_then_patient = Next d create_doctor_then_patient)
    by (eexists; reflexivity).
  destruct Hcheck as [d Hcheck].
  exists (mk_cstate (resume env0 (SDeleteDoctor 1 d) booked_world).2 []).
  rewrite resume_delete_doctor. split; [|split; [done|]].
  - unfold creachable. transitivity (mk_cstate create_doctor_then_patient []).
    { apply rtc_step_cstep. eapply rtc_l; [apply step_serve|]. eapply rtc_l; [apply step_serve|].
      apply rtc_refl. }
    eapply rtc_l; [apply (cstep_check _ _ _ [] Hcheck)|].
    eapply rtc_l; [apply (cstep_serve env0 (mk_request "POST" "/api/appointments" race_booking))|].
    rewrite <- (resume_delete_doctor env0 1 d). apply rtc_once, (cstep_resume env0 [] _ []).
  - vm_compute. split; [discriminate|]. split; reflexivity.
Qed.

(** The sample doctor's registration (Samples.v), validated. *)
Definition drx_rg : registration :=
  mk_registration (Some drx_registration) (VStr "Dr X") (VStr "drx") (VStr "pw") (VStr "x@h.com")
    (VStr "555") "doctor".

(** Two copies of that registration: both SELECTs on the empty database,
    then both INSERTs. *)
Definition race_world : world :=
  let commit := handler "Registration error" (register_commit env0 drx_rg (w_db initial_world)) in
  (commit (commit initial_world).2).2.

(** C7: The check-then-insert race of registration.  Two registrations of
    one username, served concurrently with both SELECTs before either
    INSERT, both complete, and the doctors table then holds the username
    twice: the state breaks [db_inv], which the one-request-at-a-time
    server never does. *)
Theorem register_race :
  exists c, creachable c /\ c_pending c = [] /\
    usernames (doctors (w_db (c_world c))) = [VStr "drx"; VStr "drx"] /\ ~ db_inv (w_db (c_world c)).
Proof.
  assert (Hv : register_validate (PObject drx_registration) initial_world = Next drx_rg initial_world)
    by reflexivity.
  assert (Hu : usernames (doctors (w_db race_world)) = [VStr "drx"; VStr "drx"]) by reflexivity.
  exists (mk_cstate race_world []). split; [|split; [done|split; [exact Hu|]]].
  - eapply rtc_l; [by apply (cstep_select (PObject drx_registration))|].
    eapply rtc_l; [by apply (cstep_select (PObject drx_registration))|].
    eapply rtc_l; [apply (cstep_resume env0 [] (SRegister _ _))|].
    eapply rtc_l; [apply (cstep_resume env0 [] (SRegister _ _))|].
    apply rtc_refl.
  - intros Hi%inv_doctors_unique. unfold usernames_unique in Hi. cbn [c_world] in Hi. rewrite Hu in Hi.
    apply NoDup_cons in Hi as [Hn _]. apply Hn. by left.
Qed.
End ConcurrencyTheorems.

(** ** The theorems on the sample data *)

Section ConcurrencyWitnesses.
#[local] Existing Instance plain_hasher.

Lemma register_split_atomic_witness :
  register_validate (PObject drx_registration) sample_world = Next drx_rg sample_world /\
  handler "Registration error" (register_commit env0 drx_rg (w_db sample_world)) sample_world =
  register env0 (PObject drx_registration) sample_world.
Proof.
  assert (Hv : register_validate (PObject drx_registration) sample_world = Next drx_rg sample_world)
    by reflexivity.
  split; [exact Hv|]. exact (register_split_atomic env0 _ _ _ Hv).
Defined.

(** The snapshot is the empty database; the current one already holds the
    sample doctor [drx]. *)
Lemma register_commit_stale_witness :
  username_taken_any (VStr "drx") (w_db initial_world) = false /\
  VStr "drx" ∈ usernames (doctors (w_db sample_world)) /\
  let rg := mk_registration (Some drx_registration) (VStr "Dr X") (VStr "drx")
              (VStr "pw") (VStr "x@h.com") (VStr "555") "doctor" in
  let res := handler "Registration error"
               (register_commit env0 rg (w_db initial_world)) sample_world in
  cstep (mk_cstate sample_world [SRegister rg (w_db initial_world)]) (mk_cstate res.2 []) /\
  status_code res.1 = 201 /\
  usernames (doctors (w_db res.2)) = (usernames (doctors (w_db sample_world)) ++ [VStr "drx"])%list.
Proof.
  split; [reflexivity|split; [by_eval|]].
  apply (register_commit_stale env0 drx_registration (VStr "Dr X") (VStr "drx") "pw" (VStr "x@h.com")
           (VStr "555") (w_db initial_world) sample_world [] []).
  reflexivity.
Defined.
End ConcurrencyWitnesses.
